(** * insert-tools: the BCSS product mapper, the HTTP client and the batch runner

    A shallow embedding of [bcss_api_integration.py] and [excel_api_tool.py].

    - Python scalars are [pyval]; an empty spreadsheet cell is the float
      [NaN], as pandas reads it.  Exceptions are the error monad [pyres];
      the HTTP client runs in a state-and-error monad over the log of the
      requests issued so far.
    - A [float] is a binary64 of [SpecFloat]: [float(...)] rounds to
      nearest, ties to even, and [int(...)] truncates.  Only [repr] of a
      finite float is left abstract ([float_repr]).
    - Text is a [string] of UTF-8 bytes, read as the sequence of its
      characters.  [lower], [upper], [strip] and [isdigit] follow [str] of
      CPython 3.11 (Unicode 14.0): the case mappings with their
      multi-character results and the final sigma, the Unicode white space
      and the characters with a digit value; [float] reads the Unicode
      decimal digits and white space as their ASCII counterparts.
    - A product row is the list of its column labels with their cells.
      A label is a value: a text, or a number for a header that is one.
      The labels are distinct, as pandas makes them.
    - [pd.Series(product_data)] of [create_single_product] is a parameter
      ([series]): what pandas makes of the values of a dictionary is not
      modelled. *)

From Stdlib Require Import ZArith String Ascii List Bool Lia.
From Stdlib Require Import Floats.SpecFloat.
From stdpp Require Import base tactics option list list_numbers strings pretty gmap.

Local Open Scope string_scope.
Local Open Scope Z_scope.

(** ** Text *)

Module Str.

(** *** ASCII *)

Definition is_upper (c : ascii) : bool :=
  let n := nat_of_ascii c in (65 <=? n)%nat && (n <=? 90)%nat.

Definition is_lower (c : ascii) : bool :=
  let n := nat_of_ascii c in (97 <=? n)%nat && (n <=? 122)%nat.

Definition is_digit (c : ascii) : bool :=
  let n := nat_of_ascii c in (48 <=? n)%nat && (n <=? 57)%nat.

(** [str.isspace] on ASCII: tab, line feed, vertical tab, form feed,
    carriage return, the separators 0x1c to 0x1f and the space. *)
Definition is_space (c : ascii) : bool :=
  let n := nat_of_ascii c in
  ((9 <=? n)%nat && (n <=? 13)%nat) || ((28 <=? n)%nat && (n <=? 32)%nat).

Definition lower_char (c : ascii) : ascii :=
  if is_upper c then ascii_of_nat (nat_of_ascii c + 32) else c.

Definition upper_char (c : ascii) : ascii :=
  if is_lower c then ascii_of_nat (nat_of_ascii c - 32) else c.

Fixpoint map (f : ascii -> ascii) (s : string) : string :=
  match s with
  | EmptyString => EmptyString
  | String c r => String (f c) (map f r)
  end.

Fixpoint all (p : ascii -> bool) (s : string) : bool :=
  match s with
  | EmptyString => true
  | String c r => p c && all p r
  end.

(** *** Characters

    A text of Python is a sequence of characters (code points); here it is
    the string of their UTF-8 bytes.  [chars] cuts a text into its
    characters, each the string of its one to four bytes, and loses no
    byte. *)

Definition byte (c : ascii) : Z := Z.of_nat (nat_of_ascii c).

Definition char (n : Z) : ascii := ascii_of_nat (Z.to_nat n).

Definition is_continuation (c : ascii) : bool := (128 <=? byte c) && (byte c <? 192).

(** [cur] holds the bytes read of a character that has [more] bytes to
    come.  A byte out of place ends the character before it and stands
    alone; no text of Python has one. *)
Fixpoint chars_from (cur : string) (more : nat) (s : string) : list string :=
  match s with
  | EmptyString => match cur with EmptyString => [] | _ => [cur] end
  | String c r =>
      let fresh :=
        if byte c <? 192 then String c "" :: chars_from "" 0 r
        else if byte c <? 224 then chars_from (String c "") 1 r
        else if byte c <? 240 then chars_from (String c "") 2 r
        else chars_from (String c "") 3 r in
      match more with
      | O => fresh
      | S k =>
          if is_continuation c then
            match k with
            | O => (cur +:+ String c "") :: chars_from "" 0 r
            | S _ => chars_from (cur +:+ String c "") k r
            end
          else cur :: fresh
      end
  end.

Definition chars (s : string) : list string := chars_from "" 0 s.

Fixpoint concat (l : list string) : string :=
  match l with
  | [] => ""
  | s :: r => s +:+ concat r
  end.

(** The UTF-8 bytes of a code point. *)
Definition encode_cp (c : Z) : string :=
  if c <? 128 then String (char c) ""
  else if c <? 2048 then
    String (char (192 + c / 64)) (String (char (128 + c mod 64)) "")
  else if c <? 65536 then
    String (char (224 + c / 4096))
      (String (char (128 + (c / 64) mod 64)) (String (char (128 + c mod 64)) ""))
  else
    String (char (240 + c / 262144))
      (String (char (128 + (c / 4096) mod 64))
         (String (char (128 + (c / 64) mod 64)) (String (char (128 + c mod 64)) ""))).

Definition encode (l : list Z) : string := concat (List.map encode_cp l).

(** The code point of a character; [None] for bytes that are not the
    UTF-8 form of a code point. *)
Definition code_of (ch : string) : option Z :=
  let c :=
    match ch with
    | String a "" => byte a
    | String a (String b "") => (byte a - 192) * 64 + (byte b - 128)
    | String a (String b (String c "")) =>
        ((byte a - 224) * 64 + (byte b - 128)) * 64 + (byte c - 128)
    | String a (String b (String c (String d ""))) =>
        (((byte a - 240) * 64 + (byte b - 128)) * 64 + (byte c - 128)) * 64
        + (byte d - 128)
    | _ => -1
    end in
  if String.eqb (encode_cp c) ch then Some c else None.

(** *** The character tables of Unicode 14.0, as in CPython 3.11 *)

Fixpoint in_ranges (c : Z) (t : list (Z * Z)) : bool :=
  match t with
  | [] => false
  | (lo, hi) :: r => ((lo <=? c) && (c <=? hi)) || in_ranges c r
  end.

Fixpoint shifted (c : Z) (t : list (Z * Z * Z * Z)) : Z :=
  match t with
  | [] => c
  | (lo, hi, step, delta) :: r =>
      if (lo <=? c) && (c <=? hi) && ((c - lo) mod step =? 0) then c + delta
      else shifted c r
  end.

Fixpoint special (c : Z) (t : list (Z * list Z)) : option (list Z) :=
  match t with
  | [] => None
  | (k, v) :: r => if k =? c then Some v else special c r
  end.

(** The simple lower-case mappings outside ASCII: a character [c] with
    [lo <= c <= hi] and [(c - lo) mod step = 0] becomes [c + delta]. *)
Definition lower_ranges : list (Z * Z * Z * Z) := [
    (192, 214, 1, 32); (216, 222, 1, 32); (256, 302, 2, 1); (306, 310, 2, 1);
    (313, 327, 2, 1); (330, 374, 2, 1); (376, 376, 1, (-121)); (377, 381, 2, 1);
    (385, 385, 1, 210); (386, 388, 2, 1); (390, 390, 1, 206); (391, 391, 1, 1);
    (393, 394, 1, 205); (395, 395, 1, 1); (398, 398, 1, 79); (399, 399, 1, 202);
    (400, 400, 1, 203); (401, 401, 1, 1); (403, 403, 1, 205); (404, 404, 1, 207);
    (406, 406, 1, 211); (407, 407, 1, 209); (408, 408, 1, 1); (412, 412, 1, 211);
    (413, 413, 1, 213); (415, 415, 1, 214); (416, 420, 2, 1); (422, 422, 1, 218);
    (423, 423, 1, 1); (425, 425, 1, 218); (428, 428, 1, 1); (430, 430, 1, 218);
    (431, 431, 1, 1); (433, 434, 1, 217); (435, 437, 2, 1); (439, 439, 1, 219);
    (440, 440, 1, 1); (444, 444, 1, 1); (452, 452, 1, 2); (453, 453, 1, 1);
    (455, 455, 1, 2); (456, 456, 1, 1); (458, 458, 1, 2); (459, 475, 2, 1);
    (478, 494, 2, 1); (497, 497, 1, 2); (498, 500, 2, 1); (502, 502, 1, (-97));
    (503, 503, 1, (-56)); (504, 542, 2, 1); (544, 544, 1, (-130)); (546, 562, 2, 1);
    (570, 570, 1, 10795); (571, 571, 1, 1); (573, 573, 1, (-163)); (574, 574, 1, 10792);
    (577, 577, 1, 1); (579, 579, 1, (-195)); (580, 580, 1, 69); (581, 581, 1, 71);
    (582, 590, 2, 1); (880, 882, 2, 1); (886, 886, 1, 1); (895, 895, 1, 116);
    (902, 902, 1, 38); (904, 906, 1, 37); (908, 908, 1, 64); (910, 911, 1, 63);
    (913, 929, 1, 32); (931, 939, 1, 32); (975, 975, 1, 8); (984, 1006, 2, 1);
    (1012, 1012, 1, (-60)); (1015, 1015, 1, 1); (1017, 1017, 1, (-7)); (1018, 1018, 1, 1);
    (1021, 1023, 1, (-130)); (1024, 1039, 1, 80); (1040, 1071, 1, 32); (1120, 1152, 2, 1);
    (1162, 1214, 2, 1); (1216, 1216, 1, 15); (1217, 1229, 2, 1); (1232, 1326, 2, 1);
    (1329, 1366, 1, 48); (4256, 4293, 1, 7264); (4295, 4295, 1, 7264); (4301, 4301, 1, 7264);
    (5024, 5103, 1, 38864); (5104, 5109, 1, 8); (7312, 7354, 1, (-3008)); (7357, 7359, 1, (-3008));
    (7680, 7828, 2, 1); (7838, 7838, 1, (-7615)); (7840, 7934, 2, 1); (7944, 7951, 1, (-8));
    (7960, 7965, 1, (-8)); (7976, 7983, 1, (-8)); (7992, 7999, 1, (-8)); (8008, 8013, 1, (-8));
    (8025, 8031, 2, (-8)); (8040, 8047, 1, (-8)); (8072, 8079, 1, (-8)); (8088, 8095, 1, (-8));
    (8104, 8111, 1, (-8)); (8120, 8121, 1, (-8)); (8122, 8123, 1, (-74)); (8124, 8124, 1, (-9));
    (8136, 8139, 1, (-86)); (8140, 8140, 1, (-9)); (8152, 8153, 1, (-8)); (8154, 8155, 1, (-100));
    (8168, 8169, 1, (-8)); (8170, 8171, 1, (-112)); (8172, 8172, 1, (-7)); (8184, 8185, 1, (-128));
    (8186, 8187, 1, (-126)); (8188, 8188, 1, (-9)); (8486, 8486, 1, (-7517)); (8490, 8490, 1, (-8383));
    (8491, 8491, 1, (-8262)); (8498, 8498, 1, 28); (8544, 8559, 1, 16); (8579, 8579, 1, 1);
    (9398, 9423, 1, 26); (11264, 11311, 1, 48); (11360, 11360, 1, 1); (11362, 11362, 1, (-10743));
    (11363, 11363, 1, (-3814)); (11364, 11364, 1, (-10727)); (11367, 11371, 2, 1); (11373, 11373, 1, (-10780));
    (11374, 11374, 1, (-10749)); (11375, 11375, 1, (-10783)); (11376, 11376, 1, (-10782)); (11378, 11378, 1, 1);
    (11381, 11381, 1, 1); (11390, 11391, 1, (-10815)); (11392, 11490, 2, 1); (11499, 11501, 2, 1);
    (11506, 11506, 1, 1); (42560, 42604, 2, 1); (42624, 42650, 2, 1); (42786, 42798, 2, 1);
    (42802, 42862, 2, 1); (42873, 42875, 2, 1); (42877, 42877, 1, (-35332)); (42878, 42886, 2, 1);
    (42891, 42891, 1, 1); (42893, 42893, 1, (-42280)); (42896, 42898, 2, 1); (42902, 42920, 2, 1);
    (42922, 42922, 1, (-42308)); (42923, 42923, 1, (-42319)); (42924, 42924, 1, (-42315)); (42925, 42925, 1, (-42305));
    (42926, 42926, 1, (-42308)); (42928, 42928, 1, (-42258)); (42929, 42929, 1, (-42282)); (42930, 42930, 1, (-42261));
    (42931, 42931, 1, 928); (42932, 42946, 2, 1); (42948, 42948, 1, (-48)); (42949, 42949, 1, (-42307));
    (42950, 42950, 1, (-35384)); (42951, 42953, 2, 1); (42960, 42960, 1, 1); (42966, 42968, 2, 1);
    (42997, 42997, 1, 1); (65313, 65338, 1, 32); (66560, 66599, 1, 40); (66736, 66771, 1, 40);
    (66928, 66964, 2, 39); (66929, 66938, 1, 39); (66941, 66954, 1, 39); (66957, 66962, 1, 39);
    (66965, 66965, 1, 39); (68736, 68786, 1, 64); (71840, 71871, 1, 32); (93760, 93791, 1, 32);
    (125184, 125217, 1, 34)
  ].

(** The simple upper-case mappings outside ASCII, in the same form. *)
Definition upper_ranges : list (Z * Z * Z * Z) := [
    (181, 181, 1, 743); (224, 246, 1, (-32)); (248, 254, 1, (-32)); (255, 255, 1, 121);
    (257, 303, 2, (-1)); (305, 305, 1, (-232)); (307, 311, 2, (-1)); (314, 328, 2, (-1));
    (331, 375, 2, (-1)); (378, 382, 2, (-1)); (383, 383, 1, (-300)); (384, 384, 1, 195);
    (387, 389, 2, (-1)); (392, 392, 1, (-1)); (396, 396, 1, (-1)); (402, 402, 1, (-1));
    (405, 405, 1, 97); (409, 409, 1, (-1)); (410, 410, 1, 163); (414, 414, 1, 130);
    (417, 421, 2, (-1)); (424, 424, 1, (-1)); (429, 429, 1, (-1)); (432, 432, 1, (-1));
    (436, 438, 2, (-1)); (441, 441, 1, (-1)); (445, 445, 1, (-1)); (447, 447, 1, 56);
    (453, 453, 1, (-1)); (454, 454, 1, (-2)); (456, 456, 1, (-1)); (457, 457, 1, (-2));
    (459, 459, 1, (-1)); (460, 460, 1, (-2)); (462, 476, 2, (-1)); (477, 477, 1, (-79));
    (479, 495, 2, (-1)); (498, 498, 1, (-1)); (499, 499, 1, (-2)); (501, 501, 1, (-1));
    (505, 543, 2, (-1)); (547, 563, 2, (-1)); (572, 572, 1, (-1)); (575, 576, 1, 10815);
    (578, 578, 1, (-1)); (583, 591, 2, (-1)); (592, 592, 1, 10783); (593, 593, 1, 10780);
    (594, 594, 1, 10782); (595, 595, 1, (-210)); (596, 596, 1, (-206)); (598, 599, 1, (-205));
    (601, 601, 1, (-202)); (603, 603, 1, (-203)); (604, 604, 1, 42319); (608, 608, 1, (-205));
    (609, 609, 1, 42315); (611, 611, 1, (-207)); (613, 613, 1, 42280); (614, 614, 1, 42308);
    (616, 616, 1, (-209)); (617, 617, 1, (-211)); (618, 618, 1, 42308); (619, 619, 1, 10743);
    (620, 620, 1, 42305); (623, 623, 1, (-211)); (625, 625, 1, 10749); (626, 626, 1, (-213));
    (629, 629, 1, (-214)); (637, 637, 1, 10727); (640, 640, 1, (-218)); (642, 642, 1, 42307);
    (643, 643, 1, (-218)); (647, 647, 1, 42282); (648, 648, 1, (-218)); (649, 649, 1, (-69));
    (650, 651, 1, (-217)); (652, 652, 1, (-71)); (658, 658, 1, (-219)); (669, 669, 1, 42261);
    (670, 670, 1, 42258); (837, 837, 1, 84); (881, 883, 2, (-1)); (887, 887, 1, (-1));
    (891, 893, 1, 130); (940, 940, 1, (-38)); (941, 943, 1, (-37)); (945, 961, 1, (-32));
    (962, 962, 1, (-31)); (963, 971, 1, (-32)); (972, 972, 1, (-64)); (973, 974, 1, (-63));
    (976, 976, 1, (-62)); (977, 977, 1, (-57)); (981, 981, 1, (-47)); (982, 982, 1, (-54));
    (983, 983, 1, (-8)); (985, 1007, 2, (-1)); (1008, 1008, 1, (-86)); (1009, 1009, 1, (-80));
    (1010, 1010, 1, 7); (1011, 1011, 1, (-116)); (1013, 1013, 1, (-96)); (1016, 1016, 1, (-1));
    (1019, 1019, 1, (-1)); (1072, 1103, 1, (-32)); (1104, 1119, 1, (-80)); (1121, 1153, 2, (-1));
    (1163, 1215, 2, (-1)); (1218, 1230, 2, (-1)); (1231, 1231, 1, (-15)); (1233, 1327, 2, (-1));
    (1377, 1414, 1, (-48)); (4304, 4346, 1, 3008); (4349, 4351, 1, 3008); (5112, 5117, 1, (-8));
    (7296, 7296, 1, (-6254)); (7297, 7297, 1, (-6253)); (7298, 7298, 1, (-6244)); (7299, 7300, 1, (-6242));
    (7301, 7301, 1, (-6243)); (7302, 7302, 1, (-6236)); (7303, 7303, 1, (-6181)); (7304, 7304, 1, 35266);
    (7545, 7545, 1, 35332); (7549, 7549, 1, 3814); (7566, 7566, 1, 35384); (7681, 7829, 2, (-1));
    (7835, 7835, 1, (-59)); (7841, 7935, 2, (-1)); (7936, 7943, 1, 8); (7952, 7957, 1, 8);
    (7968, 7975, 1, 8); (7984, 7991, 1, 8); (8000, 8005, 1, 8); (8017, 8023, 2, 8);
    (8032, 8039, 1, 8); (8048, 8049, 1, 74); (8050, 8053, 1, 86); (8054, 8055, 1, 100);
    (8056, 8057, 1, 128); (8058, 8059, 1, 112); (8060, 8061, 1, 126); (8112, 8113, 1, 8);
    (8126, 8126, 1, (-7205)); (8144, 8145, 1, 8); (8160, 8161, 1, 8); (8165, 8165, 1, 7);
    (8526, 8526, 1, (-28)); (8560, 8575, 1, (-16)); (8580, 8580, 1, (-1)); (9424, 9449, 1, (-26));
    (11312, 11359, 1, (-48)); (11361, 11361, 1, (-1)); (11365, 11365, 1, (-10795)); (11366, 11366, 1, (-10792));
    (11368, 11372, 2, (-1)); (11379, 11379, 1, (-1)); (11382, 11382, 1, (-1)); (11393, 11491, 2, (-1));
    (11500, 11502, 2, (-1)); (11507, 11507, 1, (-1)); (11520, 11557, 1, (-7264)); (11559, 11559, 1, (-7264));
    (11565, 11565, 1, (-7264)); (42561, 42605, 2, (-1)); (42625, 42651, 2, (-1)); (42787, 42799, 2, (-1));
    (42803, 42863, 2, (-1)); (42874, 42876, 2, (-1)); (42879, 42887, 2, (-1)); (42892, 42892, 1, (-1));
    (42897, 42899, 2, (-1)); (42900, 42900, 1, 48); (42903, 42921, 2, (-1)); (42933, 42947, 2, (-1));
    (42952, 42954, 2, (-1)); (42961, 42961, 1, (-1)); (42967, 42969, 2, (-1)); (42998, 42998, 1, (-1));
    (43859, 43859, 1, (-928)); (43888, 43967, 1, (-38864)); (65345, 65370, 1, (-32)); (66600, 66639, 1, (-40));
    (66776, 66811, 1, (-40)); (66967, 67003, 2, (-39)); (66968, 66977, 1, (-39)); (66980, 66993, 1, (-39));
    (66996, 67001, 1, (-39)); (67004, 67004, 1, (-39)); (68800, 68850, 1, (-64)); (71872, 71903, 1, (-32));
    (93792, 93823, 1, (-32)); (125218, 125251, 1, (-34))
  ].

(** The characters whose upper case has more than one character. *)
Definition upper_special : list (Z * list Z) := [
    (223, [83; 83]); (329, [700; 78]); (496, [74; 780]); (912, [921; 776; 769]);
    (944, [933; 776; 769]); (1415, [1333; 1362]); (7830, [72; 817]); (7831, [84; 776]);
    (7832, [87; 778]); (7833, [89; 778]); (7834, [65; 702]); (8016, [933; 787]);
    (8018, [933; 787; 768]); (8020, [933; 787; 769]); (8022, [933; 787; 834]); (8064, [7944; 921]);
    (8065, [7945; 921]); (8066, [7946; 921]); (8067, [7947; 921]); (8068, [7948; 921]);
    (8069, [7949; 921]); (8070, [7950; 921]); (8071, [7951; 921]); (8072, [7944; 921]);
    (8073, [7945; 921]); (8074, [7946; 921]); (8075, [7947; 921]); (8076, [7948; 921]);
    (8077, [7949; 921]); (8078, [7950; 921]); (8079, [7951; 921]); (8080, [7976; 921]);
    (8081, [7977; 921]); (8082, [7978; 921]); (8083, [7979; 921]); (8084, [7980; 921]);
    (8085, [7981; 921]); (8086, [7982; 921]); (8087, [7983; 921]); (8088, [7976; 921]);
    (8089, [7977; 921]); (8090, [7978; 921]); (8091, [7979; 921]); (8092, [7980; 921]);
    (8093, [7981; 921]); (8094, [7982; 921]); (8095, [7983; 921]); (8096, [8040; 921]);
    (8097, [8041; 921]); (8098, [8042; 921]); (8099, [8043; 921]); (8100, [8044; 921]);
    (8101, [8045; 921]); (8102, [8046; 921]); (8103, [8047; 921]); (8104, [8040; 921]);
    (8105, [8041; 921]); (8106, [8042; 921]); (8107, [8043; 921]); (8108, [8044; 921]);
    (8109, [8045; 921]); (8110, [8046; 921]); (8111, [8047; 921]); (8114, [8122; 921]);
    (8115, [913; 921]); (8116, [902; 921]); (8118, [913; 834]); (8119, [913; 834; 921]);
    (8124, [913; 921]); (8130, [8138; 921]); (8131, [919; 921]); (8132, [905; 921]);
    (8134, [919; 834]); (8135, [919; 834; 921]); (8140, [919; 921]); (8146, [921; 776; 768]);
    (8147, [921; 776; 769]); (8150, [921; 834]); (8151, [921; 776; 834]); (8162, [933; 776; 768]);
    (8163, [933; 776; 769]); (8164, [929; 787]); (8166, [933; 834]); (8167, [933; 776; 834]);
    (8178, [8186; 921]); (8179, [937; 921]); (8180, [911; 921]); (8182, [937; 834]);
    (8183, [937; 834; 921]); (8188, [937; 921]); (64256, [70; 70]); (64257, [70; 73]);
    (64258, [70; 76]); (64259, [70; 70; 73]); (64260, [70; 70; 76]); (64261, [83; 84]);
    (64262, [83; 84]); (64275, [1348; 1350]); (64276, [1348; 1333]); (64277, [1348; 1339]);
    (64278, [1358; 1350]); (64279, [1348; 1341])
  ].

(** The cased characters outside ASCII that are not case-ignorable. *)
Definition cased_ranges : list (Z * Z) := [
    (170, 170); (181, 181); (186, 186); (192, 214); (216, 246); (248, 442);
    (444, 447); (452, 659); (661, 687); (880, 883); (886, 887); (891, 893);
    (895, 895); (902, 902); (904, 906); (908, 908); (910, 929); (931, 1013);
    (1015, 1153); (1162, 1327); (1329, 1366); (1376, 1416); (4256, 4293); (4295, 4295);
    (4301, 4301); (4304, 4346); (4349, 4351); (5024, 5109); (5112, 5117); (7296, 7304);
    (7312, 7354); (7357, 7359); (7424, 7467); (7531, 7543); (7545, 7578); (7680, 7957);
    (7960, 7965); (7968, 8005); (8008, 8013); (8016, 8023); (8025, 8025); (8027, 8027);
    (8029, 8029); (8031, 8061); (8064, 8116); (8118, 8124); (8126, 8126); (8130, 8132);
    (8134, 8140); (8144, 8147); (8150, 8155); (8160, 8172); (8178, 8180); (8182, 8188);
    (8450, 8450); (8455, 8455); (8458, 8467); (8469, 8469); (8473, 8477); (8484, 8484);
    (8486, 8486); (8488, 8488); (8490, 8493); (8495, 8500); (8505, 8505); (8508, 8511);
    (8517, 8521); (8526, 8526); (8544, 8575); (8579, 8580); (9398, 9449); (11264, 11387);
    (11390, 11492); (11499, 11502); (11506, 11507); (11520, 11557); (11559, 11559); (11565, 11565);
    (42560, 42605); (42624, 42651); (42786, 42863); (42865, 42887); (42891, 42894); (42896, 42954);
    (42960, 42961); (42963, 42963); (42965, 42969); (42997, 42998); (43002, 43002); (43824, 43866);
    (43872, 43880); (43888, 43967); (64256, 64262); (64275, 64279); (65313, 65338); (65345, 65370);
    (66560, 66639); (66736, 66771); (66776, 66811); (66928, 66938); (66940, 66954); (66956, 66962);
    (66964, 66965); (66967, 66977); (66979, 66993); (66995, 67001); (67003, 67004); (68736, 68786);
    (68800, 68850); (71840, 71903); (93760, 93823); (119808, 119892); (119894, 119964); (119966, 119967);
    (119970, 119970); (119973, 119974); (119977, 119980); (119982, 119993); (119995, 119995); (119997, 120003);
    (120005, 120069); (120071, 120074); (120077, 120084); (120086, 120092); (120094, 120121); (120123, 120126);
    (120128, 120132); (120134, 120134); (120138, 120144); (120146, 120485); (120488, 120512); (120514, 120538);
    (120540, 120570); (120572, 120596); (120598, 120628); (120630, 120654); (120656, 120686); (120688, 120712);
    (120714, 120744); (120746, 120770); (120772, 120779); (122624, 122633); (122635, 122654); (125184, 125251);
    (127280, 127305); (127312, 127337); (127344, 127369)
  ].

(** The case-ignorable characters outside ASCII. *)
Definition case_ignorable_ranges : list (Z * Z) := [
    (168, 168); (173, 173); (175, 175); (180, 180); (183, 184); (688, 879);
    (884, 885); (890, 890); (900, 901); (903, 903); (1155, 1161); (1369, 1369);
    (1375, 1375); (1425, 1469); (1471, 1471); (1473, 1474); (1476, 1477); (1479, 1479);
    (1524, 1524); (1536, 1541); (1552, 1562); (1564, 1564); (1600, 1600); (1611, 1631);
    (1648, 1648); (1750, 1757); (1759, 1768); (1770, 1773); (1807, 1807); (1809, 1809);
    (1840, 1866); (1958, 1968); (2027, 2037); (2042, 2042); (2045, 2045); (2070, 2093);
    (2137, 2139); (2184, 2184); (2192, 2193); (2200, 2207); (2249, 2306); (2362, 2362);
    (2364, 2364); (2369, 2376); (2381, 2381); (2385, 2391); (2402, 2403); (2417, 2417);
    (2433, 2433); (2492, 2492); (2497, 2500); (2509, 2509); (2530, 2531); (2558, 2558);
    (2561, 2562); (2620, 2620); (2625, 2626); (2631, 2632); (2635, 2637); (2641, 2641);
    (2672, 2673); (2677, 2677); (2689, 2690); (2748, 2748); (2753, 2757); (2759, 2760);
    (2765, 2765); (2786, 2787); (2810, 2815); (2817, 2817); (2876, 2876); (2879, 2879);
    (2881, 2884); (2893, 2893); (2901, 2902); (2914, 2915); (2946, 2946); (3008, 3008);
    (3021, 3021); (3072, 3072); (3076, 3076); (3132, 3132); (3134, 3136); (3142, 3144);
    (3146, 3149); (3157, 3158); (3170, 3171); (3201, 3201); (3260, 3260); (3263, 3263);
    (3270, 3270); (3276, 3277); (3298, 3299); (3328, 3329); (3387, 3388); (3393, 3396);
    (3405, 3405); (3426, 3427); (3457, 3457); (3530, 3530); (3538, 3540); (3542, 3542);
    (3633, 3633); (3636, 3642); (3654, 3662); (3761, 3761); (3764, 3772); (3782, 3782);
    (3784, 3789); (3864, 3865); (3893, 3893); (3895, 3895); (3897, 3897); (3953, 3966);
    (3968, 3972); (3974, 3975); (3981, 3991); (3993, 4028); (4038, 4038); (4141, 4144);
    (4146, 4151); (4153, 4154); (4157, 4158); (4184, 4185); (4190, 4192); (4209, 4212);
    (4226, 4226); (4229, 4230); (4237, 4237); (4253, 4253); (4348, 4348); (4957, 4959);
    (5906, 5908); (5938, 5939); (5970, 5971); (6002, 6003); (6068, 6069); (6071, 6077);
    (6086, 6086); (6089, 6099); (6103, 6103); (6109, 6109); (6155, 6159); (6211, 6211);
    (6277, 6278); (6313, 6313); (6432, 6434); (6439, 6440); (6450, 6450); (6457, 6459);
    (6679, 6680); (6683, 6683); (6742, 6742); (6744, 6750); (6752, 6752); (6754, 6754);
    (6757, 6764); (6771, 6780); (6783, 6783); (6823, 6823); (6832, 6862); (6912, 6915);
    (6964, 6964); (6966, 6970); (6972, 6972); (6978, 6978); (7019, 7027); (7040, 7041);
    (7074, 7077); (7080, 7081); (7083, 7085); (7142, 7142); (7144, 7145); (7149, 7149);
    (7151, 7153); (7212, 7219); (7222, 7223); (7288, 7293); (7376, 7378); (7380, 7392);
    (7394, 7400); (7405, 7405); (7412, 7412); (7416, 7417); (7468, 7530); (7544, 7544);
    (7579, 7679); (8125, 8125); (8127, 8129); (8141, 8143); (8157, 8159); (8173, 8175);
    (8189, 8190); (8203, 8207); (8216, 8217); (8228, 8228); (8231, 8231); (8234, 8238);
    (8288, 8292); (8294, 8303); (8305, 8305); (8319, 8319); (8336, 8348); (8400, 8432);
    (11388, 11389); (11503, 11505); (11631, 11631); (11647, 11647); (11744, 11775); (11823, 11823);
    (12293, 12293); (12330, 12333); (12337, 12341); (12347, 12347); (12441, 12446); (12540, 12542);
    (40981, 40981); (42232, 42237); (42508, 42508); (42607, 42610); (42612, 42621); (42623, 42623);
    (42652, 42655); (42736, 42737); (42752, 42785); (42864, 42864); (42888, 42890); (42994, 42996);
    (43000, 43001); (43010, 43010); (43014, 43014); (43019, 43019); (43045, 43046); (43052, 43052);
    (43204, 43205); (43232, 43249); (43263, 43263); (43302, 43309); (43335, 43345); (43392, 43394);
    (43443, 43443); (43446, 43449); (43452, 43453); (43471, 43471); (43493, 43494); (43561, 43566);
    (43569, 43570); (43573, 43574); (43587, 43587); (43596, 43596); (43632, 43632); (43644, 43644);
    (43696, 43696); (43698, 43700); (43703, 43704); (43710, 43711); (43713, 43713); (43741, 43741);
    (43756, 43757); (43763, 43764); (43766, 43766); (43867, 43871); (43881, 43883); (44005, 44005);
    (44008, 44008); (44013, 44013); (64286, 64286); (64434, 64450); (65024, 65039); (65043, 65043);
    (65056, 65071); (65106, 65106); (65109, 65109); (65279, 65279); (65287, 65287); (65294, 65294);
    (65306, 65306); (65342, 65342); (65344, 65344); (65392, 65392); (65438, 65439); (65507, 65507);
    (65529, 65531); (66045, 66045); (66272, 66272); (66422, 66426); (67456, 67461); (67463, 67504);
    (67506, 67514); (68097, 68099); (68101, 68102); (68108, 68111); (68152, 68154); (68159, 68159);
    (68325, 68326); (68900, 68903); (69291, 69292); (69446, 69456); (69506, 69509); (69633, 69633);
    (69688, 69702); (69744, 69744); (69747, 69748); (69759, 69761); (69811, 69814); (69817, 69818);
    (69821, 69821); (69826, 69826); (69837, 69837); (69888, 69890); (69927, 69931); (69933, 69940);
    (70003, 70003); (70016, 70017); (70070, 70078); (70089, 70092); (70095, 70095); (70191, 70193);
    (70196, 70196); (70198, 70199); (70206, 70206); (70367, 70367); (70371, 70378); (70400, 70401);
    (70459, 70460); (70464, 70464); (70502, 70508); (70512, 70516); (70712, 70719); (70722, 70724);
    (70726, 70726); (70750, 70750); (70835, 70840); (70842, 70842); (70847, 70848); (70850, 70851);
    (71090, 71093); (71100, 71101); (71103, 71104); (71132, 71133); (71219, 71226); (71229, 71229);
    (71231, 71232); (71339, 71339); (71341, 71341); (71344, 71349); (71351, 71351); (71453, 71455);
    (71458, 71461); (71463, 71467); (71727, 71735); (71737, 71738); (71995, 71996); (71998, 71998);
    (72003, 72003); (72148, 72151); (72154, 72155); (72160, 72160); (72193, 72202); (72243, 72248);
    (72251, 72254); (72263, 72263); (72273, 72278); (72281, 72283); (72330, 72342); (72344, 72345);
    (72752, 72758); (72760, 72765); (72767, 72767); (72850, 72871); (72874, 72880); (72882, 72883);
    (72885, 72886); (73009, 73014); (73018, 73018); (73020, 73021); (73023, 73029); (73031, 73031);
    (73104, 73105); (73109, 73109); (73111, 73111); (73459, 73460); (78896, 78904); (92912, 92916);
    (92976, 92982); (92992, 92995); (94031, 94031); (94095, 94111); (94176, 94177); (94179, 94180);
    (110576, 110579); (110581, 110587); (110589, 110590); (113821, 113822); (113824, 113827); (118528, 118573);
    (118576, 118598); (119143, 119145); (119155, 119170); (119173, 119179); (119210, 119213); (119362, 119364);
    (121344, 121398); (121403, 121452); (121461, 121461); (121476, 121476); (121499, 121503); (121505, 121519);
    (122880, 122886); (122888, 122904); (122907, 122913); (122915, 122916); (122918, 122922); (123184, 123197);
    (123566, 123566); (123628, 123631); (125136, 125142); (125252, 125259); (127995, 127999); (917505, 917505);
    (917536, 917631); (917760, 917999)
  ].

(** The characters outside ASCII on which [isdigit] holds. *)
Definition digit_ranges : list (Z * Z) := [
    (178, 179); (185, 185); (1632, 1641); (1776, 1785); (1984, 1993); (2406, 2415);
    (2534, 2543); (2662, 2671); (2790, 2799); (2918, 2927); (3046, 3055); (3174, 3183);
    (3302, 3311); (3430, 3439); (3558, 3567); (3664, 3673); (3792, 3801); (3872, 3881);
    (4160, 4169); (4240, 4249); (4969, 4977); (6112, 6121); (6160, 6169); (6470, 6479);
    (6608, 6618); (6784, 6793); (6800, 6809); (6992, 7001); (7088, 7097); (7232, 7241);
    (7248, 7257); (8304, 8304); (8308, 8313); (8320, 8329); (9312, 9320); (9332, 9340);
    (9352, 9360); (9450, 9450); (9461, 9469); (9471, 9471); (10102, 10110); (10112, 10120);
    (10122, 10130); (42528, 42537); (43216, 43225); (43264, 43273); (43472, 43481); (43504, 43513);
    (43600, 43609); (44016, 44025); (65296, 65305); (66720, 66729); (68160, 68163); (68912, 68921);
    (69216, 69224); (69714, 69722); (69734, 69743); (69872, 69881); (69942, 69951); (70096, 70105);
    (70384, 70393); (70736, 70745); (70864, 70873); (71248, 71257); (71360, 71369); (71472, 71481);
    (71904, 71913); (72016, 72025); (72784, 72793); (73040, 73049); (73120, 73129); (92768, 92777);
    (92864, 92873); (93008, 93017); (120782, 120831); (123200, 123209); (123632, 123641); (125264, 125273);
    (127232, 127242); (130032, 130041)
  ].

(** The decimal digits outside ASCII: in each range the digits [0] to [9]
    follow one another, so that the value is [(c - lo) mod 10]. *)
Definition decimal_ranges : list (Z * Z) := [
    (1632, 1641); (1776, 1785); (1984, 1993); (2406, 2415); (2534, 2543); (2662, 2671);
    (2790, 2799); (2918, 2927); (3046, 3055); (3174, 3183); (3302, 3311); (3430, 3439);
    (3558, 3567); (3664, 3673); (3792, 3801); (3872, 3881); (4160, 4169); (4240, 4249);
    (6112, 6121); (6160, 6169); (6470, 6479); (6608, 6617); (6784, 6793); (6800, 6809);
    (6992, 7001); (7088, 7097); (7232, 7241); (7248, 7257); (42528, 42537); (43216, 43225);
    (43264, 43273); (43472, 43481); (43504, 43513); (43600, 43609); (44016, 44025); (65296, 65305);
    (66720, 66729); (68912, 68921); (69734, 69743); (69872, 69881); (69942, 69951); (70096, 70105);
    (70384, 70393); (70736, 70745); (70864, 70873); (71248, 71257); (71360, 71369); (71472, 71481);
    (71904, 71913); (72016, 72025); (72784, 72793); (73040, 73049); (73120, 73129); (92768, 92777);
    (92864, 92873); (93008, 93017); (120782, 120831); (123200, 123209); (123632, 123641); (125264, 125273);
    (130032, 130041)
  ].

(** The white space outside ASCII. *)
Definition space_ranges : list (Z * Z) := [
    (133, 133); (160, 160); (5760, 5760); (8192, 8202); (8232, 8233); (8239, 8239);
    (8287, 8287); (12288, 12288)
  ].

(** [_PyUnicode_ToLowerFull]: the lower case of a character; only U+0130
    gives two characters. *)
Definition lower_cp (c : Z) : list Z :=
  if c <? 128 then [if (65 <=? c) && (c <=? 90) then c + 32 else c]
  else if c =? 304 then [105; 775]
  else [shifted c lower_ranges].

(** [_PyUnicode_ToUpperFull] *)
Definition upper_cp (c : Z) : list Z :=
  if c <? 128 then [if (97 <=? c) && (c <=? 122) then c - 32 else c]
  else
    match special c upper_special with
    | Some l => l
    | None => [shifted c upper_ranges]
    end.

(** [_PyUnicode_IsCaseIgnorable], and [_PyUnicode_IsCased] on the
    characters that are not case-ignorable, where [lower] consults it. *)
Definition case_ignorable_cp (c : Z) : bool :=
  if c <? 128 then (c =? 39) || (c =? 46) || (c =? 58) || (c =? 94) || (c =? 96)
  else in_ranges c case_ignorable_ranges.

Definition cased_cp (c : Z) : bool :=
  if c <? 128 then ((65 <=? c) && (c <=? 90)) || ((97 <=? c) && (c <=? 122))
  else in_ranges c cased_ranges.

Definition is_digit_cp (c : Z) : bool :=
  if c <? 128 then (48 <=? c) && (c <=? 57) else in_ranges c digit_ranges.

Definition is_space_cp (c : Z) : bool :=
  if c <? 128 then ((9 <=? c) && (c <=? 13)) || ((28 <=? c) && (c <=? 32))
  else in_ranges c space_ranges.

(** [Py_UNICODE_TODECIMAL] outside ASCII: the value of a decimal digit *)
Fixpoint decimal_value (c : Z) (t : list (Z * Z)) : option Z :=
  match t with
  | [] => None
  | (lo, hi) :: r =>
      if (lo <=? c) && (c <=? hi) then Some ((c - lo) mod 10) else decimal_value c r
  end.

Definition case_ignorable (ch : string) : bool :=
  match code_of ch with Some c => case_ignorable_cp c | None => false end.

Definition cased (ch : string) : bool :=
  match code_of ch with Some c => cased_cp c | None => false end.

Definition is_digit_char (ch : string) : bool :=
  match code_of ch with Some c => is_digit_cp c | None => false end.

Definition is_space_char (ch : string) : bool :=
  match code_of ch with Some c => is_space_cp c | None => false end.

(** *** [s.lower()] and [s.upper()] *)

(** What follows a capital sigma: case-ignorable characters, then a cased
    one. *)
Fixpoint cased_follows (l : list string) : bool :=
  match l with
  | [] => false
  | ch :: r => if case_ignorable ch then cased_follows r else cased ch
  end.

(** Every character gets its lower case, except the capital sigma
    (U+03A3), which becomes the final sigma (U+03C2) when it ends a word:
    it comes after a cased character, case-ignorable ones apart
    ([after_cased]), and none follows it. *)
Fixpoint lower_chars (after_cased : bool) (l : list string) : string :=
  match l with
  | [] => ""
  | ch :: r =>
      let out :=
        match code_of ch with
        | Some c =>
            if c =? 931
            then encode_cp (if after_cased && negb (cased_follows r) then 962 else 963)
            else encode (lower_cp c)
        | None => ch
        end in
      out +:+ lower_chars (if case_ignorable ch then after_cased else cased ch) r
  end.

Definition lower (s : string) : string := lower_chars false (chars s).

Definition upper_char_u (ch : string) : string :=
  match code_of ch with
  | Some c => encode (upper_cp c)
  | None => ch
  end.

Definition upper (s : string) : string := concat (List.map upper_char_u (chars s)).

(** *** [s.strip()] *)

Fixpoint lstrip_chars (l : list string) : list string :=
  match l with
  | ch :: r => if is_space_char ch then lstrip_chars r else l
  | [] => []
  end.

(** A character is kept when it is not white space or when something is
    kept after it. *)
Fixpoint rstrip_chars (l : list string) : list string :=
  match l with
  | [] => []
  | ch :: r =>
      match rstrip_chars r with
      | [] => if is_space_char ch then [] else [ch]
      | r' => ch :: r'
      end
  end.

Definition lstrip (s : string) : string := concat (lstrip_chars (chars s)).
Definition rstrip (s : string) : string := concat (rstrip_chars (chars s)).

Definition strip (s : string) : string :=
  concat (rstrip_chars (lstrip_chars (chars s))).

(** [sub in s] *)
Fixpoint contains (sub s : string) : bool :=
  String.prefix sub s ||
  match s with
  | EmptyString => false
  | String _ r => contains sub r
  end.

(** [s.isdigit()]: at least one character, all of them digits *)
Definition isdigit (s : string) : bool :=
  match chars s with
  | [] => false
  | l => forallb is_digit_char l
  end.

(** [s.replace(old, new)]: the occurrences of [old] are replaced from
    left to right without overlap; [skip] counts the characters of a
    replaced occurrence still to be dropped. *)
Fixpoint replace_go (old new : string) (skip : nat) (s : string) : string :=
  match s with
  | EmptyString => EmptyString
  | String c r =>
      match skip with
      | S k => replace_go old new k r
      | O =>
          if String.prefix old s
          then new +:+ replace_go old new (String.length old - 1) r
          else String c (replace_go old new 0 r)
      end
  end.

(** Every use in the source has a non-empty [old]. *)
Definition replace (old new s : string) : string := replace_go old new 0 s.

Definition eqb (a b : string) : bool := String.eqb a b.

Definition truthy (s : string) : bool :=
  match s with EmptyString => false | _ => true end.

(** For [float(s)]: [_PyUnicode_TransformDecimalAndSpaceToASCII] keeps the
    characters below 127, writes a space for white space and its ASCII
    digit for a decimal digit, and ends the text with a question mark at
    the first other character. *)
Fixpoint to_ascii_chars (l : list string) : string :=
  match l with
  | [] => ""
  | ch :: r =>
      match code_of ch with
      | Some c =>
          if c <? 127 then ch +:+ to_ascii_chars r
          else if is_space_cp c then String " " (to_ascii_chars r)
          else
            match decimal_value c decimal_ranges with
            | Some d => String (char (48 + d)) (to_ascii_chars r)
            | None => "?"
            end
      | None => "?"
      end
  end.

Definition to_ascii (s : string) : string := to_ascii_chars (chars s).

End Str.

(** ** Python values, exceptions and results *)

(** Binary64, as Python's [float]: [prec = 53], [emax = 1024]. *)
Definition prec64 : Z := 53.
Definition emax64 : Z := 1024.

(** The scalars a spreadsheet cell or a payload field holds.  [NaN] is
    [VFloat S754_nan], the way pandas reads an empty cell. *)
Inductive pyval : Type :=
| VNone
| VStr (s : string)
| VInt (z : Z)
| VFloat (f : spec_float).

Inductive exn_class : Type :=
| AttributeError
| ValueError
| TypeError
| OverflowError
| IndexError
| RequestException.

(** A raised exception: its class, [str(e)] and, when it carries an HTTP
    response, [e.response.text].  All classes above derive from
    [Exception]; [RequestException] stands for every exception of
    [requests.exceptions]. *)
Record pyexn : Type := PyExn {
  exn_cls : exn_class;
  exn_msg : string;
  exn_response_text : option string
}.

Definition Exn (c : exn_class) (msg : string) : pyexn := PyExn c msg None.

Inductive pyres (A : Type) : Type :=
| Ok (a : A)
| Raise (e : pyexn).
Arguments Ok {A} a.
Arguments Raise {A} e.

Definition bind {A B : Type} (m : pyres A) (k : A -> pyres B) : pyres B :=
  match m with
  | Ok a => k a
  | Raise e => Raise e
  end.

Declare Scope py_scope.
Delimit Scope py_scope with py.
Notation "x <- m ;; k" := (bind m (fun x => k))
  (at level 100, m at next level, right associativity) : py_scope.
Local Open Scope py_scope.

Definition is_ok {A : Type} (r : pyres A) : bool :=
  match r with Ok _ => true | Raise _ => false end.

Definition exn_class_eqb (a b : exn_class) : bool :=
  match a, b with
  | AttributeError, AttributeError | ValueError, ValueError
  | TypeError, TypeError | OverflowError, OverflowError
  | IndexError, IndexError | RequestException, RequestException => true
  | _, _ => false
  end.

(** [try: m except cls: h] *)
Definition try_except {A : Type} (m : pyres A) (catches : pyexn -> bool)
    (h : pyexn -> pyres A) : pyres A :=
  match m with
  | Ok a => Ok a
  | Raise e => if catches e then h e else Raise e
  end.

(** ** Floats: [float(x)] and [int(x)] *)

Module PyFloat.

Definition of_mantissa (neg : bool) (m : Z) : spec_float :=
  binary_normalize prec64 emax64 (if neg then - m else m) 0 neg.

(** The correctly rounded (nearest, ties to even) binary64 of
    [m * 10 ^ e10], for [0 <= m]. *)
Definition of_decimal (neg : bool) (m e10 : Z) : spec_float :=
  if m =? 0 then S754_zero neg
  else if 0 <=? e10 then of_mantissa neg (m * 10 ^ e10)
  else
    let '(q, e, l) := SFdiv_core_binary prec64 emax64 m 0 (10 ^ (- e10)) 0 in
    binary_round_aux prec64 emax64 neg q e l.

(** [float(n)] of an [int]: an integer that rounds to infinity raises. *)
Definition of_int (z : Z) : pyres spec_float :=
  match binary_normalize prec64 emax64 z 0 false with
  | S754_infinity _ =>
      Raise (Exn OverflowError "int too large to convert to float")
  | f => Ok f
  end.

(** [int(f)]: truncation towards zero. *)
Definition to_int (f : spec_float) : pyres Z :=
  match f with
  | S754_zero _ => Ok 0
  | S754_infinity _ =>
      Raise (Exn OverflowError "cannot convert float infinity to integer")
  | S754_nan => Raise (Exn ValueError "cannot convert float NaN to integer")
  | S754_finite s m e =>
      let a := Z.shiftl (Zpos m) e in Ok (if s then - a else a)
  end.

(** White space of the C locale, which [float(s)] skips at both ends. *)
Definition is_cspace (c : ascii) : bool :=
  let n := nat_of_ascii c in ((9 <=? n)%nat && (n <=? 13)%nat) || (n =? 32)%nat.

Fixpoint lskip (s : string) : string :=
  match s with
  | String c r => if is_cspace c then lskip r else s
  | EmptyString => EmptyString
  end.

Fixpoint rskip (s : string) : string :=
  match s with
  | EmptyString => EmptyString
  | String c r =>
      match rskip r with
      | EmptyString => if is_cspace c then EmptyString else String c EmptyString
      | r' => String c r'
      end
  end.

(** Underscores are allowed between two digits only; they are dropped.
    [prev] is the previous character ([None] at the start). *)
Fixpoint drop_underscores (prev : option ascii) (s : string) : option string :=
  let prev_digit := match prev with Some p => Str.is_digit p | None => false end in
  let prev_under := match prev with Some p => Ascii.eqb p "_"%char | None => false end in
  match s with
  | EmptyString => if prev_under then None else Some EmptyString
  | String c r =>
      if Ascii.eqb c "_"%char
      then if prev_digit then drop_underscores (Some c) r else None
      else if prev_under && negb (Str.is_digit c) then None
      else String c <$> drop_underscores (Some c) r
  end.

Definition digit_val (c : ascii) : Z := Z.of_nat (nat_of_ascii c) - 48.

(** Reads a run of digits: the number so far, how many digits were
    read, and the rest of the text. *)
Fixpoint digits (acc : Z) (n : Z) (s : string) : Z * Z * string :=
  match s with
  | String c r =>
      if Str.is_digit c then digits (10 * acc + digit_val c) (n + 1) r
      else (acc, n, s)
  | EmptyString => (acc, n, s)
  end.

Definition sign (s : string) : bool * string :=
  match s with
  | String c r =>
      if Ascii.eqb c "-"%char then (true, r)
      else if Ascii.eqb c "+"%char then (false, r)
      else (false, s)
  | EmptyString => (false, s)
  end.

(** The exponent part: [e] or [E], an optional sign and at least one
    digit; anything else is left unread. *)
Definition exponent (s : string) : Z * string :=
  match s with
  | String c r =>
      if Ascii.eqb c "e"%char || Ascii.eqb c "E"%char then
        let '(neg, r1) := sign r in
        let '(v, n, r2) := digits 0 0 r1 in
        if n =? 0 then (0, s) else (if neg then - v else v, r2)
      else (0, s)
  | EmptyString => (0, s)
  end.

Definition parse_number (neg : bool) (s : string) : option spec_float :=
  let '(ip, ni, r1) := digits 0 0 s in
  let '(m, nf, r2) :=
    match r1 with
    | String c r => if Ascii.eqb c "."%char then digits ip 0 r else (ip, 0, r1)
    | EmptyString => (ip, 0, r1)
    end in
  if ni + nf =? 0 then None
  else
    let '(e, r3) := exponent r2 in
    match r3 with
    | EmptyString => Some (of_decimal neg m (e - nf))
    | _ => None
    end.

(** "inf", "infinity" and "nan" are read in any case of the ASCII letters. *)
Definition parse (s : string) : option spec_float :=
  let '(neg, body) := sign s in
  let word := Str.map Str.lower_char body in
  if Str.eqb word "inf" || Str.eqb word "infinity" then Some (S754_infinity neg)
  else if Str.eqb word "nan" then Some S754_nan
  else parse_number neg body.

(** [float(s)] of a [str]: the text is first brought to ASCII. *)
Definition of_str (s : string) : pyres spec_float :=
  match drop_underscores None (rskip (lskip (Str.to_ascii s))) ≫= parse with
  | Some f => Ok f
  | None =>
      Raise (Exn ValueError ("could not convert string to float: '" +:+ s +:+ "'"))
  end.

End PyFloat.

(** ** Data model *)

(** One row of the mapping configuration, keyed by its BCSS field. *)
Record mapping_entry : Type := MappingEntry {
  excel_mapping : pyval;
  notes : pyval
}.

(** A product row ([pd.Series]) as [iterrows] yields it: the column labels
    in order, each with its cell.  The labels are distinct; the label of a
    header cell that holds a number is that number. *)
Definition excel_row : Type := list (pyval * pyval).

(** An entry of [productPriceDTOS] and of [productVatDTOS]; [price_id] is
    the key ["id"]. *)
Record price_dto : Type := PriceDTO {
  price : pyval;
  fromDate : pyval;
  toDate : pyval;
  price_id : pyval
}.

(** An entry of [attributeValueList]; [attr_id] is the key ["id"]. *)
Record attribute_entry : Type := AttributeEntry {
  attr_id : pyval;
  productCategoryAttributeId : Z;
  productCategoryAttributeValueId : string;
  attributeValue : pyval
}.

(** The payload dictionary.  A key that can be missing is an [option]:
    ["weight"] is deleted by the mapper and ["pckCode"] is only set from a
    row; [payload_id] is the key ["id"]. *)
Record payload : Type := Payload {
  productCode : pyval;
  productName : pyval;
  parentId : Z;
  productUom : string;
  weight : option pyval;
  checkQuantity : Z;
  checkSerial : Z;
  productStatus : Z;
  productDescription : string;
  productCategoryId : Z;
  productPriceDTOS : list price_dto;
  productVatDTOS : list price_dto;
  attributeValueList : list attribute_entry;
  productDescriptionEn : string;
  payload_id : pyval;
  productType : Z;
  pckCode : option pyval
}.

Definition _get_default_api_payload : payload := {|
  productCode := VStr "";
  productName := VStr "";
  parentId := 561;
  productUom := "01";
  weight := Some VNone;
  checkQuantity := 1;
  checkSerial := 1;
  productStatus := 1;
  productDescription := "";
  productCategoryId := 101;
  productPriceDTOS :=
    [ {| price := VInt 0; fromDate := VNone; toDate := VNone; price_id := VNone |} ];
  productVatDTOS :=
    [ {| price := VInt 10; fromDate := VNone; toDate := VNone; price_id := VNone |} ];
  attributeValueList := [];
  productDescriptionEn := "";
  payload_id := VNone;
  productType := 1;
  pckCode := None
|}.

(** The BCSS attribute fields and their [productCategoryAttributeId], in
    the order of the dictionary literal. *)
Definition _get_attribute_mapping : list (string * Z) := [
    ("Dung lượng tốc độ cao", 101);
    ("Loại gói", 102);
    ("eKYC (Xác minh danh tính)", 103);
    ("Hết tốc độ cao giảm xuống", 104);
    ("Chia sẻ Wifi", 105);
    ("Loại SIM", 106);
    ("Phạm vi phủ sóng", 107);
    ("SKUID", 108);
    ("Số ngày sử dụng", 109);
    ("Nhà cung cấp", 110)
  ].

(** National area names and their codes. *)
Definition _get_national_area_mapping : list (string * Z) := [
    ("Thailand", 21);
    ("Japan", 27);
    ("Taiwan", 32);
    ("Vietnam", 35);
    ("Netherlands", 49);
    ("Belgium", 50);
    ("Spain", 52);
    ("Estonia", 67);
    ("Asia 10 countries", 98);
    ("USA, Canada", 115);
    ("Madagascar", 125);
    ("Brazil", 22);
    ("Egypt", 24);
    ("India", 25);
    ("Philippines", 31);
    ("UAE", 33);
    ("USA", 34);
    ("HongKong", 36);
    ("Malaysia", 38);
    ("Singapore", 39);
    ("Sri Lanka", 43);
    ("Uzbekistan", 44);
    ("Greece", 48);
    ("France", 51);
    ("Hungary", 53);
    ("Croatia", 54);
    ("Italy", 55);
    ("Switzerland", 57);
    ("Czech", 58);
    ("United Kingdom", 60);
    ("Norway", 63);
    ("Portugal", 70);
    ("Luxembourg", 71);
    ("Republic of Ireland", 72);
    ("Iceland", 73);
    ("Turkey", 77);
    ("Liechtenstein", 79);
    ("Kuwait", 81);
    ("Kazakhstan", 84);
    ("Nicaragua", 87);
    ("Peru", 89);
    ("Argentina", 90);
    ("Chile", 91);
    ("Columbia", 92);
    ("Ecuador", 93);
    ("French Guiana", 94);
    ("Mexico", 96);
    ("Canada", 97);
    ("Asia 19 countries", 100);
    ("China Mainland, Macao", 105);
    ("Singapore, Malaysia, Thailand", 113);
    ("South America 11 countries", 161);
    ("Denmark", 61);
    ("Lithuania", 65);
    ("Latvia", 66);
    ("Australia, New Zealand", 102);
    ("Brazil, Chile", 103);
    ("China Mainland, Hong Kong, Macao", 104);
    ("Europe 33 Countries", 106);
    ("Austria", 107);
    ("Indonesia, Singapore, Malaysia, Thailand", 109);
    ("Jordan, Kuwait, Oman", 110);
    ("Singapore, Malaysia, Indonesia", 112);
    ("World Primary 70 Countries", 117);
    ("Saudi Arabia", 118);
    ("Qatar", 119);
    ("New Zealand", 120);
    ("Morocco", 121);
    ("Tunisia", 122);
    ("Seychelles", 123);
    ("Kenya", 124);
    ("South Africa", 126);
    ("Costa Rica", 127);
    ("Macau", 37);
    ("Cambodia", 40);
    ("Mongolia", 30);
    ("New Zealnd", 47);
    ("Slovakia", 59);
    ("Poland", 68);
    ("Malta", 74);
    ("Cyprus", 75);
    ("Jordan", 80);
    ("Russia", 83);
    ("Asia 14 countries", 99);
    ("China Mainland", 23);
    ("Israel", 26);
    ("Korea", 28);
    ("Laos", 29);
    ("Indonesia", 41);
    ("Pakistan", 42);
    ("Kyrgyzstan", 45);
    ("Australia", 46);
    ("Romania", 56);
    ("Sweden", 62);
    ("Finland", 64);
    ("Germany", 69);
    ("Bulgari", 76);
    ("Slovenia", 78);
    ("Oman", 82);
    ("Martinique Island", 85);
    ("El Salvado", 86);
    ("Panama", 88);
    ("Uruguay", 95);
    ("Asia 6 countries", 101);
    ("Hong Kong, Macao", 108);
    ("Russia, Kazakhstan, Uzbekistan, Pakistan", 111);
    ("South America 12 countries", 114);
    ("USA, Mexico", 116)
  ].

(** [d.get(key)] on a dictionary literal with distinct keys *)
Fixpoint dict_get (key : string) (d : list (string * Z)) : option Z :=
  match d with
  | [] => None
  | (k, v) :: r => if Str.eqb k key then Some v else dict_get key r
  end.

(** Updates of one key of a payload or of a price entry *)
Definition set_productCode v (p : payload) : payload :=
  {| productCode := v;
     productName := productName p;
     parentId := parentId p;
     productUom := productUom p;
     weight := weight p;
     checkQuantity := checkQuantity p;
     checkSerial := checkSerial p;
     productStatus := productStatus p;
     productDescription := productDescription p;
     productCategoryId := productCategoryId p;
     productPriceDTOS := productPriceDTOS p;
     productVatDTOS := productVatDTOS p;
     attributeValueList := attributeValueList p;
     productDescriptionEn := productDescriptionEn p;
     payload_id := payload_id p;
     productType := productType p;
     pckCode := pckCode p |}.

Definition set_productName v (p : payload) : payload :=
  {| productCode := productCode p;
     productName := v;
     parentId := parentId p;
     productUom := productUom p;
     weight := weight p;
     checkQuantity := checkQuantity p;
     checkSerial := checkSerial p;
     productStatus := productStatus p;
     productDescription := productDescription p;
     productCategoryId := productCategoryId p;
     productPriceDTOS := productPriceDTOS p;
     productVatDTOS := productVatDTOS p;
     attributeValueList := attributeValueList p;
     productDescriptionEn := productDescriptionEn p;
     payload_id := payload_id p;
     productType := productType p;
     pckCode := pckCode p |}.

Definition set_pckCode v (p : payload) : payload :=
  {| productCode := productCode p;
     productName := productName p;
     parentId := parentId p;
     productUom := productUom p;
     weight := weight p;
     checkQuantity := checkQuantity p;
     checkSerial := checkSerial p;
     productStatus := productStatus p;
     productDescription := productDescription p;
     productCategoryId := productCategoryId p;
     productPriceDTOS := productPriceDTOS p;
     productVatDTOS := productVatDTOS p;
     attributeValueList := attributeValueList p;
     productDescriptionEn := productDescriptionEn p;
     payload_id := payload_id p;
     productType := productType p;
     pckCode := v |}.

Definition set_productDescription v (p : payload) : payload :=
  {| productCode := productCode p;
     productName := productName p;
     parentId := parentId p;
     productUom := productUom p;
     weight := weight p;
     checkQuantity := checkQuantity p;
     checkSerial := checkSerial p;
     productStatus := productStatus p;
     productDescription := v;
     productCategoryId := productCategoryId p;
     productPriceDTOS := productPriceDTOS p;
     productVatDTOS := productVatDTOS p;
     attributeValueList := attributeValueList p;
     productDescriptionEn := productDescriptionEn p;
     payload_id := payload_id p;
     productType := productType p;
     pckCode := pckCode p |}.

Definition set_productDescriptionEn v (p : payload) : payload :=
  {| productCode := productCode p;
     productName := productName p;
     parentId := parentId p;
     productUom := productUom p;
     weight := weight p;
     checkQuantity := checkQuantity p;
     checkSerial := checkSerial p;
     productStatus := productStatus p;
     productDescription := productDescription p;
     productCategoryId := productCategoryId p;
     productPriceDTOS := productPriceDTOS p;
     productVatDTOS := productVatDTOS p;
     attributeValueList := attributeValueList p;
     productDescriptionEn := v;
     payload_id := payload_id p;
     productType := productType p;
     pckCode := pckCode p |}.

Definition set_weight v (p : payload) : payload :=
  {| productCode := productCode p;
     productName := productName p;
     parentId := parentId p;
     productUom := productUom p;
     weight := v;
     checkQuantity := checkQuantity p;
     checkSerial := checkSerial p;
     productStatus := productStatus p;
     productDescription := productDescription p;
     productCategoryId := productCategoryId p;
     productPriceDTOS := productPriceDTOS p;
     productVatDTOS := productVatDTOS p;
     attributeValueList := attributeValueList p;
     productDescriptionEn := productDescriptionEn p;
     payload_id := payload_id p;
     productType := productType p;
     pckCode := pckCode p |}.

Definition set_productPriceDTOS v (p : payload) : payload :=
  {| productCode := productCode p;
     productName := productName p;
     parentId := parentId p;
     productUom := productUom p;
     weight := weight p;
     checkQuantity := checkQuantity p;
     checkSerial := checkSerial p;
     productStatus := productStatus p;
     productDescription := productDescription p;
     productCategoryId := productCategoryId p;
     productPriceDTOS := v;
     productVatDTOS := productVatDTOS p;
     attributeValueList := attributeValueList p;
     productDescriptionEn := productDescriptionEn p;
     payload_id := payload_id p;
     productType := productType p;
     pckCode := pckCode p |}.

Definition set_productVatDTOS v (p : payload) : payload :=
  {| productCode := productCode p;
     productName := productName p;
     parentId := parentId p;
     productUom := productUom p;
     weight := weight p;
     checkQuantity := checkQuantity p;
     checkSerial := checkSerial p;
     productStatus := productStatus p;
     productDescription := productDescription p;
     productCategoryId := productCategoryId p;
     productPriceDTOS := productPriceDTOS p;
     productVatDTOS := v;
     attributeValueList := attributeValueList p;
     productDescriptionEn := productDescriptionEn p;
     payload_id := payload_id p;
     productType := productType p;
     pckCode := pckCode p |}.

Definition set_attributeValueList v (p : payload) : payload :=
  {| productCode := productCode p;
     productName := productName p;
     parentId := parentId p;
     productUom := productUom p;
     weight := weight p;
     checkQuantity := checkQuantity p;
     checkSerial := checkSerial p;
     productStatus := productStatus p;
     productDescription := productDescription p;
     productCategoryId := productCategoryId p;
     productPriceDTOS := productPriceDTOS p;
     productVatDTOS := productVatDTOS p;
     attributeValueList := v;
     productDescriptionEn := productDescriptionEn p;
     payload_id := payload_id p;
     productType := productType p;
     pckCode := pckCode p |}.

Definition set_price v (d : price_dto) : price_dto :=
  {| price := v; fromDate := fromDate d; toDate := toDate d; price_id := price_id d |}.

(** [datetime.now()]: the fields [strftime] prints. *)
Record datetime : Type := DateTime {
  year : Z; month : Z; day : Z; hour : Z; minute : Z; second : Z
}.

Definition digit_char (n : Z) : ascii := ascii_of_nat (48 + Z.to_nat (n mod 10)).

Definition two_digits (n : Z) : string :=
  String (digit_char (n / 10)) (String (digit_char n) "").

Definition four_digits (n : Z) : string :=
  two_digits (n / 100) +:+ two_digits n.

(** [now.strftime('%Y%m%d%H%M%S')]; the year is printed on four digits,
    as it is for the years 1000 to 9999. *)
Definition strftime_compact (now : datetime) : string :=
  four_digits (year now) +:+ two_digits (month now) +:+ two_digits (day now)
  +:+ two_digits (hour now) +:+ two_digits (minute now) +:+ two_digits (second now).

(** [for x in l: acc = step acc x], stopping at the first exception *)
Fixpoint for_each {A B : Type} (step : B -> A -> pyres B) (l : list A) (acc : B)
    : pyres B :=
  match l with
  | [] => Ok acc
  | x :: r => bind (step acc x) (for_each step r)
  end.

(** ** Operations on values *)

Section Mapper.

(** [repr] of a finite binary64 (the shortest text that reads back as
    the same float), which [str] prints; it is left abstract. *)
Context (float_repr : spec_float -> string).

(** [str(v)] *)
Definition py_str (v : pyval) : string :=
  match v with
  | VNone => "None"
  | VStr s => s
  | VInt z => pretty z
  | VFloat S754_nan => "nan"
  | VFloat (S754_infinity false) => "inf"
  | VFloat (S754_infinity true) => "-inf"
  | VFloat f => float_repr f
  end.

(** [pd.isna(v)] and [pd.notna(v)] on a scalar *)
Definition isna (v : pyval) : bool :=
  match v with
  | VNone | VFloat S754_nan => true
  | _ => false
  end.

Definition notna (v : pyval) : bool := negb (isna v).

(** Truth value of [v]: [None], the empty text and zero are false;
    [NaN] is true. *)
Definition py_truthy (v : pyval) : bool :=
  match v with
  | VNone => false
  | VStr s => Str.truthy s
  | VInt z => negb (z =? 0)
  | VFloat (S754_zero _) => false
  | VFloat _ => true
  end.

(** [v == s] for a text [s] *)
Definition eq_str (v : pyval) (s : string) : bool :=
  match v with
  | VStr t => Str.eqb t s
  | _ => false
  end.

Definition type_name (v : pyval) : string :=
  match v with
  | VNone => "NoneType"
  | VStr _ => "str"
  | VInt _ => "int"
  | VFloat _ => "float"
  end.

Definition no_attribute (v : pyval) (attr : string) : pyexn :=
  Exn AttributeError
    ("'" +:+ type_name v +:+ "' object has no attribute '" +:+ attr +:+ "'").

(** [v.lower()], [v.upper()] and [v.strip()]: only a [str] has the
    methods. *)
Definition py_lower (v : pyval) : pyres string :=
  match v with
  | VStr s => Ok (Str.lower s)
  | _ => Raise (no_attribute v "lower")
  end.

Definition py_upper (v : pyval) : pyres string :=
  match v with
  | VStr s => Ok (Str.upper s)
  | _ => Raise (no_attribute v "upper")
  end.

Definition py_strip (v : pyval) : pyres string :=
  match v with
  | VStr s => Ok (Str.strip s)
  | _ => Raise (no_attribute v "strip")
  end.

(** The integer that a float is equal to, when there is one. *)
Definition float_integer (f : spec_float) : option Z :=
  match f with
  | S754_zero _ => Some 0
  | S754_finite s m e =>
      let sign := if s then -1 else 1 in
      if 0 <=? e then Some (sign * (Zpos m * 2 ^ e))
      else if Zpos m mod 2 ^ (- e) =? 0 then Some (sign * (Zpos m / 2 ^ (- e)))
      else None
  | _ => None
  end.

(** [a == b] on scalars: an [int] and a [float] are equal when they are
    the same number, [NaN] is equal to nothing. *)
Definition py_eqb (a b : pyval) : bool :=
  match a, b with
  | VNone, VNone => true
  | VStr s, VStr t => Str.eqb s t
  | VInt x, VInt y => x =? y
  | VInt x, VFloat f | VFloat f, VInt x =>
      match float_integer f with Some y => x =? y | None => false end
  | VFloat f, VFloat g => SFeqb f g
  | _, _ => false
  end.

(** [float(v)] *)
Definition py_float (v : pyval) : pyres spec_float :=
  match v with
  | VStr s => PyFloat.of_str s
  | VInt z => PyFloat.of_int z
  | VFloat f => Ok f
  | VNone =>
      Raise (Exn TypeError
        "float() argument must be a string or a real number, not 'NoneType'")
  end.

(** ** The value normalizer *)

Definition _process_mapping_value (mapping_value notes : pyval) : pyres pyval :=
  if isna mapping_value || eq_str mapping_value "Trống" || eq_str mapping_value ""
  then Ok VNone
  else
    match mapping_value with
    | VStr s =>
        let mapping_str := Str.strip (Str.lower s) in
        if Str.contains "support" mapping_str then Ok (VStr "1")
        else
          (* elif notes and "support = có" in notes.lower(): *)
          by_note <- (if py_truthy notes
                      then (n <- py_lower notes ;; Ok (Str.contains "support = có" n))
                      else Ok false) ;;
          if by_note
          then Ok (VStr (if Str.eqb mapping_str "có" || Str.eqb mapping_str "yes"
                         then "1" else "0"))
          else if Str.contains "không bắt buộc" mapping_str then Ok (VStr "0")
          else Ok (VStr (py_str mapping_value))
    | _ => Ok (VStr (py_str mapping_value))
    end.


(** ** The field and attribute mapper *)

Definition is_none (v : pyval) : bool :=
  match v with VNone => true | _ => false end.

(** [col in row.index] for a text [col] holds when [row_get col row] is
    [Some cell], and [cell] is then [row[col]]. *)
Fixpoint row_get (col : string) (row : excel_row) : option pyval :=
  match row with
  | [] => None
  | (c, cell) :: r => if eq_str c col then Some cell else row_get col r
  end.

(** [col in excel_row.index] holds when [row_find col row] is [Some cell],
    and [cell] is then [excel_row[col]]: the cell of the label equal to
    [col].  Every use is guarded by [pd.notna(col)]. *)
Fixpoint row_find (col : pyval) (row : excel_row) : option pyval :=
  match row with
  | [] => None
  | (c, cell) :: r => if py_eqb c col then Some cell else row_find col r
  end.

Definition field_mappings : list (string * (pyval -> payload -> payload)) := [
    ("Mã sản phẩm", set_productCode);
    ("Tên sản phẩm", set_productName);
    ("SKY package code", fun v => set_pckCode (Some v))
  ].

Definition apply_field_mapping (mapping_data : gmap string mapping_entry)
    (row : excel_row) (p : payload)
    (fm : string * (pyval -> payload -> payload)) : pyres payload :=
  match mapping_data !! fst fm with
  | Some m =>
      let excel_col := excel_mapping m in
      if notna excel_col then
        match row_find excel_col row with
        | Some cell =>
            value <- _process_mapping_value cell (notes m) ;;
            Ok (if is_none value then p else snd fm value p)
        | None => Ok p
        end
      else Ok p
  | None => Ok p
  end.

(** [payload[key][0]["price"] = v] *)
Definition set_price0 (v : pyval) (l : list price_dto) : pyres (list price_dto) :=
  match l with
  | d :: r => Ok (set_price v d :: r)
  | [] => Raise (Exn IndexError "list index out of range")
  end.

Definition value_or_type_error (e : pyexn) : bool :=
  exn_class_eqb (exn_cls e) ValueError || exn_class_eqb (exn_cls e) TypeError.

(** The price and the VAT blocks: [field] is the BCSS field, [default]
    the number stored when [float] fails. *)
Definition map_price (mapping_data : gmap string mapping_entry) (row : excel_row)
    (field : string) (default : Z) (l : list price_dto) : pyres (list price_dto) :=
  match mapping_data !! field with
  | Some m =>
      let price_col := excel_mapping m in
      if notna price_col then
        match row_find price_col row with
        | Some price_value =>
            if notna price_value then
              try_except
                (f <- py_float price_value ;; set_price0 (VFloat f) l)
                value_or_type_error
                (fun _ => set_price0 (VInt default) l)
            else Ok l
        | None => Ok l
        end
      else Ok l
  | None => Ok l
  end.

(** The fall-back scan of the columns: the first label that contains the
    configured name, or is contained in it, decides; [break] ends the scan
    whether or not its cell gives a value. *)
Fixpoint find_similar (excel_col notes : pyval) (row : excel_row)
    (attribute_value : pyval) : pyres pyval :=
  match row with
  | [] => Ok attribute_value
  | (col, cell) :: rest =>
      name <- py_lower excel_col ;;
      label <- py_lower col ;;
      if Str.contains name label || Str.contains label name
      then
        value <- _process_mapping_value cell notes ;;
        Ok (if is_none value then attribute_value else value)
      else find_similar excel_col notes rest attribute_value
  end.

(** The value of one attribute before post-processing. *)
Definition resolve_attribute (bcss_field : string) (excel_col notes : pyval)
    (row : excel_row) : pyres pyval :=
  let attribute_value := VStr "" in
  if notna excel_col then
    if Str.eqb bcss_field "Chia sẻ Wifi" then
      match row_find excel_col row with
      | Some cell =>
          let value := Str.lower (py_str cell) in
          Ok (VStr (if Str.contains "support" value then "1" else "0"))
      | None => Ok (VStr "0")
      end
    else if Str.eqb bcss_field "Phạm vi phủ sóng" then
      match row_find excel_col row with
      | Some cell =>
          let area := py_str cell in
          Ok (match dict_get area _get_national_area_mapping with
              | Some code => VInt code
              | None => VStr area
              end)
      | None => Ok (VStr "")
      end
    else if eq_str excel_col "Không bắt buộc" then Ok (VStr "0")
    else if eq_str excel_col "SIM outbound" then Ok (VStr "SIM outbound")
    else if eq_str excel_col "Cái" then Ok (VStr "Cái")
    else if Str.contains "Text cố định" (py_str notes) then
      match row_find excel_col row with
      | Some cell =>
          if notna cell && negb (Str.eqb (Str.strip (py_str cell)) "")
          then _process_mapping_value cell notes
          else Ok excel_col
      | None => Ok excel_col
      end
    else
      match row_find excel_col row with
      | Some cell =>
          value <- _process_mapping_value cell notes ;;
          Ok (if is_none value then attribute_value else value)
      | None => find_similar excel_col notes row attribute_value
      end
  else Ok attribute_value.

Definition is_number (v : pyval) : bool :=
  match v with VInt _ | VFloat _ => true | _ => false end.

Definition is_digit_str (v : pyval) : bool :=
  match v with VStr s => Str.isdigit s | _ => false end.

(** [int(float(v))] *)
Definition int_of_float_of (v : pyval) : pyres Z :=
  f <- py_float v ;; PyFloat.to_int f.

(** Attribute 104, the throttled speed *)
Definition post_throttle (attribute_value : pyval) : pyres pyval :=
  if eq_str attribute_value "∞" || eq_str attribute_value "-1" then Ok VNone
  else if is_number attribute_value || is_digit_str attribute_value then
    n <- int_of_float_of attribute_value ;;
    Ok (VStr (pretty n +:+ " Kbps"))
  else
    match attribute_value with
    | VStr s =>
        let val := Str.replace " " "" s in
        if Str.eqb (Str.lower val) "1mbps" then Ok (VStr "1 Mbps")
        else if Str.contains "mbps" (Str.lower val) then
          Ok (VStr (Str.replace "mbps" " Mbps" (Str.replace "Mbps" " Mbps" s)))
        else if Str.contains "kbps" (Str.lower val) then
          Ok (VStr (Str.replace "kbps" " Kbps" (Str.replace "Kbps" " Kbps" s)))
        else Ok attribute_value
    | _ => Ok attribute_value
    end.

(** Attribute 106, the SIM type *)
Definition post_sim_type (attribute_value : pyval) : pyval :=
  let kind := Str.lower (Str.strip (py_str attribute_value)) in
  if Str.eqb kind "esim" then VStr "2"
  else if Str.eqb kind "sim card" then VStr "1"
  else attribute_value.

(** Attributes 107 and 109: an integer if possible, else [None]; the
    [except Exception] catches every exception of the conversion. *)
Definition post_integer (attribute_value : pyval) : pyval :=
  let attribute_value :=
    match attribute_value with
    | VStr s => VStr (Str.strip s)
    | _ => attribute_value
    end in
  if eq_str attribute_value "" || is_none attribute_value then VNone
  else
    match int_of_float_of attribute_value with
    | Ok n => VInt n
    | Raise _ => VNone
    end.

(** Attribute 101, the high speed data *)
Definition post_high_speed (attribute_value : pyval) : pyval :=
  if Str.eqb (Str.strip (py_str attribute_value)) "∞" then VNone
  else attribute_value.

Definition post_process (product_category_attribute_id : Z)
    (attribute_value : pyval) : pyres pyval :=
  let id := product_category_attribute_id in
  v <- (if id =? 104 then post_throttle attribute_value else Ok attribute_value) ;;
  let v := if id =? 106 then post_sim_type v else v in
  let v := if (id =? 107) || (id =? 109) then post_integer v else v in
  let v := if id =? 101 then post_high_speed v else v in
  Ok v.

(** The body of the attribute loop; [None] when the field is not in the
    mapping configuration and nothing is appended. *)
Definition attribute_of (mapping_data : gmap string mapping_entry)
    (row : excel_row) (attr : string * Z) : pyres (option attribute_entry) :=
  let '(bcss_field, product_category_attribute_id) := attr in
  match mapping_data !! bcss_field with
  | Some m =>
      v <- resolve_attribute bcss_field (excel_mapping m) (notes m) row ;;
      v <- post_process product_category_attribute_id v ;;
      Ok (Some {| attr_id := VNone;
                  productCategoryAttributeId := product_category_attribute_id;
                  productCategoryAttributeValueId := "";
                  attributeValue := v |})
  | None => Ok None
  end.

Definition append_attribute (mapping_data : gmap string mapping_entry)
    (row : excel_row) (attribute_list : list attribute_entry)
    (attr : string * Z) : pyres (list attribute_entry) :=
  e <- attribute_of mapping_data row attr ;;
  Ok (match e with
      | Some e => (attribute_list ++ [e])%list
      | None => attribute_list
      end).

(** The product code block: the last column of each kind decides; a label
    that is not a text has no [upper]. *)
Fixpoint scan_code_columns (row : excel_row) (skuid_value days_value : string)
    : pyres (string * string) :=
  match row with
  | [] => Ok (skuid_value, days_value)
  | (col, cell) :: rest =>
      upper <- py_upper col ;;
      let skuid_value :=
        if Str.contains "SKUID" upper && notna cell
        then py_str cell else skuid_value in
      stripped <- py_strip col ;;
      let days_value :=
        if Str.eqb (Str.lower stripped) "days" && notna cell
        then py_str cell else days_value in
      scan_code_columns rest skuid_value days_value
  end.

Definition generate_product_code (row : excel_row) (now : datetime) : pyres string :=
  codes <- scan_code_columns row "" "" ;;
  let '(skuid_value, days_value) := codes in
  Ok (if Str.truthy skuid_value && Str.truthy days_value
      then skuid_value +:+ "-" +:+ days_value
      else if Str.truthy skuid_value then skuid_value
      else "SIM-" +:+ strftime_compact now).

Definition transform_excel_row_to_api (mapping_data : gmap string mapping_entry)
    (now : datetime) (row : excel_row) : pyres payload :=
  let payload := _get_default_api_payload in
  payload <- for_each (apply_field_mapping mapping_data row) field_mappings payload ;;
  let payload :=
    set_productDescription "Thời gian sử dụng là số ngày kể từ ngày kích hoạt" payload in
  let payload :=
    set_productDescriptionEn
      "The usage period is the number of days from the activation date." payload in
  let payload := set_weight None payload in
  prices <- map_price mapping_data row "Giá hàng hóa" 0 (productPriceDTOS payload) ;;
  let payload := set_productPriceDTOS prices payload in
  vats <- map_price mapping_data row "VAT" 10 (productVatDTOS payload) ;;
  let payload := set_productVatDTOS vats payload in
  attribute_list <-
    for_each (append_attribute mapping_data row) _get_attribute_mapping [] ;;
  let payload := set_attributeValueList attribute_list payload in
  product_code <- generate_product_code row now ;;
  Ok (set_productCode (VStr product_code) payload).

End Mapper.

(** ** The HTTP client of [excel_api_tool.py] *)

Record APIConfig : Type := {
  url : string;
  method : string;
  headers : list (string * string);
  auth : option (string * string)
}.

Inductive http_verb : Type := POST | PUT.

(** A call of [requests.post] or [requests.put]. *)
Record http_request : Type := Request {
  req_verb : http_verb;
  req_url : string;
  req_json : payload;
  req_headers : list (string * string);
  req_auth : option (string * string)
}.

(** What the runner reads of a [requests.Response]: [json] is the result
    of [response.json()], which raises on a body that is not JSON. *)
Record Response : Type := {
  status_code : Z;
  reason : string;
  text : string;
  json : pyres string
}.

(** The remote side: given the requests issued so far and a new one, a
    response, or the exception [requests] raises (no connection, ...). *)
Definition network : Type := list http_request -> http_request -> pyres Response.

(** Computations that issue requests: the log of requests is threaded. *)
Definition http (A : Type) : Type := list http_request -> pyres A * list http_request.

Definition http_ret {A : Type} (a : A) : http A := fun log => (Ok a, log).

Definition http_raise {A : Type} (e : pyexn) : http A := fun log => (Raise e, log).

Definition http_bind {A B : Type} (m : http A) (k : A -> http B) : http B :=
  fun log =>
    match m log with
    | (Ok a, log') => k a log'
    | (Raise e, log') => (Raise e, log')
    end.

Definition http_call (net : network) (rq : http_request) : http Response :=
  fun log => (net log rq, (log ++ [rq])%list).

(** [response.ok]: [raise_for_status] would not raise. *)
Definition is_error_status (r : Response) : bool :=
  (400 <=? status_code r) && (status_code r <? 600).

Definition ok (r : Response) : bool := negb (is_error_status r).

(** [response.content] is true when the body is not empty. *)
Definition has_content (r : Response) : bool := Str.truthy (text r).

Definition http_error (u : string) (r : Response) : pyexn :=
  let kind := if status_code r <? 500 then " Client Error: " else " Server Error: " in
  PyExn RequestException
    (pretty (status_code r) +:+ kind +:+ reason r +:+ " for url: " +:+ u)
    (Some (text r)).

Definition raise_for_status (u : string) (r : Response) : http Response :=
  if is_error_status r then http_raise (http_error u r) else http_ret r.

Definition is_request_exception (e : pyexn) : bool :=
  exn_class_eqb (exn_cls e) RequestException.

(** [ExcelAPITool.send_to_api]; the handler of [RequestException] logs
    and raises the exception again. *)
Definition send_to_api (net : network) (api_config : APIConfig) (data : payload)
    : http Response :=
  let request verb :=
    http_call net
      {| req_verb := verb; req_url := url api_config; req_json := data;
         req_headers := headers api_config; req_auth := auth api_config |} in
  http_bind
    (if Str.eqb (Str.upper (method api_config)) "POST" then request POST
     else if Str.eqb (Str.upper (method api_config)) "PUT" then request PUT
     else http_raise
            (Exn ValueError ("Unsupported HTTP method: " +:+ method api_config)))
    (raise_for_status (url api_config)).

(** The double quote, for the header values that contain it. *)
Definition dq : string := String "034"%char "".

(** [BCSSAPIIntegration._setup_api_config] *)
Definition _setup_api_config (bearer_token : string) : APIConfig := {|
  url := "https://api-bcss-private.vnsky.vn/catalog-service/private/api/v1/product";
  method := "POST";
  headers := [
    ("accept", "*");
    ("accept-language", "vi-VN");
    ("authorization", "Bearer " +:+ bearer_token);
    ("origin", "https://bcss.vnsky.vn");
    ("priority", "u=1, i");
    ("referer", "https://bcss.vnsky.vn/");
    ("sec-ch-ua",
       dq +:+ "Chromium" +:+ dq +:+ ";v=" +:+ dq +:+ "136" +:+ dq +:+ ", "
       +:+ dq +:+ "Google Chrome" +:+ dq +:+ ";v=" +:+ dq +:+ "136" +:+ dq +:+ ", "
       +:+ dq +:+ "Not.A/Brand" +:+ dq +:+ ";v=" +:+ dq +:+ "99" +:+ dq);
    ("sec-ch-ua-mobile", "?0");
    ("sec-ch-ua-platform", dq +:+ "Windows" +:+ dq);
    ("sec-fetch-dest", "empty");
    ("sec-fetch-mode", "cors");
    ("sec-fetch-site", "same-site");
    ("user-agent",
       "Mozilla/5.0 (Windows NT 10.0; Win64; x64) AppleWebKit/537.36 (KHTML, like Gecko) Chrome/136.0.0.0 Safari/537.36");
    ("Content-Type", "application/json")
  ];
  auth := None
|}.

(** ** The batch runner *)

(** The four shapes of a result dictionary appended by
    [process_excel_file]; every one has the keys ["row"] and ["status"]. *)
Inductive process_result : Type :=
| DryRun (row : Z) (product_code : pyval) (api_payload : payload)
| Sent (row : Z) (product_code : pyval) (status : string) (response_status : Z)
       (response_data : option string) (response_body : option string)
| RequestFailed (row : Z) (product_code : pyval) (error : string)
       (response_body : option string)
| RowFailed (row : Z) (error : string).

Definition result_row (r : process_result) : Z :=
  match r with
  | DryRun row _ _ | Sent row _ _ _ _ _ | RequestFailed row _ _ _ | RowFailed row _ => row
  end.

Definition result_status (r : process_result) : string :=
  match r with
  | DryRun _ _ _ => "dry_run"
  | Sent _ _ status _ _ _ => status
  | RequestFailed _ _ _ _ | RowFailed _ _ => "failed"
  end.

Definition result_error (r : process_result) : option string :=
  match r with
  | RequestFailed _ _ error _ | RowFailed _ error => Some error
  | _ => None
  end.

Definition result_payload (r : process_result) : option payload :=
  match r with
  | DryRun _ _ api_payload => Some api_payload
  | _ => None
  end.

Section Runner.

Context (float_repr : spec_float -> string).
(** The remote side and the clock read when a row is transformed. *)
Context (net : network) (now : Z -> datetime).
(** [self.mapping_data] and [self.api_config] *)
Context (mapping_data : gmap string mapping_entry) (api_config : APIConfig).

(** What the inner [try] computes from the outcome of [send_to_api]. *)
Definition sent_result (index : Z) (api_payload : payload) (sent : pyres Response)
    : pyres process_result :=
  response <- sent ;;
  let response_body := if has_content response then Some (text response) else None in
  response_data <-
    (if has_content response then (j <- json response ;; Ok (Some j)) else Ok None) ;;
  Ok (Sent (index + 1) (productCode api_payload)
        (if ok response then "success" else "failed")
        (status_code response) response_data response_body).

(** The body of the loop for a row that is not skipped: exactly one
    result, whatever is raised. *)
Definition process_row (dry_run : bool) (index : Z) (row : excel_row)
    (log : list http_request) : process_result * list http_request :=
  match transform_excel_row_to_api float_repr mapping_data (now index) row with
  | Raise e => (RowFailed (index + 1) (exn_msg e), log)
  | Ok api_payload =>
      if dry_run
      then (DryRun (index + 1) (productCode api_payload) api_payload, log)
      else
        let '(sent, log') := send_to_api net api_config api_payload log in
        match sent_result index api_payload sent with
        | Ok result => (result, log')
        | Raise e =>
            if is_request_exception e
            then (RequestFailed (index + 1) (productCode api_payload)
                    (exn_msg e) (exn_response_text e), log')
            else (RowFailed (index + 1) (exn_msg e), log')
        end
  end.

(** [for index, row in product_data.iterrows()], from [index] on. *)
Fixpoint process_rows (dry_run : bool) (start_row : Z) (index : Z)
    (rows : list excel_row) (results : list process_result)
    (log : list http_request) : list process_result * list http_request :=
  match rows with
  | [] => (results, log)
  | row :: rest =>
      if index + 1 <? start_row
      then process_rows dry_run start_row (index + 1) rest results log
      else
        let '(result, log') := process_row dry_run index row log in
        process_rows dry_run start_row (index + 1) rest
          (results ++ [result])%list log'
  end.

Definition process_excel_file (product_data : list excel_row) (dry_run : bool)
    (start_row : Z) (log : list http_request)
    : list process_result * list http_request :=
  process_rows dry_run start_row 0 product_data [] log.

End Runner.

(** ** The mapping sheet: [load_excel_mapping] *)

(** A row of the configuration sheet: the cells of the three columns
    "KHAI BÁO SẢN PHẨM TRÊN BCSS", "MAPPING SẢN PHẨM TRÊN FILE EXCEL VNSKY
    GỬI" and "GHI CHÚ". *)
Record mapping_row : Type := MappingRow {
  bcss_field_cell : pyval;
  excel_mapping_cell : pyval;
  notes_cell : pyval
}.

(** The rows with an empty first cell are dropped and every other row is
    stored under its first cell, a later row replacing an earlier one.
    [mapping_data] is the dictionary before the call.  Only the text keys
    are kept: every reader looks a text up, so that a key that is a number
    is never found. *)
Definition load_excel_mapping (excel_data : list mapping_row)
    (mapping_data : gmap string mapping_entry) : gmap string mapping_entry :=
  fold_left
    (fun mapping_data row =>
       match bcss_field_cell row with
       | VStr bcss_field =>
           <[bcss_field := MappingEntry (excel_mapping_cell row) (notes_cell row)]>
             mapping_data
       | _ => mapping_data
       end)
    excel_data mapping_data.

(** ** [ExcelAPITool]: the generic tool of [excel_api_tool.py] *)

Module Tool.

(** [APIConfig(url, method, headers, auth)]: [__post_init__] replaces missing
    headers by the JSON content type. *)
Definition make_config (u : string) (m : string)
    (h : option (list (string * string))) (a : option (string * string))
    : APIConfig :=
  {| url := u; method := m;
     headers := match h with
                | Some h => h
                | None => [("Content-Type", "application/json")]
                end;
     auth := a |}.

(** The tool: [self.data] is the loaded frame, each row with its index
    label ([0], [1], ... when read from a file), and [self.column_mapping]
    the items of the dictionary from column names to API field names. *)
Record state : Type := State {
  data : option (list (Z * excel_row));
  column_mapping : list (string * string)
}.

Definition set_column_mapping (mapping : list (string * string)) (self : state)
    : state :=
  {| data := data self; column_mapping := mapping |}.

(** [df.head(rows)]: the first [rows] rows, or all but the last [-rows]. *)
Definition head {A : Type} (rows : Z) (l : list A) : list A :=
  if 0 <=? rows then take (Z.to_nat rows) l
  else take (length l - Z.to_nat (- rows)) l.

Definition preview_data (self : state) (rows : Z) : pyres (list (Z * excel_row)) :=
  match data self with
  | None => Raise (Exn ValueError "No data loaded. Call load_excel_data() first.")
  | Some d => Ok (head rows d)
  end.

(** The dictionary sent for a row: a column of the mapping that the row
    does not have is skipped, an empty cell becomes [None]. *)
Definition transform_row_to_api_format (mapping : list (string * string))
    (row : excel_row) : gmap string pyval :=
  fold_left
    (fun api_data item =>
       match row_get item.1 row with
       | Some value => <[item.2 := if isna value then VNone else value]> api_data
       | None => api_data
       end)
    mapping ∅.

Section Send.

(** The type of the dictionaries that are sent. *)
Context {D : Type}.

Record request : Type := Request {
  verb : http_verb;
  target : string;
  body : D;
  request_headers : list (string * string);
  request_auth : option (string * string)
}.

Definition network : Type := list request -> request -> pyres Response.

(** [ExcelAPITool.send_to_api] on any dictionary. *)
Definition send_to_api (net : network) (api_config : APIConfig) (api_data : D)
    (log : list request) : pyres Response * list request :=
  let call v :=
    let rq := {| verb := v; target := url api_config; body := api_data;
                 request_headers := headers api_config;
                 request_auth := auth api_config |} in
    (net log rq, (log ++ [rq])%list) in
  let '(sent, log') :=
    if Str.eqb (Str.upper (method api_config)) "POST" then call POST
    else if Str.eqb (Str.upper (method api_config)) "PUT" then call PUT
    else (Raise (Exn ValueError ("Unsupported HTTP method: " +:+ method api_config)),
          log) in
  match sent with
  | Ok response =>
      if is_error_status response
      then (Raise (http_error (url api_config) response), log')
      else (Ok response, log')
  | Raise e => (Raise e, log')
  end.

End Send.

(** The three shapes of a result dictionary of [process_all_rows]. *)
Inductive row_result : Type :=
| RowDryRun (row : Z) (api_data : gmap string pyval)
| RowSuccess (row : Z) (api_data : gmap string pyval) (response_status : Z)
| RowFailed (row : Z) (error : string).

Definition row_of (r : row_result) : Z :=
  match r with
  | RowDryRun row _ | RowSuccess row _ _ | RowFailed row _ => row
  end.

Definition status_of (r : row_result) : string :=
  match r with
  | RowDryRun _ _ => "dry_run"
  | RowSuccess _ _ _ => "success"
  | RowFailed _ _ => "failed"
  end.

Definition process_one (net : network) (mapping : list (string * string))
    (api_config : APIConfig) (dry_run : bool) (indexed : Z * excel_row)
    (log : list request) : row_result * list request :=
  let '(index, row) := indexed in
  let api_data := transform_row_to_api_format mapping row in
  if dry_run then (RowDryRun (index + 1) api_data, log)
  else
    match send_to_api net api_config api_data log with
    | (Ok response, log') =>
        (RowSuccess (index + 1) api_data (status_code response), log')
    | (Raise e, log') => (RowFailed (index + 1) (exn_msg e), log')
    end.

Fixpoint process_each (net : network) (mapping : list (string * string))
    (api_config : APIConfig) (dry_run : bool) (rows : list (Z * excel_row))
    (results : list row_result) (log : list request)
    : list row_result * list request :=
  match rows with
  | [] => (results, log)
  | indexed :: rest =>
      let '(result, log') := process_one net mapping api_config dry_run indexed log in
      process_each net mapping api_config dry_run rest (results ++ [result])%list log'
  end.

(** [process_all_rows]; the batch size is not used by the source. *)
Definition process_all_rows (net : network) (self : state) (api_config : APIConfig)
    (dry_run : bool) (log : list request)
    : pyres (list row_result) * list request :=
  match data self with
  | None => (Raise (Exn ValueError "No data loaded. Call load_excel_data() first."), log)
  | Some rows =>
      match column_mapping self with
      | [] =>
          (Raise (Exn ValueError
                    "No column mapping set. Call set_column_mapping() first."), log)
      | _ =>
          let '(results, log') :=
            process_each net (column_mapping self) api_config dry_run rows [] log in
          (Ok results, log')
      end
  end.

End Tool.

(** ** One product and the deletion of a range of products *)

(** The three shapes of the dictionary returned by [create_single_product]. *)
Inductive single_result : Type :=
| SingleDryRun (product_code : pyval) (api_payload : payload)
| SingleSuccess (product_code : pyval) (response_status : Z)
    (response_data : option string)
| SingleFailed (error : string).

Definition single_status (r : single_result) : string :=
  match r with
  | SingleDryRun _ _ => "dry_run"
  | SingleSuccess _ _ _ => "success"
  | SingleFailed _ => "failed"
  end.

(** The dictionary given to [create_single_product]: its keys in order,
    each with its value. *)
Definition product_dict : Type := list (pyval * pyval).

Section Single.

Context (float_repr : spec_float -> string).
(** [pd.Series(product_data)]: the row that pandas builds of a dictionary;
    it keeps the keys as labels and brings the values to a common type
    (integers next to a float become floats).  Of a dictionary of scalars
    the construction returns.  It is left abstract. *)
Context (series : product_dict -> excel_row).
Context (net : network) (now : datetime).
Context (mapping_data : gmap string mapping_entry) (api_config : APIConfig).

(** [create_single_product] on a dictionary of cells; every exception ends
    in the result. *)
Definition create_single_product (product_data : product_dict) (dry_run : bool)
    (log : list http_request) : single_result * list http_request :=
  match transform_excel_row_to_api float_repr mapping_data now (series product_data)
  with
  | Raise e => (SingleFailed (exn_msg e), log)
  | Ok api_payload =>
      if dry_run then (SingleDryRun (productCode api_payload) api_payload, log)
      else
        let '(sent, log') := send_to_api net api_config api_payload log in
        match (response <- sent ;;
               response_data <-
                 (if has_content response then (j <- json response ;; Ok (Some j))
                  else Ok None) ;;
               Ok (SingleSuccess (productCode api_payload) (status_code response)
                     response_data)) with
        | Ok result => (result, log')
        | Raise e => (SingleFailed (exn_msg e), log')
        end
  end.

End Single.

(** A call of [requests.delete]. *)
Record delete_request : Type := DeleteRequest {
  delete_url : string;
  delete_headers : list (string * string)
}.

Definition delete_network : Type :=
  list delete_request -> delete_request -> pyres Response.

(** The two shapes of a result of [delete_products_by_id_range]. *)
Inductive delete_result : Type :=
| Deleted (product_id : Z) (status : string) (response_status : Z)
    (response_data : option string) (response_body : string)
| DeleteFailed (product_id : Z) (error : string).

Definition deleted_id (r : delete_result) : Z :=
  match r with Deleted product_id _ _ _ _ | DeleteFailed product_id _ => product_id end.

Definition delete_status (r : delete_result) : string :=
  match r with
  | Deleted _ status _ _ _ => status
  | DeleteFailed _ _ => "failed"
  end.

Definition product_url (product_id : Z) : string :=
  "https://api-bcss-private.vnsky.vn/catalog-service/private/api/v1/product/"
  +:+ pretty product_id.

(** The headers of the deletion: those of [_setup_api_config] without the
    content type. *)
Definition deletion_headers (bearer_token : string) : list (string * string) := [
    ("accept", "*");
    ("accept-language", "vi-VN");
    ("authorization", "Bearer " +:+ bearer_token);
    ("origin", "https://bcss.vnsky.vn");
    ("priority", "u=1, i");
    ("referer", "https://bcss.vnsky.vn/");
    ("sec-ch-ua",
       dq +:+ "Chromium" +:+ dq +:+ ";v=" +:+ dq +:+ "136" +:+ dq +:+ ", "
       +:+ dq +:+ "Google Chrome" +:+ dq +:+ ";v=" +:+ dq +:+ "136" +:+ dq +:+ ", "
       +:+ dq +:+ "Not.A/Brand" +:+ dq +:+ ";v=" +:+ dq +:+ "99" +:+ dq);
    ("sec-ch-ua-mobile", "?0");
    ("sec-ch-ua-platform", dq +:+ "Windows" +:+ dq);
    ("sec-fetch-dest", "empty");
    ("sec-fetch-mode", "cors");
    ("sec-fetch-site", "same-site");
    ("user-agent",
       "Mozilla/5.0 (Windows NT 10.0; Win64; x64) AppleWebKit/537.36 (KHTML, like Gecko) Chrome/136.0.0.0 Safari/537.36")
  ].

(** The body of the loop for one id: the request, then the log line, which
    reads the JSON of a body that is not empty, then the result. *)
Definition delete_one (net : delete_network) (bearer_token : string) (product_id : Z)
    (log : list delete_request) : delete_result * list delete_request :=
  let rq := {| delete_url := product_url product_id;
               delete_headers := deletion_headers bearer_token |} in
  let attempt :=
    response <- net log rq ;;
    logged <- (if has_content response then json response else Ok (text response)) ;;
    response_data <-
      (if has_content response then (j <- json response ;; Ok (Some j)) else Ok None) ;;
    Ok (Deleted product_id (if ok response then "success" else "failed")
          (status_code response) response_data (text response)) in
  (match attempt with
   | Ok result => result
   | Raise e => DeleteFailed product_id (exn_msg e)
   end, (log ++ [rq])%list).

Fixpoint delete_each (net : delete_network) (bearer_token : string) (ids : list Z)
    (results : list delete_result) (log : list delete_request)
    : list delete_result * list delete_request :=
  match ids with
  | [] => (results, log)
  | product_id :: rest =>
      let '(result, log') := delete_one net bearer_token product_id log in
      delete_each net bearer_token rest (results ++ [result])%list log'
  end.

(** [range(start_id, end_id + 1)] is [seqZ start_id (end_id - start_id + 1)]. *)
Definition delete_products_by_id_range (net : delete_network) (start_id end_id : Z)
    (bearer_token : string) (log : list delete_request)
    : list delete_result * list delete_request :=
  delete_each net bearer_token (seqZ start_id (end_id - start_id + 1)) [] log.

(** The tallies of the summary of [process_excel_file]: the total and the
    numbers of results with each status. *)
Definition count_status (status : string) (results : list process_result) : nat :=
  length (List.filter (fun r => Str.eqb (result_status r) status) results).

Definition summary (results : list process_result) : nat * nat * nat * nat :=
  (length results, count_status "success" results, count_status "failed" results,
   count_status "dry_run" results).

(** ** Definitions used in the statements *)

(** One entry with both dates [None]. *)
Definition single_undated (l : list price_dto) : Prop :=
  exists d, l = [d] /\ fromDate d = VNone /\ toDate d = VNone.

(** The attribute fields present in the mapping configuration. *)
Definition in_mapping (mapping_data : gmap string mapping_entry) (attr : string * Z)
    : bool :=
  match mapping_data !! attr.1 with Some _ => true | None => false end.

(** The name of the coverage area of a row: the text of the cell of the
    configured column, empty when the row has no such column. *)
Definition area_name (float_repr : spec_float -> string) (m : mapping_entry)
    (row : excel_row) : string :=
  if notna (excel_mapping m) then
    match row_find (excel_mapping m) row with
    | Some cell => py_str float_repr cell
    | None => ""
    end
  else "".

(** The value of the slot before the coercion, in the words of the
    specification: the cell, as text, is looked up in the table of
    national areas and the text itself is kept when it has no code. *)
Definition area_lookup (float_repr : spec_float -> string) (m : mapping_entry)
    (row : excel_row) : pyval :=
  if notna (excel_mapping m) then
    match row_find (excel_mapping m) row with
    | Some cell =>
        match dict_get (py_str float_repr cell) _get_national_area_mapping with
        | Some code => VInt code
        | None => VStr (py_str float_repr cell)
        end
    | None => VStr ""
    end
  else VStr "".

Definition is_skuid_column (col : string) : bool :=
  Str.contains "SKUID" (Str.upper col).

Definition is_days_column (col : string) : bool :=
  Str.eqb (Str.lower (Str.strip col)) "days".

(** A label that is a text of a kind. *)
Definition label_is (is_col : string -> bool) (label : pyval) : bool :=
  match label with VStr col => is_col col | _ => false end.

Definition is_text (v : pyval) : bool :=
  match v with VStr _ => true | _ => false end.

(** The first label of a row that is not a text. *)
Definition other_label (row : excel_row) : option pyval :=
  fst <$> List.find (fun kv => negb (is_text kv.1)) row.

(** The text of the cell of the last column of a kind whose cell is not
    null, [default] when there is none. *)
Definition last_value_or (float_repr : spec_float -> string) (default : string)
    (is_col : string -> bool)
    (row : excel_row) : string :=
  match last (List.filter (fun kv => label_is is_col kv.1 && notna kv.2) row) with
  | Some kv => py_str float_repr kv.2
  | None => default
  end.

(** In a dry run a row gives the payload computed for it, or the failure
    of its mapping. *)
Definition dry_run_outcome (float_repr : spec_float -> string) (now : Z -> datetime)
    (mapping_data : gmap string mapping_entry) (product_data : list excel_row)
    (r : process_result) : Prop :=
  exists (k : nat) row,
    product_data !! k = Some row
    /\ result_row r = Z.of_nat k + 1
    /\ ((exists p, transform_excel_row_to_api float_repr mapping_data (now (Z.of_nat k)) row = Ok p
                   /\ r = DryRun (Z.of_nat k + 1) (productCode p) p)
        \/ (exists e, transform_excel_row_to_api float_repr mapping_data (now (Z.of_nat k)) row = Raise e
                      /\ r = RowFailed (Z.of_nat k + 1) (exn_msg e))).

(** The number a text of digits denotes. *)
Definition digits_number (s : string) : Z := (PyFloat.digits 0 0 s).1.1.

(** The attribute values of a returned payload. *)
Definition attribute_values (r : pyres payload) : list pyval :=
  match r with
  | Ok p => List.map attributeValue (attributeValueList p)
  | Raise _ => []
  end.

(** ** Definitions used in the statements of the further properties *)

(** A text of ASCII digits, cut into its characters. *)
Fixpoint singles (s : string) : list string :=
  match s with
  | EmptyString => []
  | String c r => String c "" :: singles r
  end.

(** The bytes of white space: ASCII white space and the bytes of the
    characters outside ASCII. *)
Definition spacing (c : ascii) : bool := Str.is_space c || (128 <=? Str.byte c).

(** A text whose last byte is not one of white space. *)
Fixpoint ends_solid (p : string) : bool :=
  match p with
  | EmptyString => false
  | String a EmptyString => negb (spacing a)
  | String _ p' => ends_solid p'
  end.

(** The inputs that the normalizer takes for blank. *)
Definition is_blank (v : pyval) : bool :=
  isna v || eq_str v "Trống" || eq_str v "".

(** The fields that no mapping writes. *)
Definition constants (p : payload) :=
  (parentId p, productUom p, checkQuantity p, checkSerial p, productStatus p,
   productCategoryId p, payload_id p, productType p).

(** What the price and the VAT blocks store for a cell: the float it
    converts to, or the default. *)
Definition converted_or (default : Z) (cell : pyval) : pyval :=
  match py_float cell with
  | Ok f => VFloat f
  | Raise _ => VInt default
  end.

(** The price stored for [field]: the default unless the mapped cell is
    present and not empty. *)
Definition expected_price (mapping_data : gmap string mapping_entry) (row : excel_row)
    (field : string) (default : Z) : pyval :=
  match mapping_data !! field with
  | Some m =>
      match row_find (excel_mapping m) row with
      | Some cell =>
          if notna (excel_mapping m) && notna cell then converted_or default cell
          else VInt default
      | None => VInt default
      end
  | None => VInt default
  end.

(** The value of the hotspot slot, which reads the cell and nothing else. *)
Definition hotspot_value (float_repr : spec_float -> string) (m : mapping_entry)
    (row : excel_row) : string :=
  if notna (excel_mapping m) then
    match row_find (excel_mapping m) row with
    | Some cell =>
        if Str.contains "support" (Str.lower (py_str float_repr cell)) then "1" else "0"
    | None => "0"
    end
  else "".

(** [transform_excel_row_to_api] after the loop of the simple fields. *)
Definition finish (float_repr : spec_float -> string)
    (md : gmap string mapping_entry) (now : datetime) (row : excel_row)
    (api_payload : payload) : pyres payload :=
  let payload :=
    set_productDescription "Thời gian sử dụng là số ngày kể từ ngày kích hoạt" api_payload in
  let payload :=
    set_productDescriptionEn
      "The usage period is the number of days from the activation date." payload in
  let payload := set_weight None payload in
  prices <- map_price md row "Giá hàng hóa" 0 (productPriceDTOS payload) ;;
  let payload := set_productPriceDTOS prices payload in
  vats <- map_price md row "VAT" 10 (productVatDTOS payload) ;;
  let payload := set_productVatDTOS vats payload in
  attribute_list <-
    for_each (append_attribute float_repr md row) _get_attribute_mapping [] ;;
  let payload := set_attributeValueList attribute_list payload in
  product_code <- generate_product_code float_repr row now ;;
  Ok (set_productCode (VStr product_code) payload).

(** The loop of the simple fields after its first field, the product code. *)
Definition name_and_package (float_repr : spec_float -> string)
    (md : gmap string mapping_entry) (row : excel_row)
    (q : payload) : pyres payload :=
  bind (apply_field_mapping float_repr md row q ("Tên sản phẩm", set_productName))
    (fun acc =>
       bind (apply_field_mapping float_repr md row acc
               ("SKY package code", fun v : pyval => set_pckCode (Some v))) Ok).

(** The request that [send_to_api] issues for a verb. *)
Definition request_of (api_config : APIConfig) (v : http_verb) (data : payload)
    : http_request :=
  {| req_verb := v; req_url := url api_config; req_json := data;
     req_headers := headers api_config; req_auth := auth api_config |}.

(** The verb of a configuration, when it is supported. *)
Definition verb_of (api_config : APIConfig) : option http_verb :=
  if Str.eqb (Str.upper (method api_config)) "POST" then Some POST
  else if Str.eqb (Str.upper (method api_config)) "PUT" then Some PUT
  else None.

(** The loop body run over every row of [rows], the first of which has
    position [index]: one result a row, in order, each row starting from
    the requests that the row before it left. *)
Fixpoint each_row (float_repr : spec_float -> string) (net : network)
    (now : Z -> datetime) (mapping_data : gmap string mapping_entry)
    (api_config : APIConfig) (dry_run : bool) (index : Z) (rows : list excel_row)
    (log : list http_request) : list process_result * list http_request :=
  match rows with
  | [] => ([], log)
  | row :: rest =>
      let '(result, log1) :=
        process_row float_repr net now mapping_data api_config dry_run index row log in
      let '(results, log2) :=
        each_row float_repr net now mapping_data api_config dry_run (index + 1) rest log1 in
      (result :: results, log2)
  end.

(** The payloads of the rows from [start_row] on whose mapping returns. *)
Fixpoint payloads_from (float_repr : spec_float -> string) (now : Z -> datetime)
    (mapping_data : gmap string mapping_entry) (start_row index : Z)
    (rows : list excel_row) : list payload :=
  match rows with
  | [] => []
  | row :: rest =>
      let later := payloads_from float_repr now mapping_data start_row (index + 1) rest in
      if index + 1 <? start_row then later
      else
        match transform_excel_row_to_api float_repr mapping_data (now index) row with
        | Ok p => p :: later
        | Raise _ => later
        end
  end.

(** A result of the batch runner as [create_single_product] returns it:
    without the row number and the response body; of a failure, whether of
    the mapping or of the request, only the error text is kept. *)
Definition as_single (r : process_result) : single_result :=
  match r with
  | DryRun _ product_code api_payload => SingleDryRun product_code api_payload
  | Sent _ product_code _ response_status response_data _ =>
      SingleSuccess product_code response_status response_data
  | RequestFailed _ _ error _ | RowFailed _ error => SingleFailed error
  end.

(** The shape of a result with a response. *)
Definition sent_is_success (r : process_result) : Prop :=
  match r with
  | Sent _ _ status response_status _ _ =>
      status = "success" /\ (response_status < 400 \/ 600 <= response_status)
  | _ => True
  end.

(** The result of a row of [product_data] when the method is not
    supported. *)
Definition unsupported_result (float_repr : spec_float -> string)
    (now : Z -> datetime) (mapping_data : gmap string mapping_entry)
    (api_config : APIConfig) (product_data : list excel_row) (r : process_result)
    : Prop :=
  exists row error,
    r = RowFailed row error
    /\ (error = "Unsupported HTTP method: " +:+ method api_config
        \/ exists index product e,
             In product product_data
             /\ transform_excel_row_to_api float_repr mapping_data (now index) product
                = Raise e
             /\ error = exn_msg e).

(** The results of a run that is not a dry run when the method is not
    supported: a failure for every row from [start_row] on, with the
    message of the unsupported method or, when the mapping of the row
    raised, the message of that exception. *)
Fixpoint unsupported_results (float_repr : spec_float -> string)
    (now : Z -> datetime) (mapping_data : gmap string mapping_entry)
    (api_config : APIConfig) (start_row index : Z) (rows : list excel_row)
    : list process_result :=
  match rows with
  | [] => []
  | row :: rest =>
      let later :=
        unsupported_results float_repr now mapping_data api_config start_row
          (index + 1) rest in
      if index + 1 <? start_row then later
      else
        RowFailed (index + 1)
          match transform_excel_row_to_api float_repr mapping_data (now index) row with
          | Ok _ => "Unsupported HTTP method: " +:+ method api_config
          | Raise e => exn_msg e
          end
        :: later
  end.

(** The statuses that a run gives. *)
Definition known_status (dry_run : bool) (r : process_result) : Prop :=
  if dry_run
  then result_status r = "dry_run" \/ result_status r = "failed"
  else result_status r = "success" \/ result_status r = "failed".

(** The request of [delete_products_by_id_range] for an id. *)
Definition deletion_of (bearer_token : string) (product_id : Z) : delete_request :=
  {| delete_url := product_url product_id;
     delete_headers := deletion_headers bearer_token |}.

(** The rows of the configuration sheet with the label [bcss_field]. *)
Definition labelled (bcss_field : string) (row : mapping_row) : bool :=
  eq_str (bcss_field_cell row) bcss_field.

(** The items of a column mapping that feed [api_field] from [row]. *)
Definition feeds (row : excel_row) (api_field : string) (item : string * string)
    : bool :=
  Str.eqb item.2 api_field
  && match row_get item.1 row with Some _ => true | None => false end.

(** The request that [ExcelAPITool.send_to_api] issues for a verb. *)
Definition tool_request {D : Type} (api_config : APIConfig) (v : http_verb)
    (api_data : D) : Tool.request :=
  {| Tool.verb := v; Tool.target := url api_config; Tool.body := api_data;
     Tool.request_headers := headers api_config;
     Tool.request_auth := auth api_config |}.

(** ** Sample data: the mapping configuration of the repository's tests *)

(** The examples take this printer for [float_repr]: it is [repr] on the
    integral floats below 10^16, and no example prints another float. *)
Definition sample_float_repr (f : spec_float) : string :=
  match PyFloat.to_int f with
  | Ok n => pretty n +:+ ".0"
  | Raise _ => "nan"
  end.

Definition column_note : pyval := VStr "Cột trong file sản phẩm".

Definition sample_mapping : gmap string mapping_entry :=
  list_to_map [
    ("Mã sản phẩm", MappingEntry (VStr "SKUID-Days") column_note);
    ("Tên sản phẩm", MappingEntry (VStr "Product Name Short") column_note);
    ("SKY package code", MappingEntry (VStr "Trống") (VFloat S754_nan));
    ("Số ngày sử dụng", MappingEntry (VStr "Days") column_note);
    ("Dung lượng tốc độ cao",
       MappingEntry (VStr "High Speed Data (MB or GB or GB/day)") column_note);
    ("Loại gói", MappingEntry (VStr "Package type") (VStr "Text cố định"));
    ("eKYC (Xác minh danh tính)",
       MappingEntry (VStr "Không bắt buộc") (VStr "Giá trị cố định"));
    ("Hết tốc độ cao giảm xuống", MappingEntry (VStr "Throttled Speed (kbps)") column_note);
    ("Chia sẻ Wifi",
       MappingEntry (VStr "Hotspot sharing") (VStr "Cột trong file sản phẩm (support = có)"));
    ("Loại SIM", MappingEntry (VStr "Support eSIM/Sim Card") column_note);
    ("Phạm vi phủ sóng", MappingEntry (VStr "National Area") column_note);
    ("SKUID", MappingEntry (VStr "SKUID") column_note);
    ("Nhà cung cấp", MappingEntry (VStr "Telco") column_note);
    ("Giá hàng hóa", MappingEntry (VStr "Giá bán 26.5 ( THM đề xuất)") column_note);
    ("VAT", MappingEntry (VInt 10) (VStr "Text cố định"))
  ].

Definition sample_row : excel_row := [
    (VStr "SKUID", VStr "TEST001");
    (VStr "Days", VStr "30");
    (VStr "Product Name Short", VStr "Test SIM Package");
    (VStr "High Speed Data (MB or GB or GB/day)", VStr "5GB");
    (VStr "Package type", VStr "Prepaid");
    (VStr "Throttled Speed (kbps)", VStr "128");
    (VStr "Hotspot sharing", VStr "Support");
    (VStr "Support eSIM/Sim Card", VStr "eSIM");
    (VStr "National Area", VStr "Vietnam");
    (VStr "Telco", VStr "Viettel");
    (VStr "Giá bán 26.5 ( THM đề xuất)", VStr "50000")
  ].

Definition sample_now : datetime :=
  {| year := 2025; month := 5; day := 30; hour := 9; minute := 41; second := 7 |}.

(** A configuration whose note cell is empty for the SKUID attribute:
    pandas reads the empty cell as [NaN]. *)
Definition blank_note_mapping : gmap string mapping_entry :=
  {[ "SKUID" := MappingEntry (VStr "SKUID") (VFloat S754_nan) ]}.

(** A remote side that accepts everything. *)
Definition accepting_network : network :=
  fun _ _ => Ok {| status_code := 201; reason := "Created";
                   text := "{}"; json := Ok "{}" |}.

(** A remote side that answers 400 to everything. *)
Definition rejecting_network : network :=
  fun _ _ => Ok {| status_code := 400; reason := "Bad Request";
                   text := "duplicate product code"; json := Ok "{}" |}.

Definition sample_clock (index : Z) : datetime := sample_now.

Definition sample_config : APIConfig := _setup_api_config "token".

(** Three product rows; under [blank_note_mapping] the second one cannot
    be mapped. *)
Definition three_rows : list excel_row := [
    [(VStr "SKUID", VInt 1001); (VStr "Days", VInt 7)];
    [(VStr "SKUID", VStr "PROD002"); (VStr "Days", VInt 30)];
    [(VStr "SKUID", VInt 1003); (VStr "Days", VInt 15)]
  ].

Definition delete_config : APIConfig :=
  {| url := "https://test-api.com/data"; method := "DELETE";
     headers := [("Content-Type", "application/json")]; auth := None |}.

(** The payloads of the sample rows. *)
Definition sample_payload : payload :=
  Eval vm_compute in
    match transform_excel_row_to_api sample_float_repr sample_mapping sample_now
            sample_row with
    | Ok p => p
    | Raise _ => _get_default_api_payload
    end.

Definition throttle_mapping : gmap string mapping_entry :=
  {[ "Hết tốc độ cao giảm xuống" := MappingEntry (VStr "Throttled Speed (kbps)") column_note ]}.

Definition throttle_payload : payload :=
  Eval vm_compute in
    match transform_excel_row_to_api sample_float_repr throttle_mapping sample_now
            [(VStr "Throttled Speed (kbps)", VStr "128")] with
    | Ok p => p
    | Raise _ => _get_default_api_payload
    end.

(** ** Sample data for the further properties *)

(** Another reading of the clock. *)
Definition later_now : datetime :=
  {| year := 2026; month := 1; day := 2; hour := 3; minute := 4; second := 5 |}.

(** The answer of [accepting_network]. *)
Definition created_response : Response :=
  {| status_code := 201; reason := "Created"; text := "{}"; json := Ok "{}" |}.

(** The row of a dictionary whose values are all texts: the keys and the
    values as they are. *)
Definition sample_series (product_data : product_dict) : excel_row := product_data.

(** A configuration with the coverage area alone. *)
Definition area_mapping : gmap string mapping_entry :=
  {[ "Phạm vi phủ sóng" := MappingEntry (VStr "National Area") column_note ]}.

(** The values of the coverage-area slot of the payload of a row whose
    area cell is [cell]. *)
Definition area_slot (cell : pyval) : list pyval :=
  attribute_values
    (transform_excel_row_to_api sample_float_repr area_mapping sample_now
       [(VStr "National Area", cell)]).

(** A row whose price is not a number. *)
Definition unpriced_row : excel_row := [
    (VStr "SKUID", VStr "TEST001");
    (VStr "Days", VStr "30");
    (VStr "Giá bán 26.5 ( THM đề xuất)", VStr "on request")
  ].

(** The generic tool with one row loaded and a mapping of three columns,
    the last of which the row does not have. *)
Definition sample_tool : Tool.state :=
  {| Tool.data := Some [(0, sample_row)];
     Tool.column_mapping := [("SKUID", "sku"); ("Days", "days"); ("Region", "region")] |}.

Definition accepting_tool_network : @Tool.network (gmap string pyval) :=
  fun _ _ => Ok created_response.

(** * Properties *)

(** ** Text: the methods of [str] outside ASCII *)

Lemma str_unicode_examples :
  Str.upper "poſt" = "POST"
  /\ Str.upper "straße" = "STRASSE"
  /\ Str.lower "ΟΔΟΣ" = "οδος"
  /\ Str.lower "Không BẮT buộc" = "không bắt buộc"
  /\ Str.strip "  Days " = "Days"
  /\ Str.isdigit "١٢٣" = true
  /\ Str.isdigit "12a" = false
  /\ Str.to_ascii "١٢٣ " = "123 ".
Proof. repeat split; vm_compute; reflexivity. Qed.

(** ** Text: the ASCII characters *)

Lemma char_byte (c : ascii) : Str.char (Str.byte c) = c.
Proof. unfold Str.char, Str.byte. rewrite Nat2Z.id. apply ascii_nat_embedding. Qed.

Lemma digit_byte (c : ascii) : Str.is_digit c = true -> 48 <= Str.byte c <= 57.
Proof.
  unfold Str.is_digit, Str.byte. cbv zeta. intros H.
  apply andb_prop in H as [H1 H2]. apply Nat.leb_le in H1, H2. lia.
Qed.

Lemma code_of_ascii (c : ascii) :
  Str.byte c < 128 -> Str.code_of (String c "") = Some (Str.byte c).
Proof.
  intros H. unfold Str.code_of, Str.encode_cp.
  apply Z.ltb_lt in H. rewrite H, char_byte, String.eqb_refl. reflexivity.
Qed.

Lemma chars_ascii (c : ascii) (r : string) :
  Str.byte c < 128 -> Str.chars (String c r) = String c "" :: Str.chars r.
Proof.
  intros H. unfold Str.chars. cbn [Str.chars_from].
  replace (Str.byte c <? 192) with true by (symmetry; apply Z.ltb_lt; lia).
  reflexivity.
Qed.

Lemma is_digit_char_ascii (c : ascii) :
  Str.byte c < 128 -> Str.is_digit_char (String c "") = Str.is_digit c.
Proof.
  intros H. unfold Str.is_digit_char. rewrite (code_of_ascii c H).
  unfold Str.is_digit_cp. replace (Str.byte c <? 128) with true
    by (symmetry; now apply Z.ltb_lt).
  unfold Str.is_digit, Str.byte. cbv zeta.
  destruct (Nat.leb_spec 48 (nat_of_ascii c)), (Nat.leb_spec (nat_of_ascii c) 57),
    (Z.leb_spec 48 (Z.of_nat (nat_of_ascii c))),
    (Z.leb_spec (Z.of_nat (nat_of_ascii c)) 57); try reflexivity; lia.
Qed.

Lemma chars_after_digits (d t : string) :
  Str.all Str.is_digit d = true -> Str.chars (d +:+ t) = (singles d ++ Str.chars t)%list.
Proof.
  induction d as [|c d IH]; intros Hd; [reflexivity|].
  cbn [Str.all] in Hd. apply andb_prop in Hd as [Hc Hd].
  change (String c d +:+ t) with (String c (d +:+ t)).
  rewrite chars_ascii by (pose proof (digit_byte c Hc); lia).
  now rewrite (IH Hd).
Qed.

Lemma append_empty_r (s : string) : s +:+ "" = s.
Proof.
  induction s as [|c s IH]; [reflexivity|].
  change (String c s +:+ "") with (String c (s +:+ "")). now rewrite IH.
Qed.

Lemma chars_digits (d : string) :
  Str.all Str.is_digit d = true -> Str.chars d = singles d.
Proof.
  intros Hd. pose proof (chars_after_digits d "" Hd) as H.
  rewrite append_empty_r in H. rewrite H. apply app_nil_r.
Qed.

Lemma isdigit_digits (s : string) :
  Str.all Str.is_digit s = true -> s <> "" -> Str.isdigit s = true.
Proof.
  intros Hs Hne. unfold Str.isdigit. rewrite (chars_digits s Hs).
  destruct s as [|c r]; [congruence|]. clear Hne.
  change (forallb Str.is_digit_char (singles (String c r)) = true).
  revert Hs. generalize (String c r). clear.
  induction s as [|c r IH]; intros H; [reflexivity|].
  cbn [Str.all] in H. apply andb_prop in H as [Hc Hr].
  cbn [singles forallb]. rewrite (IH Hr), andb_true_r.
  rewrite is_digit_char_ascii by (pose proof (digit_byte c Hc); lia). exact Hc.
Qed.

Lemma isdigit_before_letter (d t : string) (o : ascii) :
  Str.is_digit o = false -> Str.byte o < 128 -> Str.all Str.is_digit d = true ->
  Str.isdigit (d +:+ String o t) = false.
Proof.
  intros Ho Hascii Hd. unfold Str.isdigit.
  rewrite (chars_after_digits d _ Hd), (chars_ascii o t Hascii).
  assert (H : forallb Str.is_digit_char (singles d ++ String o "" :: Str.chars t) = false).
  { rewrite forallb_app. cbn [forallb]. rewrite (is_digit_char_ascii o Hascii), Ho.
    cbn [andb]. apply andb_false_r. }
  destruct (singles d ++ String o "" :: Str.chars t)%list; [reflexivity | exact H].
Qed.

Lemma to_ascii_digits (s : string) :
  Str.all Str.is_digit s = true -> Str.to_ascii s = s.
Proof.
  intros Hs. unfold Str.to_ascii. rewrite (chars_digits s Hs).
  induction s as [|c r IH]; [reflexivity|].
  cbn [Str.all] in Hs. apply andb_prop in Hs as [Hc Hr].
  pose proof (digit_byte c Hc) as Hb.
  cbn [singles Str.to_ascii_chars]. rewrite code_of_ascii by lia.
  replace (Str.byte c <? 127) with true by (symmetry; apply Z.ltb_lt; lia).
  now rewrite (IH Hr).
Qed.

Lemma lower_chars_digits (d : string) (l : list string) :
  Str.all Str.is_digit d = true ->
  Str.lower_chars false (singles d ++ l) = d +:+ Str.lower_chars false l.
Proof.
  induction d as [|c d IH]; intros Hd; [reflexivity|].
  cbn [Str.all] in Hd. apply andb_prop in Hd as [Hc Hd].
  pose proof (digit_byte c Hc) as Hb.
  cbn [singles app Str.lower_chars].
  unfold Str.case_ignorable, Str.cased. rewrite code_of_ascii by lia.
  unfold Str.case_ignorable_cp, Str.cased_cp, Str.lower_cp.
  replace (Str.byte c <? 128) with true by (symmetry; apply Z.ltb_lt; lia).
  replace (Str.byte c =? 931) with false by (symmetry; apply Z.eqb_neq; lia).
  replace ((65 <=? Str.byte c) && (Str.byte c <=? 90)) with false
    by (symmetry; apply andb_false_iff; left; apply Z.leb_gt; lia).
  replace ((Str.byte c =? 39) || (Str.byte c =? 46) || (Str.byte c =? 58)
           || (Str.byte c =? 94) || (Str.byte c =? 96)) with false
    by (symmetry; repeat (apply orb_false_iff; split); apply Z.eqb_neq; lia).
  replace ((97 <=? Str.byte c) && (Str.byte c <=? 122)) with false
    by (symmetry; apply andb_false_iff; left; apply Z.leb_gt; lia).
  cbn [orb]. rewrite (IH Hd).
  unfold Str.encode, Str.encode_cp. cbn [List.map Str.concat].
  replace (Str.byte c <? 128) with true by (symmetry; apply Z.ltb_lt; lia).
  now rewrite char_byte.
Qed.

Lemma lower_after_digits (d t : string) :
  Str.all Str.is_digit d = true -> Str.lower (d +:+ t) = d +:+ Str.lower t.
Proof.
  intros Hd. unfold Str.lower. rewrite (chars_after_digits d t Hd).
  now apply lower_chars_digits.
Qed.

(** ** Text: what [strip] removes *)

Lemma byte_char (n : Z) : 0 <= n < 256 -> Str.byte (Str.char n) = n.
Proof.
  intros H. unfold Str.byte, Str.char. rewrite nat_ascii_embedding by lia. lia.
Qed.

Lemma append_assoc (a b c : string) : (a +:+ b) +:+ c = a +:+ (b +:+ c).
Proof.
  induction a as [|x a IH]; [reflexivity|].
  change (String x a +:+ b) with (String x (a +:+ b)).
  change (String x (a +:+ b) +:+ c) with (String x ((a +:+ b) +:+ c)).
  change (String x a +:+ (b +:+ c)) with (String x (a +:+ (b +:+ c))).
  now rewrite IH.
Qed.

Lemma concat_app (l1 l2 : list string) :
  Str.concat (l1 ++ l2) = Str.concat l1 +:+ Str.concat l2.
Proof.
  induction l1 as [|s l1 IH]; [reflexivity|].
  cbn [app Str.concat]. now rewrite IH, append_assoc.
Qed.

(** [chars] loses no byte. *)
Lemma concat_chars_from (s : string) :
  forall cur more,
    (more = O -> cur = "") -> Str.concat (Str.chars_from cur more s) = cur +:+ s.
Proof.
  induction s as [|c r IH]; intros cur more Hstate.
  - cbn [Str.chars_from]. destruct cur; [reflexivity|].
    cbn [Str.concat]. now rewrite !append_empty_r.
  - cbn [Str.chars_from].
    assert (Hfresh : Str.concat
              (if Str.byte c <? 192 then String c "" :: Str.chars_from "" 0 r
               else if Str.byte c <? 224 then Str.chars_from (String c "") 1 r
               else if Str.byte c <? 240 then Str.chars_from (String c "") 2 r
               else Str.chars_from (String c "") 3 r) = String c r).
    { destruct (Str.byte c <? 192); [cbn [Str.concat]; now rewrite IH|].
      destruct (Str.byte c <? 224); [now rewrite IH|].
      destruct (Str.byte c <? 240); now rewrite IH. }
    destruct more as [|k]; [now rewrite (Hstate eq_refl)|].
    destruct (Str.is_continuation c).
    + destruct k; [cbn [Str.concat]|]; rewrite IH, ?append_assoc by congruence;
        reflexivity.
    + cbn [Str.concat]. now rewrite Hfresh.
Qed.

Lemma concat_chars (s : string) : Str.concat (Str.chars s) = s.
Proof. now apply concat_chars_from. Qed.

Lemma all_app (p : ascii -> bool) (a b : string) :
  Str.all p (a +:+ b) = Str.all p a && Str.all p b.
Proof.
  induction a as [|c a IH]; [reflexivity|].
  change (String c a +:+ b) with (String c (a +:+ b)). cbn [Str.all].
  now rewrite IH, andb_assoc.
Qed.

(** A white-space character is made of bytes of white space. *)
Lemma space_char_spacing (ch : string) :
  Str.is_space_char ch = true -> Str.all spacing ch = true.
Proof.
  unfold Str.is_space_char, Str.code_of.
  match goal with |- context [String.eqb (Str.encode_cp ?c) ch] => generalize c end.
  intros c. destruct (String.eqb_spec (Str.encode_cp c) ch) as [<-|]; [|discriminate].
  unfold Str.is_space_cp, Str.encode_cp.
  destruct (Z.ltb_spec c 128) as [Hlow|Hhigh].
  - intros H. cbn [Str.all]. rewrite andb_true_r. unfold spacing.
    apply orb_true_iff. left.
    assert (Hc : 9 <= c <= 13 \/ 28 <= c <= 32).
    { apply orb_prop in H as [H|H]; apply andb_prop in H as [H1 H2];
        apply Z.leb_le in H1, H2; lia. }
    unfold Str.is_space, Str.char. cbv zeta. rewrite nat_ascii_embedding by lia.
    destruct Hc as [Hc|Hc].
    + apply orb_true_iff. left. apply andb_true_iff. split; apply Nat.leb_le; lia.
    + apply orb_true_iff. right. apply andb_true_iff. split; apply Nat.leb_le; lia.
  - intros H.
    assert (Hc : c <= 12288).
    { unfold Str.space_ranges in H. cbn [Str.in_ranges] in H.
      repeat (apply orb_prop in H as [H|H];
              [apply andb_prop in H as [_ H]; apply Z.leb_le in H; lia|]).
      discriminate H. }
    assert (Hhi : forall n, 128 <= n < 256 -> spacing (Str.char n) = true).
    { intros n Hn. unfold spacing. rewrite byte_char by lia.
      apply orb_true_iff. right. apply Z.leb_le. lia. }
    destruct (Z.ltb_spec c 2048) as [H2|H2].
    + cbn [Str.all]. rewrite !Hhi; [reflexivity| |].
      * pose proof (Z.mod_pos_bound c 64). lia.
      * assert (c / 64 < 32) by (apply Z.div_lt_upper_bound; lia).
        assert (0 <= c / 64) by (apply Z.div_pos; lia). lia.
    + replace (c <? 65536) with true by (symmetry; apply Z.ltb_lt; lia).
      cbn [Str.all]. rewrite !Hhi; [reflexivity| | |].
      * pose proof (Z.mod_pos_bound c 64). lia.
      * pose proof (Z.mod_pos_bound (c / 64) 64). lia.
      * assert (c / 4096 < 16) by (apply Z.div_lt_upper_bound; lia).
        assert (0 <= c / 4096) by (apply Z.div_pos; lia). lia.
Qed.

Lemma lstrip_chars_split (l : list string) :
  exists ws, l = (ws ++ Str.lstrip_chars l)%list /\ Str.all spacing (Str.concat ws) = true.
Proof.
  induction l as [|ch l (ws & Hl & Hws)]; [exists []; split; reflexivity|].
  cbn [Str.lstrip_chars]. destruct (Str.is_space_char ch) eqn:Hch.
  - exists (ch :: ws). split; [cbn [app]; now rewrite <- Hl|].
    cbn [Str.concat]. now rewrite all_app, (space_char_spacing ch Hch), Hws.
  - exists []. split; reflexivity.
Qed.

Lemma rstrip_chars_split (l : list string) :
  exists ws, l = (Str.rstrip_chars l ++ ws)%list /\ Str.all spacing (Str.concat ws) = true.
Proof.
  induction l as [|ch l (ws & Hl & Hws)]; [exists []; split; reflexivity|].
  cbn [Str.rstrip_chars]. destruct (Str.rstrip_chars l) as [|x r'] eqn:E.
  - destruct (Str.is_space_char ch) eqn:Hch.
    + exists (ch :: ws). split; [cbn [app]; now rewrite Hl at 1|].
      cbn [Str.concat]. now rewrite all_app, (space_char_spacing ch Hch), Hws.
    + exists ws. split; [cbn [app]; now rewrite Hl at 1 | exact Hws].
  - exists ws. split; [cbn [app]; now rewrite Hl at 1 | exact Hws].
Qed.

(** [strip] takes bytes of white space away at both ends and nothing else. *)
Lemma strip_split (t : string) :
  exists w1 w2,
    t = w1 +:+ Str.strip t +:+ w2
    /\ Str.all spacing w1 = true /\ Str.all spacing w2 = true.
Proof.
  unfold Str.strip.
  destruct (lstrip_chars_split (Str.chars t)) as (ws1 & H1 & Hw1).
  destruct (rstrip_chars_split (Str.lstrip_chars (Str.chars t))) as (ws2 & H2 & Hw2).
  exists (Str.concat ws1), (Str.concat ws2). split; [|split; assumption].
  rewrite <- (concat_chars t) at 1. rewrite H1 at 1. rewrite H2 at 1.
  now rewrite !concat_app.
Qed.

Lemma prefix_spacing_false (a c : ascii) (p t : string) :
  spacing a = false -> spacing c = true ->
  String.prefix (String a p) (String c t) = false.
Proof.
  intros Ha Hc. cbn [String.prefix].
  destruct (ascii_dec a c) as [->|]; [congruence | reflexivity].
Qed.

Lemma contains_after_spacing (a : ascii) (p w t : string) :
  spacing a = false -> Str.all spacing w = true ->
  Str.contains (String a p) (w +:+ t) = Str.contains (String a p) t.
Proof.
  intros Ha. induction w as [|c w IH]; intros Hw; [reflexivity|].
  cbn [Str.all] in Hw. apply andb_prop in Hw as [Hc Hw].
  change (String c w +:+ t) with (String c (w +:+ t)).
  cbn [Str.contains]. now rewrite (prefix_spacing_false a c p _ Ha Hc), (IH Hw).
Qed.

Lemma prefix_nil (p : string) : String.prefix p "" = match p with "" => true | _ => false end.
Proof. destruct p; reflexivity. Qed.

Lemma prefix_empty (s : string) : String.prefix "" s = true.
Proof. destruct s; reflexivity. Qed.

Lemma prefix_of_spacing (p : string) :
  ends_solid p = true -> forall w, Str.all spacing w = true -> String.prefix p w = false.
Proof.
  induction p as [|a p IH]; [discriminate|]. intros Hp w Hw.
  destruct w as [|c w]; [reflexivity|].
  cbn [Str.all] in Hw. apply andb_prop in Hw as [Hc Hw].
  cbn [String.prefix]. destruct (ascii_dec a c) as [->|]; [|reflexivity].
  destruct p as [|b p].
  - cbn [ends_solid] in Hp. rewrite Hc in Hp. discriminate Hp.
  - apply IH; assumption.
Qed.

Lemma prefix_before_spacing (p : string) :
  ends_solid p = true ->
  forall t w, Str.all spacing w = true -> String.prefix p (t +:+ w) = String.prefix p t.
Proof.
  induction p as [|a p IH]; [discriminate|]. intros Hp t w Hw.
  destruct t as [|c t].
  - change ("" +:+ w) with w. rewrite (prefix_of_spacing _ Hp w Hw). reflexivity.
  - change (String c t +:+ w) with (String c (t +:+ w)). cbn [String.prefix].
    destruct (ascii_dec a c); [|reflexivity].
    destruct p as [|b p]; [now rewrite !prefix_empty|]. apply IH; assumption.
Qed.

Lemma contains_before_spacing (p w : string) :
  ends_solid p = true -> Str.all spacing w = true ->
  forall t, Str.contains p (t +:+ w) = Str.contains p t.
Proof.
  intros Hp Hw. induction t as [|c t IH].
  - change ("" +:+ w) with w. cbn [Str.contains].
    assert (Hnone : forall w', Str.all spacing w' = true -> Str.contains p w' = false).
    { induction w' as [|c w' IHw]; intros Hw'.
      - cbn [Str.contains]. rewrite (prefix_of_spacing p Hp "" eq_refl). reflexivity.
      - cbn [Str.contains]. rewrite (prefix_of_spacing p Hp _ Hw').
        cbn [Str.all] in Hw'. apply andb_prop in Hw' as [_ Hw']. now apply IHw. }
    rewrite (Hnone w Hw). rewrite (prefix_of_spacing p Hp "" eq_refl). reflexivity.
  - change (String c t +:+ w) with (String c (t +:+ w)). cbn [Str.contains].
    pose proof (prefix_before_spacing p Hp (String c t) w Hw) as Hpre.
    change (String c t +:+ w) with (String c (t +:+ w)) in Hpre.
    now rewrite IH, Hpre.
Qed.

Lemma contains_strip (a : ascii) (p t : string) :
  spacing a = false -> ends_solid (String a p) = true ->
  Str.contains (String a p) (Str.strip t) = Str.contains (String a p) t.
Proof.
  intros Ha Hp. destruct (strip_split t) as (w1 & w2 & Ht & Hw1 & Hw2).
  rewrite Ht at 2.
  now rewrite (contains_after_spacing a p w1 _ Ha Hw1), (contains_before_spacing _ w2 Hp Hw2).
Qed.

(** ** Floats: small integers are exact *)

Example float_of_str_128 :
  bind (PyFloat.of_str "128") PyFloat.to_int = Ok 128.
Proof. vm_compute. reflexivity. Qed.

(** Rounding is visible from 2^53 on. *)
Example float_of_str_rounds :
  bind (PyFloat.of_str "9007199254740993") PyFloat.to_int = Ok 9007199254740992.
Proof. vm_compute. reflexivity. Qed.

Lemma digits2_pos_size (m : positive) : digits2_pos m = Pos.size m.
Proof. induction m as [m IH|m IH|]; simpl; now rewrite ?IH. Qed.

Lemma digits2_pos_small (m : positive) :
  Zpos m < 2 ^ 53 -> Zpos (digits2_pos m) <= 53.
Proof.
  intros Hm. rewrite digits2_pos_size.
  destruct (Z.le_gt_cases (Zpos (Pos.size m)) 53) as [H|H]; [exact H|exfalso].
  pose proof (Pos.size_le m) as Hle.
  apply Pos2Z.pos_le_pos in Hle. rewrite Pos2Z.inj_pow in Hle.
  change (Z.pos m~0) with (2 * Z.pos m) in Hle.
  assert (H54 : 2 ^ 54 <= 2 ^ Zpos (Pos.size m)) by (apply Z.pow_le_mono_r; lia).
  change (2 ^ 54) with (2 * 2 ^ 53) in H54. lia.
Qed.

Lemma digits2_pos_iter_xO (d m : positive) :
  digits2_pos (Pos.iter xO m d) = (digits2_pos m + d)%positive.
Proof.
  induction d as [|d IH] using Pos.peano_ind.
  - simpl. lia.
  - rewrite Pos.iter_succ. simpl. rewrite IH. lia.
Qed.

Lemma Zpos_iter_xO (d m : positive) :
  Zpos (Pos.iter xO m d) = Zpos m * 2 ^ Zpos d.
Proof.
  induction d as [|d IH] using Pos.peano_ind.
  - simpl. lia.
  - rewrite Pos.iter_succ, Pos2Z.inj_xO, IH, Pos2Z.inj_succ, Z.pow_succ_r by lia. ring.
Qed.

(** A mantissa of 53 bits with an exponent in range is kept as it is. *)
Lemma binary_round_aux_canonical (s : bool) (mz : positive) (ez : Z) :
  Zpos (digits2_pos mz) = 53 -> -1074 <= ez <= 971 ->
  binary_round_aux prec64 emax64 s (Zpos mz) ez loc_Exact = S754_finite s mz ez.
Proof.
  intros Hd He. unfold binary_round_aux, shr_fexp.
  assert (E : fexp prec64 emax64 (Zdigits2 (Zpos mz) + ez) - ez = 0).
  { unfold fexp, emin, prec64, emax64, Zdigits2. rewrite Hd. lia. }
  rewrite E. cbn [shr shr_record_of_loc shr_m loc_of_shr_record round_nearest_even].
  rewrite E. cbn [shr shr_record_of_loc shr_m].
  replace (ez <=? emax64 - prec64) with true; [reflexivity|].
  symmetry. apply Z.leb_le. unfold emax64, prec64. lia.
Qed.

(** [int(float(n))] is [n] for a positive integer below 2^53. *)
Lemma to_int_of_small_positive (m : positive) :
  Zpos m < 2 ^ 53 ->
  PyFloat.to_int (binary_normalize prec64 emax64 (Zpos m) 0 false) = Ok (Zpos m).
Proof.
  intros Hm. pose proof (digits2_pos_small m Hm) as Hd.
  unfold binary_normalize, binary_round, shl_align.
  assert (E : fexp prec64 emax64 (Zpos (digits2_pos m) + 0) - 0
              = Zpos (digits2_pos m) - 53).
  { unfold fexp, emin, prec64, emax64. lia. }
  assert (E' : fexp prec64 emax64 (Zpos (digits2_pos m) + 0)
               = Zpos (digits2_pos m) - 53) by lia.
  rewrite E. destruct (Zpos (digits2_pos m) - 53) as [|d|d] eqn:Ed.
  - rewrite binary_round_aux_canonical by lia. simpl. reflexivity.
  - lia.
  - rewrite E', binary_round_aux_canonical.
    + unfold PyFloat.to_int. rewrite Zpos_iter_xO.
      change (Z.neg d) with (- Zpos d). rewrite Z.shiftl_opp_r, Z.shiftr_div_pow2 by lia.
      rewrite Z.div_mul; [reflexivity|]. apply Z.pow_nonzero; lia.
    + rewrite digits2_pos_iter_xO, Pos2Z.inj_add. lia.
    + lia.
Qed.

(** ** The error monad *)

Lemma bind_ok {A B : Type} (m : pyres A) (k : A -> pyres B) (b : B) :
  bind m k = Ok b -> exists a, m = Ok a /\ k a = Ok b.
Proof. destruct m as [a|e]; simpl; [eauto | discriminate]. Qed.

Lemma for_each_invariant {A B : Type} (P : B -> Prop) (step : B -> A -> pyres B)
    (l : list A) :
  (forall acc x acc', In x l -> P acc -> step acc x = Ok acc' -> P acc') ->
  forall acc acc', P acc -> for_each step l acc = Ok acc' -> P acc'.
Proof.
  induction l as [|x l IH]; simpl; intros Hstep acc acc' Hacc Hrun.
  - injection Hrun as <-. exact Hacc.
  - apply bind_ok in Hrun as (mid & Hx & Hrest).
    apply (IH (fun a y a' Hin => Hstep a y a' (or_intror Hin)) mid acc'); [|exact Hrest].
    apply (Hstep acc x mid); auto.
Qed.

(** ** The value normalizer (C1) *)

Section NormalizerFacts.

Context (float_repr : spec_float -> string).

(** With a note that is a text or [None], as the signature [notes: str]
    declares it, every branch returns. *)
Lemma process_mapping_value_returns_on_text_notes (mapping_value n : pyval) :
  (n = VNone \/ exists s, n = VStr s) ->
  exists r, _process_mapping_value float_repr mapping_value n = Ok r.
Proof.
  intros Hn. unfold _process_mapping_value.
  destruct (isna mapping_value || eq_str mapping_value "Trống"
            || eq_str mapping_value ""); [eauto|].
  destruct mapping_value as [|s|z|f]; eauto.
  destruct (Str.contains "support" _); [eauto|].
  destruct Hn as [->|[t ->]]; simpl.
  - destruct (Str.contains "không bắt buộc" _); eauto.
  - destruct (Str.truthy t); simpl;
      repeat match goal with |- context [if ?c then _ else _] => destruct c end;
      eauto.
Qed.

(** A number or an absent cell never reaches the note. *)
Lemma process_mapping_value_returns_on_non_text (mapping_value n : pyval) :
  (forall s, mapping_value <> VStr s) ->
  exists r, _process_mapping_value float_repr mapping_value n = Ok r.
Proof.
  intros Hv. unfold _process_mapping_value.
  destruct (isna mapping_value || eq_str mapping_value "Trống"
            || eq_str mapping_value ""); [eauto|].
  destruct mapping_value as [|s|z|f]; eauto. now destruct (Hv s).
Qed.

(** The inputs on which the normalizer raises: a text cell that is not a
    placeholder and has no "support", with a note that is true and is not
    a text. *)
Lemma process_mapping_value_raises_iff (mapping_value n : pyval) :
  is_ok (_process_mapping_value float_repr mapping_value n) = false
  <-> exists s,
        mapping_value = VStr s
        /\ Str.eqb s "Trống" = false /\ Str.eqb s "" = false
        /\ Str.contains "support" (Str.strip (Str.lower s)) = false
        /\ py_truthy n = true /\ (forall t, n <> VStr t).
Proof.
  unfold _process_mapping_value. split.
  - destruct mapping_value as [|s|z|f]; try (destruct (isna _ || _ || _); discriminate).
    cbn [isna eq_str orb].
    destruct (Str.eqb s "Trống") eqn:E1; [discriminate|].
    destruct (Str.eqb s "") eqn:E2; [discriminate|]. cbn [orb].
    destruct (Str.contains "support" _) eqn:E3; [discriminate|].
    destruct (py_truthy n) eqn:E4.
    + destruct n as [|t|z|f]; cbn [py_lower bind].
      * discriminate E4.
      * repeat match goal with |- context [if ?c then _ else _] => destruct c end;
          discriminate.
      * intros _. exists s. repeat split; auto; discriminate.
      * intros _. exists s. repeat split; auto; discriminate.
    + cbn [bind]. destruct (Str.contains "không bắt buộc" _); discriminate.
  - intros (s & -> & E1 & E2 & E3 & E4 & Hn). cbn [isna eq_str orb].
    rewrite E1, E2, E3, E4. cbn [orb].
    destruct n as [|t|z|f]; [discriminate E4 | now destruct (Hn t) | reflexivity..].
Qed.

(** C1: the specification has the normalizer return, without an
    exception, on every cell and every note passed to it.  The code does
    not: on a text cell without "support" and the note [NaN] of an empty
    note cell, [notes and ...] is true and [notes.lower()] raises
    [AttributeError]. *)
Theorem process_mapping_value_raises_on_nan_note :
  _process_mapping_value float_repr (VStr "5GB") (VFloat S754_nan)
  = Raise (Exn AttributeError "'float' object has no attribute 'lower'").
Proof. reflexivity. Qed.

End NormalizerFacts.

(** ** The shape of the payload (C2, C10, C4) *)

Section MapperFacts.

Context (float_repr : spec_float -> string).
Context (mapping_data : gmap string mapping_entry).

(** The steps of a successful transformation. *)
Lemma transform_ok (now : datetime) (row : excel_row) (p : payload) :
  transform_excel_row_to_api float_repr mapping_data now row = Ok p ->
  exists p1 prices vats attribute_list,
    for_each (apply_field_mapping float_repr mapping_data row) field_mappings
      _get_default_api_payload = Ok p1
    /\ map_price mapping_data row "Giá hàng hóa" 0 (productPriceDTOS p1) = Ok prices
    /\ map_price mapping_data row "VAT" 10 (productVatDTOS p1) = Ok vats
    /\ for_each (append_attribute float_repr mapping_data row)
         _get_attribute_mapping [] = Ok attribute_list
    /\ productPriceDTOS p = prices
    /\ productVatDTOS p = vats
    /\ attributeValueList p = attribute_list
    /\ exists product_code,
         generate_product_code float_repr row now = Ok product_code
         /\ productCode p = VStr product_code.
Proof.
  unfold transform_excel_row_to_api. intros H.
  apply bind_ok in H as (p1 & H1 & H).
  apply bind_ok in H as (prices & H2 & H).
  apply bind_ok in H as (vats & H3 & H).
  apply bind_ok in H as (attrs & H4 & H).
  apply bind_ok in H as (code & H5 & H).
  injection H as <-.
  exists p1, prices, vats, attrs. simpl in *.
  repeat (split; [assumption || reflexivity|]). exists code. now split.
Qed.

(** The simple fields leave the price and VAT lists alone. *)
Lemma field_mappings_keep_prices (row : excel_row) (p0 p1 : payload) :
  for_each (apply_field_mapping float_repr mapping_data row) field_mappings p0 = Ok p1 ->
  productPriceDTOS p1 = productPriceDTOS p0 /\ productVatDTOS p1 = productVatDTOS p0.
Proof.
  apply (for_each_invariant
           (fun p => productPriceDTOS p = productPriceDTOS p0
                     /\ productVatDTOS p = productVatDTOS p0)); [|split; reflexivity].
  intros acc fm acc' Hin Hacc Hstep.
  unfold apply_field_mapping in Hstep.
  destruct (mapping_data !! fm.1) as [m|]; [|injection Hstep as <-; exact Hacc].
  destruct (notna (excel_mapping m)); [|injection Hstep as <-; exact Hacc].
  destruct (row_find (excel_mapping m) row) as [cell|]; [|injection Hstep as <-; exact Hacc].
  apply bind_ok in Hstep as (value & _ & Hstep). injection Hstep as <-.
  destruct (is_none value); [exact Hacc|].
  simpl in Hin. destruct Hin as [<-|[<-|[<-|[]]]]; exact Hacc.
Qed.

Lemma set_price0_single_undated (v : pyval) (l l' : list price_dto) :
  single_undated l -> set_price0 v l = Ok l' -> single_undated l'.
Proof.
  intros (d & -> & Hf & Ht) H. injection H as <-.
  exists (set_price v d). auto.
Qed.

Lemma map_price_single_undated (row : excel_row) (field : string) (default : Z)
    (l l' : list price_dto) :
  single_undated l -> map_price mapping_data row field default l = Ok l' ->
  single_undated l'.
Proof.
  intros Hl H. unfold map_price in H.
  destruct (mapping_data !! field) as [m|]; [|injection H as <-; exact Hl].
  destruct (notna (excel_mapping m)); [|injection H as <-; exact Hl].
  destruct (row_find (excel_mapping m) row) as [cell|]; [|injection H as <-; exact Hl].
  destruct (notna cell); [|injection H as <-; exact Hl].
  unfold try_except in H.
  destruct (py_float cell) as [f|e]; simpl in H.
  - destruct (set_price0 (VFloat f) l) as [l1|e1] eqn:E.
    + injection H as <-. eapply set_price0_single_undated; eauto.
    + destruct Hl as (d & -> & _). discriminate E.
  - destruct (value_or_type_error e); [|discriminate H].
    eapply set_price0_single_undated; eauto.
Qed.

(** C2: the payload returned for any row under any mapping configuration
    has exactly one entry in [productPriceDTOS] and exactly one in
    [productVatDTOS], both with [fromDate] and [toDate] equal to [None]. *)
Theorem transform_one_price_one_vat_undated (now : datetime) (row : excel_row)
    (p : payload) :
  transform_excel_row_to_api float_repr mapping_data now row = Ok p ->
  exists price_entry vat_entry,
    productPriceDTOS p = [price_entry] /\ productVatDTOS p = [vat_entry]
    /\ fromDate price_entry = VNone /\ toDate price_entry = VNone
    /\ fromDate vat_entry = VNone /\ toDate vat_entry = VNone.
Proof.
  intros H.
  apply transform_ok in H
    as (p1 & prices & vats & attrs & H1 & H2 & H3 & _ & Hp & Hv & _).
  apply field_mappings_keep_prices in H1 as [Kp Kv].
  rewrite Kp in H2. rewrite Kv in H3.
  apply map_price_single_undated in H2 as (d1 & E1 & F1 & T1);
    [|eexists; simpl; eauto].
  apply map_price_single_undated in H3 as (d2 & E2 & F2 & T2);
    [|eexists; simpl; eauto].
  exists d1, d2. rewrite Hp, Hv. repeat split; assumption.
Qed.

Lemma attribute_of_some (row : excel_row) (attr : string * Z) (e : attribute_entry) :
  attribute_of float_repr mapping_data row attr = Ok (Some e) ->
  in_mapping mapping_data attr = true
  /\ attr_id e = VNone
  /\ productCategoryAttributeId e = attr.2
  /\ productCategoryAttributeValueId e = ""
  /\ exists m v,
       mapping_data !! attr.1 = Some m
       /\ resolve_attribute float_repr attr.1 (excel_mapping m) (notes m) row = Ok v
       /\ post_process float_repr attr.2 v = Ok (attributeValue e).
Proof.
  destruct attr as [bcss_field id]. unfold attribute_of, in_mapping. simpl.
  destruct (mapping_data !! bcss_field) as [m|]; [|discriminate].
  intros H. apply bind_ok in H as (v & Hv & H). apply bind_ok in H as (w & Hw & H).
  injection H as <-. simpl. repeat split; eauto.
Qed.

Lemma attribute_of_none (row : excel_row) (attr : string * Z) :
  attribute_of float_repr mapping_data row attr = Ok None -> in_mapping mapping_data attr = false.
Proof.
  destruct attr as [bcss_field id]. unfold attribute_of, in_mapping. simpl.
  destruct (mapping_data !! bcss_field) as [m|]; [|reflexivity].
  intros H. apply bind_ok in H as (v & Hv & H). apply bind_ok in H as (w & Hw & H).
  discriminate H.
Qed.

(** The loop appends, in order, the entry of every field present in the
    mapping configuration and nothing else. *)
Lemma attribute_loop_entries (row : excel_row) (l : list (string * Z)) :
  forall acc res,
    for_each (append_attribute float_repr mapping_data row) l acc = Ok res ->
    exists es,
      res = (acc ++ es)%list
      /\ Forall2 (fun attr e => attribute_of float_repr mapping_data row attr = Ok (Some e))
           (List.filter (in_mapping mapping_data) l) es.
Proof.
  induction l as [|attr l IH]; simpl; intros acc res H.
  - injection H as <-. exists []. split; [now rewrite app_nil_r | constructor].
  - apply bind_ok in H as (mid & Hstep & Hrest).
    unfold append_attribute in Hstep.
    apply bind_ok in Hstep as (oe & Hattr & Hmid). injection Hmid as <-.
    apply IH in Hrest as (es & -> & Hes).
    destruct oe as [e|].
    + destruct (attribute_of_some _ _ _ Hattr) as (-> & _).
      exists (e :: es). split; [now rewrite <- app_assoc | now constructor].
    + rewrite (attribute_of_none _ _ Hattr). exists es. split; [reflexivity | exact Hes].
Qed.

(** The declared order of the attribute ids. *)
Lemma attribute_ids_in_order : List.map snd _get_attribute_mapping = seqZ 101 10.
Proof. reflexivity. Qed.

(** C10: the attribute list of a returned payload has exactly one entry
    per attribute field present in the mapping configuration, in the
    declared order of the ten fields, whose ids are 101 to 110 in that
    order; every entry has [id = None] and an empty
    [productCategoryAttributeValueId]; a field absent from the
    configuration has no entry, so there are at most 10 entries. *)
Theorem attribute_list_follows_mapping (now : datetime) (row : excel_row) (p : payload) :
  transform_excel_row_to_api float_repr mapping_data now row = Ok p ->
  let declared := [
    ("Dung lượng tốc độ cao", 101);
    ("Loại gói", 102);
    ("eKYC (Xác minh danh tính)", 103);
    ("Hết tốc độ cao giảm xuống", 104);
    ("Chia sẻ Wifi", 105);
    ("Loại SIM", 106);
    ("Phạm vi phủ sóng", 107);
    ("SKUID", 108);
    ("Số ngày sử dụng", 109);
    ("Nhà cung cấp", 110)
  ] in
  _get_attribute_mapping = declared
  /\ List.map productCategoryAttributeId (attributeValueList p)
     = List.map snd
         (List.filter (fun attr => bool_decide (is_Some (mapping_data !! attr.1)))
            declared)
  /\ Forall (fun e => attr_id e = VNone /\ productCategoryAttributeValueId e = "")
       (attributeValueList p)
  /\ (length (attributeValueList p) <= 10)%nat.
Proof.
  intros H declared. subst declared.
  change [("Dung lượng tốc độ cao", 101); ("Loại gói", 102);
          ("eKYC (Xác minh danh tính)", 103); ("Hết tốc độ cao giảm xuống", 104);
          ("Chia sẻ Wifi", 105); ("Loại SIM", 106); ("Phạm vi phủ sóng", 107);
          ("SKUID", 108); ("Số ngày sử dụng", 109); ("Nhà cung cấp", 110)]
    with _get_attribute_mapping.
  split; [reflexivity|].
  apply transform_ok in H as (_ & _ & _ & attrs & _ & _ & _ & Hloop & _ & _ & -> & _).
  apply attribute_loop_entries in Hloop as (es & -> & Hes). simpl app.
  assert (Hfilter : List.filter (fun attr : string * Z =>
                       bool_decide (is_Some (mapping_data !! attr.1)))
                      _get_attribute_mapping
                    = List.filter (in_mapping mapping_data) _get_attribute_mapping).
  { apply List.filter_ext. intros attr. unfold in_mapping.
    destruct (mapping_data !! attr.1).
    - apply bool_decide_eq_true. eauto.
    - apply bool_decide_eq_false. intros [x Hx]. discriminate Hx. }
  rewrite Hfilter. clear Hfilter.
  assert (Hids : List.map productCategoryAttributeId es
                 = List.map snd (List.filter (in_mapping mapping_data) _get_attribute_mapping)).
  { induction Hes as [|attr e l es' Hattr _ IH]; [reflexivity|]. simpl.
    destruct (attribute_of_some _ _ _ Hattr) as (_ & _ & -> & _). now rewrite IH. }
  split; [exact Hids|]. split.
  - clear Hids. induction Hes as [|attr e l es' Hattr _ IH]; [constructor|].
    constructor; [|exact IH].
    destruct (attribute_of_some _ _ _ Hattr) as (_ & Hid & _ & Hval & _). now split.
  - rewrite <- (length_map productCategoryAttributeId), Hids, length_map.
    etransitivity; [apply filter_length_le|]. reflexivity.
Qed.

(** *** The coverage area, attribute 107 (C4) *)

Lemma resolve_coverage_area (m : mapping_entry) (row : excel_row) :
  resolve_attribute float_repr "Phạm vi phủ sóng" (excel_mapping m) (notes m) row
  = Ok (area_lookup float_repr m row).
Proof.
  unfold resolve_attribute, area_lookup.
  destruct (notna (excel_mapping m)); [|reflexivity].
  change (Str.eqb "Phạm vi phủ sóng" "Chia sẻ Wifi") with false.
  change (Str.eqb "Phạm vi phủ sóng" "Phạm vi phủ sóng") with true.
  cbv iota. destruct (row_find (excel_mapping m) row); reflexivity.
Qed.

Lemma post_process_107 (v : pyval) :
  post_process float_repr 107 v = Ok (post_integer v).
Proof. reflexivity. Qed.

Lemma post_integer_int_or_none (v : pyval) :
  post_integer v = VNone \/ exists z, post_integer v = VInt z.
Proof.
  unfold post_integer.
  match goal with |- context [if ?c then _ else _] => destruct c end; [now left|].
  destruct (int_of_float_of _); [right; eauto | now left].
Qed.

(** The table of national areas has 108 names, all distinct. *)
Lemma national_area_table_size :
  length _get_national_area_mapping = 108%nat
  /\ NoDup (List.map fst _get_national_area_mapping).
Proof. split; [reflexivity|]. apply (bool_decide_unpack _). vm_compute. exact I. Qed.

(** Every code of the table is a binary64 integer: [int(float(code))] is
    the code itself. *)
Lemma area_codes_survive_coercion :
  forallb (fun kv => match int_of_float_of (VInt kv.2) with
                     | Ok n => n =? kv.2
                     | Raise _ => false
                     end) _get_national_area_mapping = true.
Proof. vm_compute. reflexivity. Qed.

Lemma dict_get_in (key : string) (d : list (string * Z)) (v : Z) :
  dict_get key d = Some v -> exists k, In (k, v) d.
Proof.
  induction d as [|[k w] d IH]; simpl; [discriminate|].
  destruct (Str.eqb k key).
  - intros [= ->]. eauto.
  - intros H. destruct (IH H) as (k' & Hk). eauto.
Qed.

Lemma post_integer_area_code (area : string) (code : Z) :
  dict_get area _get_national_area_mapping = Some code ->
  post_integer (VInt code) = VInt code.
Proof.
  intros H. apply dict_get_in in H as (k & Hin).
  pose proof area_codes_survive_coercion as Hall.
  rewrite forallb_forall in Hall. specialize (Hall _ Hin). simpl in Hall.
  unfold post_integer. simpl.
  destruct (int_of_float_of (VInt code)) as [n|]; [|discriminate Hall].
  apply Z.eqb_eq in Hall. now subst.
Qed.

Lemma attribute_id_107 (attr : string * Z) :
  In attr _get_attribute_mapping -> attr.2 = 107 -> attr.1 = "Phạm vi phủ sóng".
Proof.
  simpl. intros H E.
  repeat (destruct H as [<-|H]; [simpl in E; (discriminate E || reflexivity)|]).
  destruct H.
Qed.

Lemma Forall2_filter_in {A B : Type} (P : A -> B -> Prop) (f : A -> bool)
    (l : list A) (es : list B) :
  Forall2 P (List.filter f l) es -> Forall (fun e => exists a, In a l /\ P a e) es.
Proof.
  revert es. induction l as [|a l IH]; simpl; intros es H.
  - inversion H. constructor.
  - assert (Hweak : forall es', Forall (fun e => exists a', In a' l /\ P a' e) es' ->
              Forall (fun e => exists a', (a = a' \/ In a' l) /\ P a' e) es').
    { intros es' H'. eapply Forall_impl; [exact H'|].
      intros e (a' & Hin & Hp). eauto. }
    destruct (f a).
    + inversion H as [|? e ? es' Hp Hrest]; subst. constructor; eauto.
    + eauto.
Qed.

Lemma area_lookup_name (m : mapping_entry) (row : excel_row) :
  area_lookup float_repr m row
  = match dict_get (area_name float_repr m row) _get_national_area_mapping with
    | Some code => VInt code
    | None => VStr (area_name float_repr m row)
    end.
Proof.
  unfold area_lookup, area_name.
  destruct (notna (excel_mapping m)); [|reflexivity].
  destruct (row_find (excel_mapping m) row); reflexivity.
Qed.

(** The coercion of a text: the integer part of the number it reads as,
    [None] when [float] or [int] raises. *)
Lemma post_integer_text (area : string) :
  post_integer (VStr area)
  = match bind (PyFloat.of_str (Str.strip area)) PyFloat.to_int with
    | Ok n => VInt n
    | Raise _ => VNone
    end.
Proof.
  unfold post_integer, int_of_float_of, py_float. cbn [eq_str is_none orb].
  unfold Str.eqb. destruct (String.eqb_spec (Str.strip area) "") as [->|]; reflexivity.
Qed.

(** C4, amended: the table of national areas has 108 names.  In a returned
    payload, the value of the coverage-area slot (id 107) is the text of
    the cell looked up in that table, the text itself when it has no code,
    then coerced by [int(float(...))]: it is the code for a name of the
    table; for another text it is the integer part of the number that the
    text, trimmed, reads as, and [None] when it does not read as a number
    (the empty text, a name outside the table) or the number has no
    integer part (an infinity, a NaN).  So it is an integer or [None]. *)
Theorem coverage_area_slot_is_integer_or_none (now : datetime) (row : excel_row)
    (p : payload) :
  transform_excel_row_to_api float_repr mapping_data now row = Ok p ->
  length _get_national_area_mapping = 108%nat
  /\ Forall (fun e =>
       productCategoryAttributeId e = 107 ->
       exists m,
         mapping_data !! "Phạm vi phủ sóng" = Some m
         /\ (attributeValue e = VNone \/ exists z, attributeValue e = VInt z)
         /\ match dict_get (area_name float_repr m row) _get_national_area_mapping with
            | Some code => attributeValue e = VInt code
            | None =>
                match PyFloat.of_str (Str.strip (area_name float_repr m row)) with
                | Ok f =>
                    match PyFloat.to_int f with
                    | Ok n => attributeValue e = VInt n
                    | Raise _ => attributeValue e = VNone
                    end
                | Raise _ => attributeValue e = VNone
                end
            end)
       (attributeValueList p).
Proof.
  intros H. split; [reflexivity|].
  apply transform_ok in H as (_ & _ & _ & attrs & _ & _ & _ & Hloop & _ & _ & -> & _).
  apply attribute_loop_entries in Hloop as (es & -> & Hes). rewrite app_nil_l.
  apply Forall2_filter_in in Hes.
  eapply Forall_impl; [exact Hes|].
  intros e (attr & Hin & Hattr) Hid.
  destruct (attribute_of_some _ _ _ Hattr) as (_ & _ & Hid' & _ & m & v & Hm & Hv & Hpost).
  rewrite Hid in Hid'. symmetry in Hid'.
  rewrite (attribute_id_107 _ Hin Hid') in Hm, Hv. rewrite Hid' in Hpost.
  rewrite resolve_coverage_area in Hv. injection Hv as <-.
  rewrite post_process_107 in Hpost. injection Hpost as Hval.
  exists m. split; [exact Hm|].
  split; [rewrite <- Hval; apply post_integer_int_or_none|].
  rewrite <- Hval, area_lookup_name.
  destruct (dict_get (area_name float_repr m row) _get_national_area_mapping)
    as [code|] eqn:Hcode.
  - eapply post_integer_area_code; eauto.
  - rewrite post_integer_text.
    destruct (PyFloat.of_str (Str.strip (area_name float_repr m row))) as [f|];
      [|reflexivity].
    cbn [bind]. destruct (PyFloat.to_int f); reflexivity.
Qed.

End MapperFacts.

(** ** The throttled speed, attribute 104 (C3) *)

Lemma post_throttle_sentinels :
  post_throttle (VStr "∞") = Ok VNone /\ post_throttle (VStr "-1") = Ok VNone.
Proof. split; reflexivity. Qed.

Lemma post_throttle_examples :
  post_throttle (VStr "128") = Ok (VStr "128 Kbps")
  /\ post_throttle (VStr "1Mbps") = Ok (VStr "1 Mbps")
  /\ post_throttle (VStr "1 mbps") = Ok (VStr "1 Mbps")
  /\ post_throttle (VStr "2Mbps") = Ok (VStr "2 Mbps")
  /\ post_throttle (VStr "64kbps") = Ok (VStr "64 Kbps").
Proof. repeat split; vm_compute; reflexivity. Qed.

(** A text of digits goes through [int(float(...))]. *)
Lemma post_throttle_digits (s : string) :
  Str.isdigit s = true ->
  post_throttle (VStr s)
  = bind (int_of_float_of (VStr s)) (fun n => Ok (VStr (pretty n +:+ " Kbps"))).
Proof.
  intros H. unfold post_throttle.
  replace (is_number (VStr s) || is_digit_str (VStr s)) with true
    by (cbn [is_number is_digit_str orb]; now rewrite H).
  assert (E1 : eq_str (VStr s) "∞" = false).
  { cbn [eq_str]. unfold Str.eqb. destruct (String.eqb_spec s "∞") as [->|]; [|reflexivity].
    vm_compute in H. discriminate H. }
  assert (E2 : eq_str (VStr s) "-1" = false).
  { cbn [eq_str]. unfold Str.eqb. destruct (String.eqb_spec s "-1") as [->|]; [|reflexivity].
    vm_compute in H. discriminate H. }
  rewrite E1, E2. reflexivity.
Qed.

(** *** [float] of a text of digits *)

Ltac char_ranges :=
  repeat match goal with
         | |- context [(?a <=? ?b)%nat] => destruct (Nat.leb_spec a b)
         | |- context [(?a =? ?b)%nat] => destruct (Nat.eqb_spec a b)
         | H : context [(?a <=? ?b)%nat] |- _ => destruct (Nat.leb_spec a b)
         end;
  try reflexivity; try discriminate; try lia.

Lemma is_cspace_digit (c : ascii) : Str.is_digit c = true -> PyFloat.is_cspace c = false.
Proof. unfold Str.is_digit, PyFloat.is_cspace. cbv zeta. intros H. char_ranges. Qed.

Lemma digit_is_not (c x : ascii) :
  Str.is_digit c = true -> Str.is_digit x = false -> Ascii.eqb c x = false.
Proof. intros Hc Hx. destruct (Ascii.eqb_spec c x) as [->|]; congruence. Qed.

Lemma lower_char_digit (c : ascii) : Str.is_digit c = true -> Str.lower_char c = c.
Proof.
  unfold Str.is_digit, Str.lower_char, Str.is_upper. cbv zeta. intros H.
  replace ((65 <=? nat_of_ascii c)%nat && (nat_of_ascii c <=? 90)%nat) with false;
    [reflexivity|]. char_ranges.
Qed.

Lemma lskip_digits (s : string) : Str.all Str.is_digit s = true -> PyFloat.lskip s = s.
Proof.
  destruct s as [|c r]; [reflexivity|]. cbn [Str.all PyFloat.lskip].
  intros H. apply andb_prop in H as [Hc _]. now rewrite (is_cspace_digit c Hc).
Qed.

Lemma rskip_digits (s : string) : Str.all Str.is_digit s = true -> PyFloat.rskip s = s.
Proof.
  induction s as [|c r IH]; [reflexivity|]. cbn [Str.all PyFloat.rskip].
  intros H. apply andb_prop in H as [Hc Hr]. rewrite (IH Hr), (is_cspace_digit c Hc).
  destruct r; reflexivity.
Qed.

Lemma drop_underscores_digits (s : string) :
  forall prev,
    match prev with Some p => Ascii.eqb p "_"%char | None => false end = false ->
    Str.all Str.is_digit s = true ->
    PyFloat.drop_underscores prev s = Some s.
Proof.
  induction s as [|c r IH]; intros prev Hprev H; cbn [PyFloat.drop_underscores].
  - now rewrite Hprev.
  - cbn [Str.all] in H. apply andb_prop in H as [Hc Hr].
    rewrite (digit_is_not c "_"%char Hc eq_refl), Hprev. cbn [andb].
    rewrite (IH (Some c)); [reflexivity | | exact Hr].
    exact (digit_is_not c "_"%char Hc eq_refl).
Qed.

Lemma digits_all (s : string) :
  forall acc n,
    Str.all Str.is_digit s = true ->
    PyFloat.digits acc n s
    = ((PyFloat.digits acc n s).1.1, n + Z.of_nat (String.length s), "").
Proof.
  induction s as [|c r IH]; intros acc n H; cbn [PyFloat.digits String.length].
  - cbn [fst]. f_equal. f_equal. lia.
  - cbn [Str.all] in H. apply andb_prop in H as [Hc Hr]. rewrite Hc.
    rewrite (IH _ _ Hr) at 1. f_equal. f_equal. lia.
Qed.

Lemma digits_nonneg (s : string) :
  forall acc n, 0 <= acc -> 0 <= (PyFloat.digits acc n s).1.1.
Proof.
  induction s as [|c r IH]; intros acc n Hacc; cbn [PyFloat.digits]; [exact Hacc|].
  destruct (Str.is_digit c) eqn:Hc; [|exact Hacc].
  apply IH. unfold PyFloat.digit_val. unfold Str.is_digit in Hc. cbv zeta in Hc.
  apply andb_prop in Hc as [H1 _]. apply Nat.leb_le in H1. lia.
Qed.

(** [float(s)] of a text of digits is the rounded number it denotes. *)
Lemma of_str_digits (s : string) :
  Str.all Str.is_digit s = true -> s <> "" ->
  PyFloat.of_str s = Ok (PyFloat.of_decimal false (digits_number s) 0).
Proof.
  intros H Hne. destruct s as [|c r]; [congruence|]. clear Hne.
  pose proof H as Hall. cbn [Str.all] in H. apply andb_prop in H as [Hc Hr].
  unfold PyFloat.of_str. rewrite (to_ascii_digits _ Hall).
  rewrite (lskip_digits _ Hall), (rskip_digits _ Hall).
  rewrite (drop_underscores_digits _ None eq_refl Hall). cbn [mbind option_bind].
  unfold PyFloat.parse, PyFloat.sign.
  rewrite (digit_is_not c "-"%char Hc eq_refl), (digit_is_not c "+"%char Hc eq_refl).
  unfold Str.eqb. cbn [Str.map String.eqb].
  rewrite (lower_char_digit c Hc).
  rewrite (digit_is_not c "i"%char Hc eq_refl), (digit_is_not c "n"%char Hc eq_refl).
  cbn [orb]. unfold PyFloat.parse_number.
  rewrite (digits_all _ 0 0 Hall). fold (digits_number (String c r)).
  cbn [PyFloat.exponent String.length].
  replace (0 + Z.of_nat (S (String.length r)) + 0 =? 0) with false
    by (symmetry; apply Z.eqb_neq; lia).
  now rewrite Z.sub_0_r.
Qed.

(** [int(float(s))] is the number itself below 2^53. *)
Lemma int_of_float_of_digits (s : string) :
  Str.all Str.is_digit s = true -> s <> "" -> digits_number s < 2 ^ 53 ->
  int_of_float_of (VStr s) = Ok (digits_number s).
Proof.
  intros H Hne Hsmall. unfold int_of_float_of, py_float. rewrite (of_str_digits s H Hne).
  cbn [bind]. unfold PyFloat.of_decimal, PyFloat.of_mantissa.
  pose proof (digits_nonneg s 0 0 (Z.le_refl 0)) as Hpos. fold (digits_number s) in Hpos.
  destruct (digits_number s) as [|m|m] eqn:E; [reflexivity| |lia].
  cbn [Z.eqb Z.leb Z.compare]. change (10 ^ 0) with 1. rewrite Z.mul_1_r.
  now apply to_int_of_small_positive.
Qed.

(** A throttle value of ASCII digits below 2^53 gets the unit " Kbps". *)
Lemma post_throttle_number (s : string) :
  Str.all Str.is_digit s = true -> s <> "" -> digits_number s < 2 ^ 53 ->
  post_throttle (VStr s) = Ok (VStr (pretty (digits_number s) +:+ " Kbps")).
Proof.
  intros H Hne Hsmall. rewrite (post_throttle_digits s (isdigit_digits s H Hne)).
  now rewrite (int_of_float_of_digits s H Hne Hsmall).
Qed.

(** *** Digits in front of a unit *)

Lemma prefix_digit_false (old : string) (o c : ascii) (s : string) :
  Str.is_digit o = false -> Str.is_digit c = true ->
  String.prefix (String o old) (String c s) = false.
Proof.
  intros Ho Hc. cbn [String.prefix].
  destruct (ascii_dec o c) as [->|]; [congruence | reflexivity].
Qed.

Lemma replace_after_digits (o : ascii) (old new d t : string) :
  Str.is_digit o = false -> Str.all Str.is_digit d = true ->
  Str.replace (String o old) new (d +:+ t) = d +:+ Str.replace (String o old) new t.
Proof.
  intros Ho. unfold Str.replace. induction d as [|c d IH]; intros Hd; [reflexivity|].
  cbn [Str.all] in Hd. apply andb_prop in Hd as [Hc Hd].
  change (String c d +:+ t) with (String c (d +:+ t)).
  cbn [Str.replace_go]. rewrite (prefix_digit_false old o c _ Ho Hc), (IH Hd).
  reflexivity.
Qed.

Lemma contains_after_digits (o : ascii) (sub d t : string) :
  Str.is_digit o = false -> Str.all Str.is_digit d = true ->
  Str.contains (String o sub) (d +:+ t) = Str.contains (String o sub) t.
Proof.
  intros Ho. induction d as [|c d IH]; intros Hd; [reflexivity|].
  cbn [Str.all] in Hd. apply andb_prop in Hd as [Hc Hd].
  change (String c d +:+ t) with (String c (d +:+ t)).
  cbn [Str.contains]. rewrite (prefix_digit_false sub o c _ Ho Hc), (IH Hd).
  reflexivity.
Qed.

Lemma eqb_after_digits (d t pat : string) (o p : ascii) :
  Str.is_digit o = false -> Str.is_digit p = false ->
  Str.all Str.is_digit d = true ->
  Str.eqb (d +:+ String o t) (String p pat) = match d with
                                               | "" => Str.eqb (String o t) (String p pat)
                                               | _ => false
                                               end.
Proof.
  intros Ho Hp Hd. destruct d as [|c d]; [reflexivity|].
  cbn [Str.all] in Hd. apply andb_prop in Hd as [Hc _].
  unfold Str.eqb. change (String c d +:+ String o t) with (String c (d +:+ String o t)).
  cbn [String.eqb]. destruct (Ascii.eqb_spec c p) as [->|]; [congruence | reflexivity].
Qed.

Lemma eqb_1mbps_after_digits (d us : string) (u : ascii) :
  Str.eqb (d +:+ String u us) "1mbps" = true ->
  Str.is_digit u = false -> Str.all Str.is_digit d = true -> d = "1".
Proof.
  intros H Hu Hd. apply String.eqb_eq in H.
  destruct d as [|c [|c' d]].
  - injection H as -> _. discriminate Hu.
  - injection H as -> _. reflexivity.
  - injection H as _ -> _. cbn [Str.all] in Hd.
    apply andb_prop in Hd as [_ Hd]. apply andb_prop in Hd as [Hm _].
    vm_compute in Hm. discriminate Hm.
Qed.

(** The unit branch on a text made of ASCII digits [d] and a rest
    [String u us] that starts with an ASCII character, neither a digit nor
    the minus sign: the digits go through unchanged. *)
Lemma post_throttle_after_digits (d us : string) (u : ascii) :
  Str.is_digit u = false ->
  Str.byte u < 128 -> Ascii.eqb u "-"%char = false ->
  Str.all Str.is_digit d = true ->
  post_throttle (VStr (d +:+ String u us))
  = let val := Str.lower (Str.replace " " "" (String u us)) in
    if Str.eqb (d +:+ val) "1mbps" then Ok (VStr "1 Mbps")
    else if Str.contains "mbps" val then
      Ok (VStr (d +:+ Str.replace "mbps" " Mbps" (Str.replace "Mbps" " Mbps" (String u us))))
    else if Str.contains "kbps" val then
      Ok (VStr (d +:+ Str.replace "kbps" " Kbps" (Str.replace "Kbps" " Kbps" (String u us))))
    else Ok (VStr (d +:+ String u us)).
Proof.
  intros Hu Hinf Hneg Hd. unfold post_throttle.
  assert (E1 : eq_str (VStr (d +:+ String u us)) "∞" = false).
  { change (Str.eqb (d +:+ String u us) "∞" = false).
    rewrite (eqb_after_digits d us _ u "226"%char Hu eq_refl Hd). destruct d; [|reflexivity].
    unfold Str.eqb. cbn [String.eqb].
    destruct (Ascii.eqb_spec u "226"%char) as [->|]; [|reflexivity]. discriminate Hinf. }
  assert (E2 : eq_str (VStr (d +:+ String u us)) "-1" = false).
  { change (Str.eqb (d +:+ String u us) "-1" = false).
    rewrite (eqb_after_digits d us _ u "-"%char Hu eq_refl Hd). destruct d; [|reflexivity].
    unfold Str.eqb. cbn [String.eqb]. now rewrite Hneg. }
  rewrite E1, E2. cbn [orb is_number is_digit_str].
  rewrite (isdigit_before_letter d us u Hu Hinf Hd).
  rewrite (replace_after_digits " "%char "" "" d _ eq_refl Hd).
  rewrite (lower_after_digits d _ Hd).
  rewrite (contains_after_digits "m"%char "bps" d _ eq_refl Hd).
  rewrite (contains_after_digits "k"%char "bps" d _ eq_refl Hd).
  rewrite (replace_after_digits "M"%char "bps" " Mbps" d _ eq_refl Hd).
  rewrite (replace_after_digits "m"%char "bps" " Mbps" d _ eq_refl Hd).
  rewrite (replace_after_digits "K"%char "bps" " Kbps" d _ eq_refl Hd).
  rewrite (replace_after_digits "k"%char "bps" " Kbps" d _ eq_refl Hd).
  reflexivity.
Qed.

Ltac throttle_unit d Hd :=
  rewrite post_throttle_after_digits by (exact Hd || reflexivity);
  match goal with
  | |- context [Str.lower (Str.replace ?sp ?e ?u)] =>
      let l := eval vm_compute in (Str.lower (Str.replace sp e u)) in
      change (Str.lower (Str.replace sp e u)) with l; cbv zeta;
      destruct (Str.eqb (d +:+ l) "1mbps") eqn:E;
      [pose proof (eqb_1mbps_after_digits d _ _ E eq_refl Hd) as ->;
       first [reflexivity | congruence | vm_compute in E; discriminate E]
      |reflexivity]
  end.

(** A text of digits with the unit attached comes out with one space and
    the unit capitalised. *)
Lemma post_throttle_attached_unit (d : string) :
  Str.all Str.is_digit d = true ->
  post_throttle (VStr (d +:+ "Mbps")) = Ok (VStr (d +:+ " Mbps"))
  /\ post_throttle (VStr (d +:+ "mbps")) = Ok (VStr (d +:+ " Mbps"))
  /\ post_throttle (VStr (d +:+ "Kbps")) = Ok (VStr (d +:+ " Kbps"))
  /\ post_throttle (VStr (d +:+ "kbps")) = Ok (VStr (d +:+ " Kbps")).
Proof. intros Hd. repeat split; throttle_unit d Hd. Qed.

(** A text of digits with a space before the unit gets a second space,
    except for the one value compared without its spaces; an upper-case
    unit is left as it is. *)
Lemma post_throttle_spaced_unit (d : string) :
  Str.all Str.is_digit d = true ->
  (d <> "1" -> post_throttle (VStr (d +:+ " Mbps")) = Ok (VStr (d +:+ "  Mbps")))
  /\ post_throttle (VStr (d +:+ " Kbps")) = Ok (VStr (d +:+ "  Kbps"))
  /\ (d <> "1" -> post_throttle (VStr (d +:+ "MBPS")) = Ok (VStr (d +:+ "MBPS")))
  /\ post_throttle (VStr (d +:+ "KBPS")) = Ok (VStr (d +:+ "KBPS")).
Proof.
  intros Hd. repeat split; try intros Hne; throttle_unit d Hd.
Qed.

(** C3: the specification has a throttle value that carries its unit come
    out as ["<n> Mbps"] or ["<n> Kbps"].  The code looks for the unit in
    the text without its spaces and in any case, but replaces in the text
    as given and only two spellings: ["2 Mbps"] gets a second space and
    ["2MBPS"] is not touched. *)
Theorem throttle_unit_is_not_normalized :
  attribute_values
    (transform_excel_row_to_api sample_float_repr throttle_mapping sample_now
       [(VStr "Throttled Speed (kbps)", VStr "2 Mbps")])
  = [VStr "2  Mbps"]
  /\ post_throttle (VStr "2MBPS") = Ok (VStr "2MBPS")
  /\ post_throttle (VStr "64 Kbps") = Ok (VStr "64  Kbps").
Proof. repeat split; vm_compute; reflexivity. Qed.

(** ** The product code (C5) *)

Section ProductCodeFacts.

Context (float_repr : spec_float -> string).

Lemma scan_code_columns_last (row : excel_row) :
  forall skuid_value days_value,
    scan_code_columns float_repr row skuid_value days_value
    = match other_label row with
      | Some col => Raise (no_attribute col "upper")
      | None =>
          Ok (last_value_or float_repr skuid_value is_skuid_column row,
              last_value_or float_repr days_value is_days_column row)
      end.
Proof.
  unfold other_label.
  induction row as [|[col cell] row IH]; intros sk dy; [reflexivity|].
  cbn [scan_code_columns List.find fst].
  destruct col as [|c|z|f]; try reflexivity.
  cbn [py_upper py_strip bind is_text negb]. rewrite IH.
  destruct (List.find _ row) as [kv|]; [reflexivity|]. cbn [fmap option_fmap option_map].
  unfold last_value_or. cbn [List.filter label_is fst snd].
  fold (is_skuid_column c). fold (is_days_column c).
  destruct (is_skuid_column c && notna cell), (is_days_column c && notna cell);
    rewrite ?last_cons;
    repeat match goal with |- context [last ?l] => destruct (last l) end;
    reflexivity.
Qed.




End ProductCodeFacts.

(** With two columns that contain "SKUID" the last one gives the code. *)
Lemma product_code_last_skuid_column :
  generate_product_code sample_float_repr
    [(VStr "SKUID", VStr "A"); (VStr "SKUID-Days", VStr "A-7"); (VStr "Days", VInt 7)]
    sample_now
  = Ok "A-7-7".
Proof. vm_compute. reflexivity. Qed.

(** The case of the letters and the white space are those of Unicode: the
    label "ſkuid" holds "SKUID" in upper case, and a no-break space after
    "Days" is trimmed. *)
Lemma product_code_unicode_labels :
  generate_product_code sample_float_repr
    [(VStr "ſkuid", VStr "A"); (VStr "Days ", VInt 7)] sample_now
  = Ok "A-7".
Proof. vm_compute. reflexivity. Qed.


(** It also fails on a label that is not a text: [pd.Series] of a value
    that is not a dictionary has the label [0], and the generation
    raises. *)
Lemma product_code_numeric_label :
  generate_product_code sample_float_repr
    [(VInt 0, VStr "this is not a valid dict")] sample_now
  = Raise (Exn AttributeError "'int' object has no attribute 'upper'").
Proof. vm_compute. reflexivity. Qed.

(** ** The HTTP client (C9) *)

(** C9: [send_to_api] supports POST and PUT only: for a configuration whose
    method, in upper case, is neither, it raises [ValueError] to the caller
    and issues no request. *)
Theorem send_to_api_rejects_other_methods (net : network) (api_config : APIConfig)
    (data : payload) (log : list http_request) :
  Str.upper (method api_config) <> "POST" ->
  Str.upper (method api_config) <> "PUT" ->
  send_to_api net api_config data log
  = (Raise (Exn ValueError ("Unsupported HTTP method: " +:+ method api_config)), log).
Proof.
  intros Hpost Hput. unfold send_to_api, http_bind, Str.eqb.
  apply String.eqb_neq in Hpost, Hput. rewrite Hpost, Hput. reflexivity.
Qed.

(** POST and PUT, in any case, do issue one request. *)
Lemma send_to_api_supported_methods (net : network) (api_config : APIConfig)
    (data : payload) (log : list http_request) :
  Str.upper (method api_config) = "POST" \/ Str.upper (method api_config) = "PUT" ->
  exists rq, (send_to_api net api_config data log).2 = (log ++ [rq])%list.
Proof.
  intros H. unfold send_to_api, http_bind, http_call, raise_for_status.
  destruct H as [-> | ->]; simpl;
    match goal with |- context [net log ?rq] => exists rq; destruct (net log rq) as [r|e] end;
    try reflexivity; destruct (is_error_status r); reflexivity.
Qed.

(** ** The batch runner (C6, C7, C8) *)

Section RunnerFacts.

Context (float_repr : spec_float -> string).
Context (net : network) (now : Z -> datetime).
Context (mapping_data : gmap string mapping_entry) (api_config : APIConfig).

Local Abbreviation transform := (transform_excel_row_to_api float_repr mapping_data).
Local Abbreviation run_row := (process_row float_repr net now mapping_data api_config).
Local Abbreviation run_rows := (process_rows float_repr net now mapping_data api_config).
Local Abbreviation run_file := (process_excel_file float_repr net now mapping_data api_config).

Lemma sent_result_row (index : Z) (p : payload) (sent : pyres Response)
    (r : process_result) :
  sent_result index p sent = Ok r -> result_row r = index + 1.
Proof.
  unfold sent_result. intros H.
  apply bind_ok in H as (response & _ & H).
  apply bind_ok in H as (data & _ & H). injection H as <-. reflexivity.
Qed.

(** Every row that is not skipped reports its own number. *)
Lemma process_row_row (dry_run : bool) (index : Z) (row : excel_row)
    (log : list http_request) :
  result_row (run_row dry_run index row log).1 = index + 1.
Proof.
  unfold process_row.
  destruct (transform (now index) row) as [p|e]; [|reflexivity].
  destruct dry_run; [reflexivity|].
  destruct (send_to_api net api_config p log) as [sent log'].
  destruct (sent_result index p sent) as [r|e] eqn:E; simpl.
  - eapply sent_result_row; eauto.
  - destruct (is_request_exception e); reflexivity.
Qed.

(** The results so far are kept in front. *)
Lemma process_rows_prefix (dry_run : bool) (start_row : Z) (rows : list excel_row) :
  forall index results log,
    run_rows dry_run start_row index rows results log
    = ((results ++ (run_rows dry_run start_row index rows [] log).1)%list,
       (run_rows dry_run start_row index rows [] log).2).
Proof.
  induction rows as [|row rows IH]; intros index results log; simpl.
  - now rewrite app_nil_r.
  - destruct (index + 1 <? start_row); [apply IH|].
    destruct (run_row dry_run index row log) as [r log'].
    rewrite (IH (index + 1) (results ++ [r])%list).
    rewrite (IH (index + 1) ([] ++ [r])%list). simpl.
    now rewrite <- app_assoc.
Qed.

(** The reported row numbers are those from [start_row] on, in order. *)
Lemma process_rows_row_numbers (dry_run : bool) (start_row : Z)
    (rows : list excel_row) :
  forall index log,
    let first := Z.max start_row (index + 1) in
    List.map result_row (run_rows dry_run start_row index rows [] log).1
    = seqZ first (index + Z.of_nat (length rows) + 1 - first).
Proof.
  induction rows as [|row rows IH]; intros index log first; subst first.
  - simpl. rewrite seqZ_nil by lia. reflexivity.
  - cbn [process_rows length].
    destruct (Z.ltb_spec (index + 1) start_row) as [Hskip|Hrun].
    + rewrite IH. f_equal; lia.
    + pose proof (process_row_row dry_run index row log) as Hrow.
      destruct (run_row dry_run index row log) as [r log']. simpl in Hrow.
      rewrite process_rows_prefix. cbn [fst]. rewrite map_app, IH. simpl.
      rewrite Hrow.
      rewrite (seqZ_cons (Z.max start_row (index + 1))) by lia.
      f_equal; [lia|]. f_equal; lia.
Qed.

(** The result of the row at position [k] sits at its place in the list
    and was computed by the loop body. *)
Lemma process_rows_lookup (dry_run : bool) (start_row : Z) (rows : list excel_row) :
  forall index log (k : nat) row,
    rows !! k = Some row ->
    start_row <= index + Z.of_nat k + 1 ->
    exists log_k,
      (run_rows dry_run start_row index rows [] log).1
        !! Z.to_nat (index + Z.of_nat k + 1 - Z.max start_row (index + 1))
      = Some (run_row dry_run (index + Z.of_nat k) row log_k).1.
Proof.
  induction rows as [|row0 rows IH]; intros index log k row Hk Hs; [discriminate Hk|].
  cbn [process_rows].
  destruct k as [|k]; simpl in Hk.
  - injection Hk as ->.
    destruct (Z.ltb_spec (index + 1) start_row) as [Hskip|Hrun]; [lia|].
    exists log. change (Z.of_nat 0) with 0. rewrite Z.add_0_r.
    destruct (run_row dry_run index row log) as [r log'].
    rewrite process_rows_prefix. cbn [fst].
    replace (Z.to_nat (index + 1 - Z.max start_row (index + 1))) with 0%nat by lia.
    reflexivity.
  - destruct (Z.ltb_spec (index + 1) start_row) as [Hskip|Hrun].
    + destruct (IH (index + 1) log k row Hk ltac:(lia)) as (log_k & Hlk).
      exists log_k.
      replace (index + Z.of_nat (S k)) with (index + 1 + Z.of_nat k) by lia.
      rewrite <- Hlk. f_equal. lia.
    + destruct (run_row dry_run index row0 log) as [r log'].
      destruct (IH (index + 1) log' k row Hk ltac:(lia)) as (log_k & Hlk).
      exists log_k. rewrite process_rows_prefix. cbn [fst].
      replace (index + Z.of_nat (S k)) with (index + 1 + Z.of_nat k) by lia.
      replace (Z.to_nat (index + 1 + Z.of_nat k + 1 - Z.max start_row (index + 1)))
        with (S (Z.to_nat (index + 1 + Z.of_nat k + 1 - Z.max start_row (index + 1 + 1))))
        by lia.
      exact Hlk.
Qed.

(** The rows before [start_row] leave no trace: neither a result nor a
    request. *)
Lemma process_rows_skip (dry_run : bool) (start_row : Z) (k : nat) :
  forall rows index results log,
    index + Z.of_nat k + 1 <= start_row ->
    run_rows dry_run start_row index rows results log
    = run_rows dry_run start_row (index + Z.of_nat k) (drop k rows) results log.
Proof.
  induction k as [|k IH]; intros rows index results log Hk.
  - change (Z.of_nat 0) with 0. now rewrite Z.add_0_r, drop_0.
  - destruct rows as [|row rows]; [reflexivity|].
    cbn [process_rows drop].
    destruct (Z.ltb_spec (index + 1) start_row) as [_|Hrun]; [|lia].
    rewrite IH by lia. f_equal. lia.
Qed.

(** From [start_row] on, every row goes through the loop body. *)
Lemma process_rows_each (dry_run : bool) (start_row : Z) (rows : list excel_row) :
  forall index log,
    start_row <= index + 1 ->
    run_rows dry_run start_row index rows [] log
    = each_row float_repr net now mapping_data api_config dry_run index rows log.
Proof.
  induction rows as [|row rows IH]; intros index log Hs; [reflexivity|].
  cbn [process_rows each_row].
  destruct (Z.ltb_spec (index + 1) start_row) as [Hskip|_]; [lia|].
  destruct (run_row dry_run index row log) as [r log1].
  rewrite process_rows_prefix, IH by lia.
  destruct (each_row float_repr net now mapping_data api_config dry_run
              (index + 1) rows log1) as [rs log2].
  reflexivity.
Qed.

(** C6, amended: over [n] rows, the first row processed is row
    [first = max start_row 1] (a start below 1 skips nothing).  The run is
    the loop body over the rows from [first] on and over nothing else, so
    the rows before it are skipped entirely: they give no result and no
    request.  Every row from [first] on gives exactly one result, and the
    reported row numbers are [first, first+1, ..., n] in order; there are
    [n - first + 1] of them, none when [first] is beyond the last row. *)
Theorem process_excel_file_reports_rows_from_start (product_data : list excel_row)
    (dry_run : bool) (start_row : Z) (log : list http_request) :
  let n := Z.of_nat (length product_data) in
  let first := Z.max start_row 1 in
  let run := run_file product_data dry_run start_row log in
  run = each_row float_repr net now mapping_data api_config dry_run (first - 1)
          (drop (Z.to_nat (first - 1)) product_data) log
  /\ List.map result_row run.1 = seqZ first (n - first + 1)
  /\ Z.of_nat (length run.1) = Z.max 0 (n - first + 1).
Proof.
  intros n first run. subst n first run. unfold process_excel_file.
  assert (Hrows := process_rows_row_numbers dry_run start_row product_data 0 log).
  cbv zeta in Hrows. replace (Z.max start_row (0 + 1)) with (Z.max start_row 1) in Hrows by lia.
  replace (0 + Z.of_nat (length product_data) + 1 - Z.max start_row 1)
    with (Z.of_nat (length product_data) - Z.max start_row 1 + 1) in Hrows by lia.
  split; [|split; [exact Hrows|]].
  - destruct (Z.le_gt_cases start_row 1) as [Hlow|Hhigh].
    + replace (Z.max start_row 1) with 1 by lia.
      change (Z.to_nat (1 - 1)) with 0%nat. rewrite drop_0.
      apply process_rows_each. lia.
    + replace (Z.max start_row 1) with start_row by lia.
      rewrite (process_rows_skip dry_run start_row (Z.to_nat (start_row - 1))) by lia.
      replace (0 + Z.of_nat (Z.to_nat (start_row - 1))) with (start_row - 1) by lia.
      apply process_rows_each. lia.
  - rewrite <- (length_map result_row), Hrows, length_seqZ. lia.
Qed.

(** The reported row numbers of a run. *)
Lemma process_excel_file_row_numbers (product_data : list excel_row)
    (dry_run : bool) (start_row : Z) (log : list http_request) :
  List.map result_row (run_file product_data dry_run start_row log).1
  = seqZ (Z.max start_row 1)
      (Z.of_nat (length product_data) - Z.max start_row 1 + 1).
Proof.
  unfold process_excel_file.
  rewrite (process_rows_row_numbers dry_run start_row product_data 0 log).
  f_equal; lia.
Qed.

(** What the loop body records when the mapping or the sending raises. *)
Lemma process_row_mapping_raises (dry_run : bool) (index : Z) (row : excel_row)
    (log : list http_request) (e : pyexn) :
  transform (now index) row = Raise e ->
  run_row dry_run index row log = (RowFailed (index + 1) (exn_msg e), log).
Proof. intros H. unfold process_row. now rewrite H. Qed.

Lemma process_row_sending_raises (index : Z) (row : excel_row)
    (log : list http_request) (p : payload) (e : pyexn) :
  transform (now index) row = Ok p ->
  (send_to_api net api_config p log).1 = Raise e ->
  result_status (run_row false index row log).1 = "failed"
  /\ result_error (run_row false index row log).1 = Some (exn_msg e).
Proof.
  intros Hp Hsend. unfold process_row. rewrite Hp.
  destruct (send_to_api net api_config p log) as [sent log']. simpl in Hsend.
  subst sent. simpl. destruct (is_request_exception e); split; reflexivity.
Qed.

(** C7: the runner returns a list, never an exception, with one result
    per row from [start_row] on.  For the row at position [k]: its result
    sits at its place and reports row [k + 1]; if its mapping raises [e],
    the result is the failure carrying [str(e)]; if the mapping returns
    and the sending raises [e], the result has status "failed" and the
    error [str(e)].  The rows after it are in the list all the same. *)
Theorem row_failure_is_recorded_and_batch_continues (product_data : list excel_row)
    (dry_run : bool) (start_row : Z) (log : list http_request)
    (k : nat) (row : excel_row) :
  product_data !! k = Some row ->
  start_row <= Z.of_nat k + 1 ->
  let results := (run_file product_data dry_run start_row log).1 in
  List.map result_row results
    = seqZ (Z.max start_row 1)
        (Z.of_nat (length product_data) - Z.max start_row 1 + 1)
  /\ exists log_k r,
       results !! Z.to_nat (Z.of_nat k + 1 - Z.max start_row 1) = Some r
       /\ r = (run_row dry_run (Z.of_nat k) row log_k).1
       /\ result_row r = Z.of_nat k + 1
       /\ (forall e, transform (now (Z.of_nat k)) row = Raise e ->
                     r = RowFailed (Z.of_nat k + 1) (exn_msg e))
       /\ (forall p e, dry_run = false ->
                       transform (now (Z.of_nat k)) row = Ok p ->
                       (send_to_api net api_config p log_k).1 = Raise e ->
                       result_status r = "failed"
                       /\ result_error r = Some (exn_msg e)).
Proof.
  intros Hk Hs results. subst results.
  split; [apply process_excel_file_row_numbers|].
  unfold process_excel_file.
  destruct (process_rows_lookup dry_run start_row product_data 0 log k row Hk)
    as (log_k & Hlk); [lia|].
  exists log_k, (run_row dry_run (Z.of_nat k) row log_k).1.
  split; [exact Hlk|]. split; [reflexivity|].
  split; [apply process_row_row|]. split.
  - intros e He. now rewrite (process_row_mapping_raises _ _ _ _ _ He).
  - intros p e -> Hp He. now apply (process_row_sending_raises _ _ _ p).
Qed.

Lemma process_row_dry_run (index : Z) (row : excel_row) (log : list http_request) :
  (run_row true index row log).2 = log
  /\ ((exists p, transform (now index) row = Ok p
                 /\ (run_row true index row log).1
                    = DryRun (index + 1) (productCode p) p)
      \/ (exists e, transform (now index) row = Raise e
                    /\ (run_row true index row log).1
                       = RowFailed (index + 1) (exn_msg e))).
Proof.
  unfold process_row. destruct (transform (now index) row) as [p|e]; simpl.
  - split; [reflexivity|]. left. eauto.
  - split; [reflexivity|]. right. eauto.
Qed.

Lemma process_rows_dry_run (start_row : Z) (rows : list excel_row) :
  forall (done : nat) log,
    (run_rows true start_row (Z.of_nat done) rows [] log).2 = log
    /\ Forall (fun r => exists (k : nat) row,
                rows !! k = Some row
                /\ ((exists p, transform (now (Z.of_nat (done + k))) row = Ok p
                        /\ r = DryRun (Z.of_nat (done + k) + 1) (productCode p) p)
                    \/ (exists e, transform (now (Z.of_nat (done + k))) row = Raise e
                           /\ r = RowFailed (Z.of_nat (done + k) + 1) (exn_msg e))))
         (run_rows true start_row (Z.of_nat done) rows [] log).1.
Proof.
  induction rows as [|row rows IH]; intros done log; [split; [reflexivity|constructor]|].
  cbn [process_rows].
  assert (Hshift : forall l,
    Forall (fun r => exists (k : nat) row',
                rows !! k = Some row'
                /\ ((exists p, transform (now (Z.of_nat (S done + k))) row' = Ok p
                        /\ r = DryRun (Z.of_nat (S done + k) + 1) (productCode p) p)
                    \/ (exists e, transform (now (Z.of_nat (S done + k))) row' = Raise e
                           /\ r = RowFailed (Z.of_nat (S done + k) + 1) (exn_msg e)))) l ->
    Forall (fun r => exists (k : nat) row',
                (row :: rows) !! k = Some row'
                /\ ((exists p, transform (now (Z.of_nat (done + k))) row' = Ok p
                        /\ r = DryRun (Z.of_nat (done + k) + 1) (productCode p) p)
                    \/ (exists e, transform (now (Z.of_nat (done + k))) row' = Raise e
                           /\ r = RowFailed (Z.of_nat (done + k) + 1) (exn_msg e)))) l).
  { intros l Hl. eapply Forall_impl; [exact Hl|].
    intros r (k & row' & Hk). exists (S k), row'.
    replace (done + S k)%nat with (S done + k)%nat by lia. exact Hk. }
  replace (Z.of_nat done + 1) with (Z.of_nat (S done)) by lia.
  destruct (Z.of_nat (S done) <? start_row).
  - destruct (IH (S done) log) as [Hlog Hres]. split; [exact Hlog|]. now apply Hshift.
  - destruct (process_row_dry_run (Z.of_nat done) row log) as [Hlog Hr].
    destruct (run_row true (Z.of_nat done) row log) as [r log']. simpl in Hlog, Hr.
    subst log'. rewrite process_rows_prefix. cbn [fst snd].
    destruct (IH (S done) log) as [Hlog Hres]. split; [exact Hlog|].
    change ([] ++ [r])%list with [r]. cbn [app]. constructor; [|now apply Hshift].
    exists 0%nat, row. rewrite Nat.add_0_r. split; [reflexivity|exact Hr].
Qed.

(** A dry run does not depend on the remote side nor on the API
    configuration: [send_to_api] is not reached. *)
Lemma process_rows_dry_run_frame (net' : network) (api_config' : APIConfig)
    (start_row : Z) (rows : list excel_row) :
  forall index results log,
    process_rows float_repr net' now mapping_data api_config' true start_row index
      rows results log
    = run_rows true start_row index rows results log.
Proof.
  induction rows as [|row rows IH]; intros index results log; [reflexivity|].
  cbn [process_rows]. destruct (index + 1 <? start_row); [apply IH|].
  unfold process_row.
  destruct (transform (now index) row) as [p|e]; apply IH.
Qed.

(** C8, amended: in a dry run the HTTP client is not invoked (the log of
    requests is unchanged and the run is the same for every remote side
    and every API configuration), and every result either has status
    "dry_run" and carries the payload computed for its row, or, when the
    mapping of its row raised, has status "failed" and carries the
    error. *)
Theorem dry_run_issues_no_request (product_data : list excel_row) (start_row : Z)
    (log : list http_request) (net' : network) (api_config' : APIConfig) :
  (run_file product_data true start_row log).2 = log
  /\ process_excel_file float_repr net' now mapping_data api_config' product_data
       true start_row log
     = run_file product_data true start_row log
  /\ Forall (fun r =>
       dry_run_outcome float_repr now mapping_data product_data r
       /\ ((result_status r = "dry_run" /\ is_Some (result_payload r))
           \/ (result_status r = "failed" /\ is_Some (result_error r))))
     (run_file product_data true start_row log).1.
Proof.
  unfold process_excel_file.
  destruct (process_rows_dry_run start_row product_data 0 log) as [Hlog Hres].
  split; [exact Hlog|]. split; [apply process_rows_dry_run_frame|].
  eapply Forall_impl; [exact Hres|].
  intros r (k & row & Hk & Hout). simpl in Hout. split.
  - exists k, row. split; [exact Hk|].
    destruct Hout as [(p & Hp & ->)|(e & He & ->)]; (split; [reflexivity|]); eauto.
  - destruct Hout as [(p & Hp & ->)|(e & He & ->)]; [left|right]; simpl; eauto.
Qed.

End RunnerFacts.

(** * Further properties *)

(** ** The value normalizer *)

Section NormalizerMore.

Context (float_repr : spec_float -> string).

(** X1: when the normalizer returns, the result is [None] exactly for a blank
    input (an empty cell, the empty text or the placeholder "Trống") and a
    text for every other input, numbers included. *)
Theorem process_mapping_value_none_iff_blank (mapping_value n r : pyval) :
  _process_mapping_value float_repr mapping_value n = Ok r ->
  if is_blank mapping_value then r = VNone else exists t, r = VStr t.
Proof.
  unfold _process_mapping_value. fold (is_blank mapping_value).
  destruct (is_blank mapping_value); [now intros [= <-]|].
  destruct mapping_value as [|s|z|f]; try (intros [= <-]; eauto).
  destruct (Str.contains "support" _); [intros [= <-]; eauto|].
  intros H. apply bind_ok in H as (b & _ & H).
  destruct b; [injection H as <-; eauto|].
  destruct (Str.contains "không bắt buộc" _); injection H as <-; eauto.
Qed.

(** X2: a text that contains "support" in any case, anywhere, is normalized
    to "1" whatever the note is; the note is not even read. *)
Theorem process_mapping_value_support (s : string) (n : pyval) :
  Str.contains "support" (Str.lower s) = true ->
  _process_mapping_value float_repr (VStr s) n = Ok (VStr "1").
Proof.
  intros H. unfold _process_mapping_value. cbn [isna eq_str orb].
  unfold Str.eqb.
  destruct (String.eqb_spec s "Trống") as [->|_]; [vm_compute in H; discriminate H|].
  destruct (String.eqb_spec s "") as [->|_]; [vm_compute in H; discriminate H|].
  cbn [orb]. rewrite (contains_strip "s"%char "upport" _ eq_refl eq_refl), H.
  reflexivity.
Qed.

End NormalizerMore.

(** ** The mapper *)

Section MapperMore.

Context (float_repr : spec_float -> string).
Context (mapping_data : gmap string mapping_entry).

Lemma field_mappings_keep_constants (row : excel_row) (p0 p1 : payload) :
  for_each (apply_field_mapping float_repr mapping_data row) field_mappings p0 = Ok p1 ->
  constants p1 = constants p0.
Proof.
  apply (for_each_invariant (fun p => constants p = constants p0)); [|reflexivity].
  intros acc fm acc' Hin Hacc Hstep.
  unfold apply_field_mapping in Hstep.
  destruct (mapping_data !! fm.1) as [m|]; [|injection Hstep as <-; exact Hacc].
  destruct (notna (excel_mapping m)); [|injection Hstep as <-; exact Hacc].
  destruct (row_find (excel_mapping m) row) as [cell|]; [|injection Hstep as <-; exact Hacc].
  apply bind_ok in Hstep as (value & _ & Hstep). injection Hstep as <-.
  destruct (is_none value); [exact Hacc|].
  simpl in Hin. destruct Hin as [<-|[<-|[<-|[]]]]; exact Hacc.
Qed.

(** X3: every returned payload carries the constants of the template, the
    two fixed descriptions, and no ["weight"] key, whatever the row and the
    mapping configuration are. *)
Theorem transform_fixed_fields (now : datetime) (row : excel_row) (p : payload) :
  transform_excel_row_to_api float_repr mapping_data now row = Ok p ->
  productDescription p = "Thời gian sử dụng là số ngày kể từ ngày kích hoạt"
  /\ productDescriptionEn p
     = "The usage period is the number of days from the activation date."
  /\ weight p = None
  /\ constants p = (561, "01", 1, 1, 1, 101, VNone, 1).
Proof.
  unfold transform_excel_row_to_api. intros H.
  apply bind_ok in H as (p1 & H1 & H).
  apply bind_ok in H as (prices & _ & H).
  apply bind_ok in H as (vats & _ & H).
  apply bind_ok in H as (attrs & _ & H).
  apply bind_ok in H as (code & _ & H).
  injection H as <-.
  apply field_mappings_keep_constants in H1.
  repeat split; try reflexivity. exact H1.
Qed.

Lemma map_price_value (row : excel_row) (field : string) (default : Z)
    (d : price_dto) (l' : list price_dto) :
  price d = VInt default ->
  map_price mapping_data row field default [d] = Ok l' ->
  List.map price l' = [expected_price mapping_data row field default].
Proof.
  intros Hd H. unfold map_price in H. unfold expected_price.
  destruct (mapping_data !! field) as [m|]; [|injection H as <-; simpl; now rewrite Hd].
  destruct (notna (excel_mapping m));
    [|injection H as <-; destruct (row_find _ _); simpl; now rewrite Hd].
  destruct (row_find (excel_mapping m) row) as [cell|];
    [|injection H as <-; simpl; now rewrite Hd].
  cbn [andb]. destruct (notna cell); [|injection H as <-; simpl; now rewrite Hd].
  unfold try_except, converted_or in *.
  destruct (py_float cell) as [f|e]; simpl in H.
  - now injection H as <-.
  - destruct (value_or_type_error e); [now injection H as <-|discriminate H].
Qed.

(** The price block raises only when [float] raises something else than
    [ValueError] and [TypeError]: an integer too large for a float. *)
Lemma map_price_raises (row : excel_row) (field : string) (default : Z)
    (d : price_dto) (e : pyexn) :
  map_price mapping_data row field default [d] = Raise e ->
  exn_cls e = OverflowError
  /\ exists m z,
       mapping_data !! field = Some m
       /\ row_find (excel_mapping m) row = Some (VInt z)
       /\ PyFloat.of_int z = Raise e.
Proof.
  unfold map_price. destruct (mapping_data !! field) as [m|]; [|discriminate].
  destruct (notna (excel_mapping m)); [|discriminate].
  destruct (row_find (excel_mapping m) row) as [cell|] eqn:Hfind; [|discriminate].
  destruct (notna cell) eqn:Hcell; [|discriminate].
  unfold try_except. destruct cell as [|s|z|f]; cbn [py_float bind].
  - discriminate Hcell.
  - unfold PyFloat.of_str.
    destruct (_ ≫= PyFloat.parse); cbn [bind set_price0]; discriminate.
  - intros H.
    assert (Hz : PyFloat.of_int z
                 = Raise (Exn OverflowError "int too large to convert to float")
                 /\ e = Exn OverflowError "int too large to convert to float").
    { unfold PyFloat.of_int in *.
      destruct (binary_normalize prec64 emax64 z 0 false); cbn in H;
        try discriminate H. injection H as <-. split; reflexivity. }
    destruct Hz as [Hz ->]. split; [reflexivity|]. exists m, z.
    split; [reflexivity|]. split; [exact Hfind | exact Hz].
  - cbn [set_price0]. discriminate.
Qed.

(** X4: in a returned payload the price is the float of the mapped cell when
    the cell is present, not empty and converts, and 0 otherwise; the VAT
    likewise with the default 10.  A cell on which [float] raises
    [ValueError] or [TypeError] does not fail the row: the block returns
    with the default stored.  The price and the VAT blocks raise for an
    integer too large for a float and for nothing else. *)
Theorem transform_price_and_vat (now : datetime) (row : excel_row) :
  (forall p,
     transform_excel_row_to_api float_repr mapping_data now row = Ok p ->
     List.map price (productPriceDTOS p)
       = [expected_price mapping_data row "Giá hàng hóa" 0]
     /\ List.map price (productVatDTOS p) = [expected_price mapping_data row "VAT" 10])
  /\ (forall field default d m cell e,
        mapping_data !! field = Some m ->
        row_find (excel_mapping m) row = Some cell ->
        py_float cell = Raise e ->
        exn_cls e = ValueError \/ exn_cls e = TypeError ->
        map_price mapping_data row field default [d]
        = Ok [if notna (excel_mapping m) && notna cell
              then set_price (VInt default) d else d])
  /\ (forall field default d e,
        map_price mapping_data row field default [d] = Raise e ->
        exn_cls e = OverflowError
        /\ exists m z,
             mapping_data !! field = Some m
             /\ row_find (excel_mapping m) row = Some (VInt z)
             /\ PyFloat.of_int z = Raise e).
Proof.
  split; [|split].
  - intros p H.
    apply transform_ok in H
      as (p1 & prices & vats & attrs & H1 & H2 & H3 & _ & Hp & Hv & _).
    apply field_mappings_keep_prices in H1 as [Kp Kv].
    rewrite Kp in H2. rewrite Kv in H3. rewrite Hp, Hv. split.
    + exact (map_price_value row _ 0 (PriceDTO (VInt 0) VNone VNone VNone) prices
               eq_refl H2).
    + exact (map_price_value row _ 10 (PriceDTO (VInt 10) VNone VNone VNone) vats
               eq_refl H3).
  - intros field default d m cell e Hm Hcell Hfloat Hcls.
    unfold map_price. rewrite Hm.
    destruct (notna (excel_mapping m)); [|reflexivity].
    rewrite Hcell. cbn [andb]. destruct (notna cell); [|reflexivity].
    rewrite Hfloat. cbn [bind try_except]. unfold value_or_type_error.
    destruct Hcls as [-> | ->]; reflexivity.
  - intros field default d e. apply map_price_raises.
Qed.

Lemma generate_product_code_not_empty (row : excel_row) (now : datetime)
    (product_code : string) :
  generate_product_code float_repr row now = Ok product_code -> product_code <> "".
Proof.
  unfold generate_product_code. intros H.
  apply bind_ok in H as ([skuid days] & _ & H). injection H as <-.
  destruct skuid as [|c skuid]; cbn [Str.truthy andb]; [discriminate|].
  destruct (Str.truthy days); discriminate.
Qed.

(** The code does not read the clock when the row has a SKUID value. *)
Lemma generate_product_code_clock (row : excel_row) (now now' : datetime) :
  last_value_or float_repr "" is_skuid_column row <> "" ->
  generate_product_code float_repr row now' = generate_product_code float_repr row now.
Proof.
  intros Hsk. unfold generate_product_code. rewrite scan_code_columns_last.
  destruct (other_label row); [reflexivity|]. cbn [bind].
  destruct (last_value_or float_repr "" is_skuid_column row) as [|c s];
    [congruence|]. cbn [Str.truthy andb].
  destruct (Str.truthy _); reflexivity.
Qed.

(** X5: the product code of a returned payload is never empty, and the
    payload does not depend on the clock as soon as the row has a SKUID
    value: the last column whose name contains "SKUID" in upper case and
    whose cell is not null has a text that is not empty. *)
Theorem transform_product_code (now now' : datetime) (row : excel_row) (p : payload) :
  transform_excel_row_to_api float_repr mapping_data now row = Ok p ->
  (exists code, productCode p = VStr code /\ code <> "")
  /\ (last_value_or float_repr "" is_skuid_column row <> "" ->
      transform_excel_row_to_api float_repr mapping_data now' row = Ok p).
Proof.
  intros H. split.
  - apply transform_ok in H
      as (_ & _ & _ & _ & _ & _ & _ & _ & _ & _ & _ & code & Hcode & Hc).
    exists code. split; [exact Hc | exact (generate_product_code_not_empty _ _ _ Hcode)].
  - intros Hsk. rewrite <- H. unfold transform_excel_row_to_api.
    now rewrite (generate_product_code_clock row now now' Hsk).
Qed.

Lemma transform_finish (md : gmap string mapping_entry) (now : datetime)
    (row : excel_row) :
  transform_excel_row_to_api float_repr md now row
  = bind (for_each (apply_field_mapping float_repr md row) field_mappings
            _get_default_api_payload) (finish float_repr md now row).
Proof. reflexivity. Qed.

Lemma finish_forgets_code (md : gmap string mapping_entry) (now : datetime)
    (row : excel_row) (v : pyval) (q : payload) :
  finish float_repr md now row (set_productCode v q) = finish float_repr md now row q.
Proof.
  unfold finish. cbn [set_productCode set_productDescription set_productDescriptionEn
    set_weight productPriceDTOS productVatDTOS].
  destruct (map_price md row "Giá hàng hóa" 0 (productPriceDTOS q)) as [prices|];
    [|reflexivity]. cbn [bind].
  cbn [set_productPriceDTOS productVatDTOS].
  destruct (map_price md row "VAT" 10 (productVatDTOS q)) as [vats|]; [|reflexivity].
  cbn [bind]. destruct (for_each _ _ _); [|reflexivity].
  cbn [bind]. destruct (generate_product_code float_repr row now); reflexivity.
Qed.

Lemma for_each_ext {A B : Type} (f g : B -> A -> pyres B) (l : list A) :
  (forall x acc, In x l -> f acc x = g acc x) ->
  forall acc, for_each f l acc = for_each g l acc.
Proof.
  induction l as [|x l IH]; intros H acc; [reflexivity|]. cbn [for_each].
  rewrite (H x acc (or_introl eq_refl)).
  destruct (g acc x); [apply IH; intros; apply H; now right | reflexivity].
Qed.

Lemma finish_delete_code_mapping (now : datetime) (row : excel_row) (q : payload) :
  finish float_repr (delete "Mã sản phẩm" mapping_data) now row q = finish float_repr mapping_data now row q.
Proof.
  unfold finish, map_price.
  rewrite !lookup_delete_ne by discriminate.
  rewrite (for_each_ext (append_attribute float_repr (delete "Mã sản phẩm" mapping_data) row)
             (append_attribute float_repr mapping_data row)); [reflexivity|].
  intros attr acc Hin. unfold append_attribute, attribute_of.
  destruct attr as [bcss_field id].
  rewrite lookup_delete_ne; [reflexivity|].
  simpl in Hin. intros <-.
  repeat (destruct Hin as [Hin|Hin]; [discriminate Hin|]). destruct Hin.
Qed.

Lemma apply_field_mapping_after_code (md : gmap string mapping_entry) (row : excel_row)
    (fm : string * (pyval -> payload -> payload)) (v : pyval) (p : payload) :
  (forall x q, fm.2 x (set_productCode v q) = set_productCode v (fm.2 x q)) ->
  apply_field_mapping float_repr md row (set_productCode v p) fm
  = bind (apply_field_mapping float_repr md row p fm)
      (fun q => Ok (set_productCode v q)).
Proof.
  intros Hc. unfold apply_field_mapping.
  destruct (md !! fm.1) as [m|]; [|reflexivity].
  destruct (notna (excel_mapping m)); [|reflexivity].
  destruct (row_find (excel_mapping m) row) as [cell|]; [|reflexivity].
  destruct (_process_mapping_value float_repr cell (notes m)) as [value|]; [|reflexivity].
  cbn [bind]. destruct (is_none value); [reflexivity|]. now rewrite Hc.
Qed.

Lemma transform_steps (md : gmap string mapping_entry) (now : datetime)
    (row : excel_row) :
  transform_excel_row_to_api float_repr md now row
  = bind (bind (apply_field_mapping float_repr md row _get_default_api_payload
                  ("Mã sản phẩm", set_productCode))
            (name_and_package float_repr md row))
      (finish float_repr md now row).
Proof. reflexivity. Qed.

Lemma name_and_package_after_code (md : gmap string mapping_entry) (now : datetime)
    (row : excel_row) (v : pyval) (q : payload) :
  bind (name_and_package float_repr md row (set_productCode v q)) (finish float_repr md now row)
  = bind (name_and_package float_repr md row q) (finish float_repr md now row).
Proof.
  unfold name_and_package.
  rewrite (apply_field_mapping_after_code md row _ v q) by reflexivity.
  destruct (apply_field_mapping float_repr md row q _) as [q1|]; [|reflexivity].
  cbn [bind]. rewrite (apply_field_mapping_after_code md row _ v q1) by reflexivity.
  destruct (apply_field_mapping float_repr md row q1 _) as [q2|]; [|reflexivity].
  cbn [bind]. apply finish_forgets_code.
Qed.

Lemma name_and_package_delete (row : excel_row) (q : payload) :
  name_and_package float_repr (delete "Mã sản phẩm" mapping_data) row q
  = name_and_package float_repr mapping_data row q.
Proof.
  unfold name_and_package, apply_field_mapping. cbn [fst].
  rewrite lookup_delete_ne by discriminate.
  destruct (mapping_data !! "Tên sản phẩm") as [m|]; cbn [bind];
    rewrite ?lookup_delete_ne by discriminate; [|reflexivity].
  destruct (notna (excel_mapping m)); cbn [bind];
    rewrite ?lookup_delete_ne by discriminate; [|reflexivity].
  destruct (row_find (excel_mapping m) row); cbn [bind];
    rewrite ?lookup_delete_ne by discriminate; [|reflexivity].
  destruct (_process_mapping_value float_repr _ _); cbn [bind];
    rewrite ?lookup_delete_ne by discriminate; reflexivity.
Qed.

(** X6: the entry of the mapping configuration for the product code
    ("Mã sản phẩm") has no effect on a returned payload: the code is always
    generated from the SKUID and days columns, and the payload is the same
    without the entry. *)
Theorem transform_ignores_code_mapping (now : datetime) (row : excel_row) (p : payload) :
  transform_excel_row_to_api float_repr mapping_data now row = Ok p ->
  transform_excel_row_to_api float_repr (delete "Mã sản phẩm" mapping_data) now row
  = Ok p.
Proof.
  rewrite !transform_steps. intros H.
  unfold apply_field_mapping at 1. cbn [fst]. rewrite lookup_delete_eq. cbn [bind].
  rewrite name_and_package_delete.
  assert (Hfin : forall q, bind (name_and_package float_repr mapping_data row q)
                             (finish float_repr (delete "Mã sản phẩm" mapping_data) now row)
                           = bind (name_and_package float_repr mapping_data row q)
                               (finish float_repr mapping_data now row)).
  { intros q. destruct (name_and_package float_repr mapping_data row q); [|reflexivity].
    apply finish_delete_code_mapping. }
  rewrite Hfin. unfold apply_field_mapping at 1 in H. cbn [fst snd] in H.
  destruct (mapping_data !! "Mã sản phẩm") as [m|]; [|exact H].
  destruct (notna (excel_mapping m)); [|exact H].
  destruct (row_find (excel_mapping m) row) as [cell|]; [|exact H].
  destruct (_process_mapping_value float_repr cell (notes m)) as [value|];
    [|discriminate H].
  cbn [bind] in H. destruct (is_none value); [exact H|].
  now rewrite name_and_package_after_code in H.
Qed.

Lemma attribute_name_of_id (attr : string * Z) :
  In attr _get_attribute_mapping ->
  (attr.2 = 105 -> attr.1 = "Chia sẻ Wifi").
Proof.
  simpl. intros H E.
  repeat (destruct H as [<-|H]; [simpl in E; (discriminate E || reflexivity)|]).
  destruct H.
Qed.

Lemma attribute_id_106 (attr : string * Z) :
  In attr _get_attribute_mapping -> attr.2 = 106 -> attr.1 = "Loại SIM".
Proof.
  simpl. intros H E.
  repeat (destruct H as [<-|H]; [simpl in E; (discriminate E || reflexivity)|]).
  destruct H.
Qed.

Lemma attribute_id_101 (attr : string * Z) :
  In attr _get_attribute_mapping -> attr.2 = 101 -> attr.1 = "Dung lượng tốc độ cao".
Proof.
  simpl. intros H E.
  repeat (destruct H as [<-|H]; [simpl in E; (discriminate E || reflexivity)|]).
  destruct H.
Qed.

Lemma resolve_hotspot (m : mapping_entry) (row : excel_row) :
  resolve_attribute float_repr "Chia sẻ Wifi" (excel_mapping m) (notes m) row
  = Ok (VStr (hotspot_value float_repr m row)).
Proof.
  unfold resolve_attribute, hotspot_value.
  destruct (notna (excel_mapping m)); [|reflexivity].
  change (Str.eqb "Chia sẻ Wifi" "Chia sẻ Wifi") with true. cbv iota.
  destruct (row_find (excel_mapping m) row); reflexivity.
Qed.

(** X7: in a returned payload the hotspot slot (id 105) is "1" when the
    mapped column exists and the text of its cell contains "support" in any
    case, "0" when it does not or the column is missing, and the empty text
    only when the configuration names no column; the note of the
    configuration plays no part. *)
Theorem hotspot_slot_is_a_flag (now : datetime) (row : excel_row) (p : payload) :
  transform_excel_row_to_api float_repr mapping_data now row = Ok p ->
  Forall (fun e =>
    productCategoryAttributeId e = 105 ->
    exists m,
      mapping_data !! "Chia sẻ Wifi" = Some m
      /\ attributeValue e = VStr (hotspot_value float_repr m row)
      /\ (notna (excel_mapping m) = true ->
          attributeValue e = VStr "0" \/ attributeValue e = VStr "1"))
    (attributeValueList p).
Proof.
  intros H.
  apply transform_ok in H as (_ & _ & _ & attrs & _ & _ & _ & Hloop & _ & _ & -> & _).
  apply attribute_loop_entries in Hloop as (es & -> & Hes). rewrite app_nil_l.
  apply Forall2_filter_in in Hes.
  eapply Forall_impl; [exact Hes|].
  intros e (attr & Hin & Hattr) Hid.
  destruct (attribute_of_some _ _ _ _ _ Hattr)
    as (_ & _ & Hid' & _ & m & v & Hm & Hv & Hpost).
  rewrite Hid in Hid'. symmetry in Hid'.
  rewrite (attribute_name_of_id _ Hin Hid') in Hm, Hv. rewrite Hid' in Hpost.
  rewrite resolve_hotspot in Hv. injection Hv as <-.
  injection Hpost as Hval.
  exists m. split; [exact Hm|]. split; [now symmetry|].
  intros Hcol. rewrite <- Hval. unfold hotspot_value. rewrite Hcol.
  destruct (row_find (excel_mapping m) row); [|now left].
  destruct (Str.contains "support" _); [now right | now left].
Qed.

(** X8: in a returned payload the validity-days slot (id 109) is an integer
    or [None], never a text. *)
Theorem days_slot_is_integer_or_none (now : datetime) (row : excel_row) (p : payload) :
  transform_excel_row_to_api float_repr mapping_data now row = Ok p ->
  Forall (fun e =>
    productCategoryAttributeId e = 109 ->
    attributeValue e = VNone \/ exists z, attributeValue e = VInt z)
    (attributeValueList p).
Proof.
  intros H.
  apply transform_ok in H as (_ & _ & _ & attrs & _ & _ & _ & Hloop & _ & _ & -> & _).
  apply attribute_loop_entries in Hloop as (es & -> & Hes). rewrite app_nil_l.
  apply Forall2_filter_in in Hes.
  eapply Forall_impl; [exact Hes|].
  intros e (attr & Hin & Hattr) Hid.
  destruct (attribute_of_some _ _ _ _ _ Hattr)
    as (_ & _ & Hid' & _ & m & v & Hm & Hv & Hpost).
  rewrite Hid in Hid'. rewrite <- Hid' in Hpost.
  injection Hpost as <-. apply post_integer_int_or_none.
Qed.


Lemma post_sim_type_normal (v : pyval) (s : string) :
  post_sim_type float_repr v = VStr s ->
  Str.lower (Str.strip s) <> "esim" /\ Str.lower (Str.strip s) <> "sim card".
Proof.
  unfold post_sim_type, Str.eqb.
  destruct (String.eqb_spec (Str.lower (Str.strip (py_str float_repr v))) "esim")
    as [_|Hesim].
  - intros [= <-]. split; discriminate.
  - destruct (String.eqb_spec (Str.lower (Str.strip (py_str float_repr v))) "sim card")
      as [_|Hcard].
    + intros [= <-]. split; discriminate.
    + intros ->. split; assumption.
Qed.

Lemma post_high_speed_normal (v : pyval) :
  Str.strip (py_str float_repr (post_high_speed float_repr v)) <> "∞".
Proof.
  unfold post_high_speed, Str.eqb.
  destruct (String.eqb_spec (Str.strip (py_str float_repr v)) "∞") as [_|Hne].
  - discriminate.
  - exact Hne.
Qed.

(** X9: in a returned payload the value of the SIM-type slot (id 106) is
    "2" when the value found for the field "Loại SIM" reads "esim" once
    written as text, trimmed and put in lower case, "1" when it reads
    "sim card", and that value unchanged otherwise.  So the slot is never
    a text that reads "esim" or "sim card". *)
Theorem sim_type_slot_is_translated (now : datetime) (row : excel_row) (p : payload) :
  transform_excel_row_to_api float_repr mapping_data now row = Ok p ->
  Forall (fun e =>
    productCategoryAttributeId e = 106 ->
    (exists m v,
       mapping_data !! "Loại SIM" = Some m
       /\ resolve_attribute float_repr "Loại SIM" (excel_mapping m) (notes m) row = Ok v
       /\ let kind := Str.lower (Str.strip (py_str float_repr v)) in
          (kind = "esim" -> attributeValue e = VStr "2")
          /\ (kind = "sim card" -> attributeValue e = VStr "1")
          /\ (kind <> "esim" -> kind <> "sim card" -> attributeValue e = v))
    /\ forall s, attributeValue e = VStr s ->
         Str.lower (Str.strip s) <> "esim" /\ Str.lower (Str.strip s) <> "sim card")
    (attributeValueList p).
Proof.
  intros H.
  apply transform_ok in H as (_ & _ & _ & attrs & _ & _ & _ & Hloop & _ & _ & -> & _).
  apply attribute_loop_entries in Hloop as (es & -> & Hes). rewrite app_nil_l.
  apply Forall2_filter_in in Hes.
  eapply Forall_impl; [exact Hes|].
  intros e (attr & Hin & Hattr) Hid.
  destruct (attribute_of_some _ _ _ _ _ Hattr)
    as (_ & _ & Hid' & _ & m & v & Hm & Hv & Hpost).
  rewrite Hid in Hid'. symmetry in Hid'.
  rewrite (attribute_id_106 _ Hin Hid') in Hm, Hv. rewrite Hid' in Hpost.
  injection Hpost as Hpost. split.
  - exists m, v. split; [exact Hm|]. split; [exact Hv|].
    cbv zeta. rewrite <- Hpost. unfold post_sim_type, Str.eqb.
    destruct (String.eqb_spec (Str.lower (Str.strip (py_str float_repr v))) "esim")
      as [Hesim|Hesim].
    { rewrite Hesim. repeat split; [discriminate|congruence]. }
    destruct (String.eqb_spec (Str.lower (Str.strip (py_str float_repr v))) "sim card")
      as [Hcard|Hcard].
    { repeat split; congruence. }
    repeat split; congruence.
  - intros s Hs. rewrite Hs in Hpost. exact (post_sim_type_normal v s Hpost).
Qed.

(** X10: in a returned payload the value of the high-speed-data slot
    (id 101) is [None] when the value found for the field "Dung lượng tốc
    độ cao" reads "∞" once written as text and trimmed, and that value
    unchanged otherwise.  So the slot never reads "∞": the mark of an
    unlimited volume has become [None]. *)
Theorem high_speed_slot_has_no_infinity (now : datetime) (row : excel_row)
    (p : payload) :
  transform_excel_row_to_api float_repr mapping_data now row = Ok p ->
  Forall (fun e =>
    productCategoryAttributeId e = 101 ->
    (exists m v,
       mapping_data !! "Dung lượng tốc độ cao" = Some m
       /\ resolve_attribute float_repr "Dung lượng tốc độ cao"
            (excel_mapping m) (notes m) row = Ok v
       /\ (Str.strip (py_str float_repr v) = "∞" -> attributeValue e = VNone)
       /\ (Str.strip (py_str float_repr v) <> "∞" -> attributeValue e = v))
    /\ Str.strip (py_str float_repr (attributeValue e)) <> "∞")
    (attributeValueList p).
Proof.
  intros H.
  apply transform_ok in H as (_ & _ & _ & attrs & _ & _ & _ & Hloop & _ & _ & -> & _).
  apply attribute_loop_entries in Hloop as (es & -> & Hes). rewrite app_nil_l.
  apply Forall2_filter_in in Hes.
  eapply Forall_impl; [exact Hes|].
  intros e (attr & Hin & Hattr) Hid.
  destruct (attribute_of_some _ _ _ _ _ Hattr)
    as (_ & _ & Hid' & _ & m & v & Hm & Hv & Hpost).
  rewrite Hid in Hid'. symmetry in Hid'.
  rewrite (attribute_id_101 _ Hin Hid') in Hm, Hv. rewrite Hid' in Hpost.
  injection Hpost as <-. split; [|apply post_high_speed_normal].
  exists m, v. split; [exact Hm|]. split; [exact Hv|].
  unfold post_high_speed, Str.eqb.
  destruct (String.eqb_spec (Str.strip (py_str float_repr v)) "∞") as [Hinf|Hinf];
    split; congruence.
Qed.

End MapperMore.

(** ** The HTTP client *)

Lemma send_to_api_with_verb (net : network) (api_config : APIConfig) (v : http_verb)
    (data : payload) (log : list http_request) :
  verb_of api_config = Some v ->
  send_to_api net api_config data log
  = (match net log (request_of api_config v data) with
     | Ok r => if is_error_status r then Raise (http_error (url api_config) r) else Ok r
     | Raise e => Raise e
     end, (log ++ [request_of api_config v data])%list).
Proof.
  unfold verb_of, send_to_api, http_bind, http_call, raise_for_status, request_of.
  destruct (Str.eqb (Str.upper (method api_config)) "POST").
  - intros [= <-]. destruct (net log _) as [r|e]; [|reflexivity].
    destruct (is_error_status r); reflexivity.
  - destruct (Str.eqb (Str.upper (method api_config)) "PUT"); [|discriminate].
    intros [= <-]. destruct (net log _) as [r|e]; [|reflexivity].
    destruct (is_error_status r); reflexivity.
Qed.

Lemma send_to_api_without_verb (net : network) (api_config : APIConfig)
    (data : payload) (log : list http_request) :
  verb_of api_config = None ->
  send_to_api net api_config data log
  = (Raise (Exn ValueError ("Unsupported HTTP method: " +:+ method api_config)), log).
Proof.
  unfold verb_of, send_to_api, http_bind.
  destruct (Str.eqb (Str.upper (method api_config)) "POST"); [discriminate|].
  destruct (Str.eqb (Str.upper (method api_config)) "PUT"); [discriminate|].
  reflexivity.
Qed.

(** X11: when [send_to_api] returns a response, exactly one request was
    issued, a POST or a PUT to the configured URL with the configured
    headers and credentials and the data as JSON, the response is the answer
    to that request, and its status is not an error status (400 to 599). *)
Theorem send_to_api_returns_only_good_status (net : network) (api_config : APIConfig)
    (data : payload) (log : list http_request) (r : Response) :
  (send_to_api net api_config data log).1 = Ok r ->
  exists v,
    verb_of api_config = Some v
    /\ (send_to_api net api_config data log).2
       = (log ++ [request_of api_config v data])%list
    /\ net log (request_of api_config v data) = Ok r
    /\ (status_code r < 400 \/ 600 <= status_code r).
Proof.
  destruct (verb_of api_config) as [v|] eqn:Hv.
  - rewrite (send_to_api_with_verb net api_config v data log Hv). cbn [fst snd].
    destruct (net log (request_of api_config v data)) as [r'|e] eqn:Hnet;
      [|discriminate].
    destruct (is_error_status r') eqn:Hs; [discriminate|].
    intros [= ->]. exists v. do 2 (split; [reflexivity|]). split; [exact Hnet|].
    unfold is_error_status in Hs. apply andb_false_iff in Hs as [Hs|Hs].
    + left. now apply Z.leb_gt in Hs.
    + right. now apply Z.ltb_ge in Hs.
  - rewrite (send_to_api_without_verb net api_config data log Hv). discriminate.
Qed.

(** ** The batch runner *)

Section RunnerMore.

Context (float_repr : spec_float -> string).
Context (net : network) (now : Z -> datetime).
Context (mapping_data : gmap string mapping_entry) (api_config : APIConfig).

Local Abbreviation transform := (transform_excel_row_to_api float_repr mapping_data).
Local Abbreviation run_row := (process_row float_repr net now mapping_data api_config).
Local Abbreviation run_rows := (process_rows float_repr net now mapping_data api_config).
Local Abbreviation run_file := (process_excel_file float_repr net now mapping_data api_config).

(** What holds of the result of every row holds of every result. *)
Lemma process_rows_Forall (P : process_result -> Prop) (dry_run : bool)
    (start_row : Z) (rows : list excel_row) :
  (forall index row log, In row rows -> P (run_row dry_run index row log).1) ->
  forall index results log,
    Forall P results ->
    Forall P (run_rows dry_run start_row index rows results log).1.
Proof.
  induction rows as [|row rows IH]; intros HP index results log Hres; [exact Hres|].
  assert (HP' : forall index row log, In row rows -> P (run_row dry_run index row log).1)
    by (intros i r l Hin; apply HP; now right).
  cbn [process_rows]. destruct (index + 1 <? start_row); [now apply IH|].
  pose proof (HP index row log (or_introl eq_refl)) as Hrow.
  destruct (run_row dry_run index row log) as [r log'].
  apply IH; [exact HP'|]. apply Forall_app. split; [exact Hres|].
  constructor; [exact Hrow|constructor].
Qed.

Lemma sent_result_success (index : Z) (p : payload) (sent : pyres Response)
    (r : process_result) :
  (forall response, sent = Ok response -> is_error_status response = false) ->
  sent_result index p sent = Ok r ->
  exists response data body,
    sent = Ok response
    /\ r = Sent (index + 1) (productCode p) "success" (status_code response) data body.
Proof.
  intros Hgood H. unfold sent_result in H.
  apply bind_ok in H as (response & Hsent & H).
  apply bind_ok in H as (data & _ & H). injection H as <-.
  exists response, data, (if has_content response then Some (text response) else None).
  split; [exact Hsent|]. unfold ok. now rewrite (Hgood response Hsent).
Qed.

Lemma send_to_api_good_status (p : payload) (log : list http_request)
    (response : Response) :
  (send_to_api net api_config p log).1 = Ok response ->
  is_error_status response = false.
Proof.
  destruct (verb_of api_config) as [v|] eqn:Hv.
  - rewrite (send_to_api_with_verb net api_config v p log Hv). cbn [fst].
    destruct (net log (request_of api_config v p)) as [r'|e]; [|discriminate].
    destruct (is_error_status r') eqn:Hs; [discriminate|]. now intros [= <-].
  - rewrite (send_to_api_without_verb net api_config p log Hv). discriminate.
Qed.

Lemma process_row_sent_is_success (dry_run : bool) (index : Z) (row : excel_row)
    (log : list http_request) :
  sent_is_success (run_row dry_run index row log).1.
Proof.
  unfold process_row.
  destruct (transform (now index) row) as [p|e]; [|exact I].
  destruct dry_run; [exact I|].
  pose proof (send_to_api_good_status p log) as Hgood.
  destruct (send_to_api net api_config p log) as [sent log']. cbn [fst] in Hgood.
  destruct (sent_result index p sent) as [r|e] eqn:E; cbn [fst].
  - apply sent_result_success in E as (response & data & body & -> & ->).
    + split; [reflexivity|]. specialize (Hgood response eq_refl).
      unfold is_error_status in Hgood. apply andb_false_iff in Hgood as [H|H].
      * left. now apply Z.leb_gt in H.
      * right. now apply Z.ltb_ge in H.
    + exact Hgood.
  - destruct (is_request_exception e); exact I.
Qed.

(** X12: a result that carries a response status always has the status
    "success", and its response status is not an error status (400 to 599):
    an answer with an error status is reported with the error text instead.
    The alternative "failed" next to a response status never occurs. *)
Theorem process_excel_file_response_means_success (product_data : list excel_row)
    (dry_run : bool) (start_row : Z) (log : list http_request) :
  Forall sent_is_success (run_file product_data dry_run start_row log).1.
Proof.
  unfold process_excel_file. apply process_rows_Forall; [|constructor].
  intros index row log' _. apply process_row_sent_is_success.
Qed.

Lemma process_row_requests (v : http_verb) (index : Z) (row : excel_row)
    (log : list http_request) :
  verb_of api_config = Some v ->
  (run_row false index row log).2
  = (log ++ match transform (now index) row with
            | Ok p => [request_of api_config v p]
            | Raise _ => []
            end)%list.
Proof.
  intros Hv. unfold process_row.
  destruct (transform (now index) row) as [p|e]; [|now rewrite app_nil_r].
  rewrite (send_to_api_with_verb net api_config v p log Hv).
  destruct (sent_result index p _) as [r|e]; [reflexivity|].
  destruct (is_request_exception e); reflexivity.
Qed.

Lemma process_rows_requests (v : http_verb) (start_row : Z) (rows : list excel_row) :
  verb_of api_config = Some v ->
  forall index results log,
    (run_rows false start_row index rows results log).2
    = (log ++ List.map (request_of api_config v)
                (payloads_from float_repr now mapping_data start_row index rows))%list.
Proof.
  intros Hv. induction rows as [|row rows IH]; intros index results log.
  - cbn. now rewrite app_nil_r.
  - cbn [process_rows payloads_from].
    destruct (index + 1 <? start_row); [apply IH|].
    pose proof (process_row_requests v index row log Hv) as Hrow.
    destruct (run_row false index row log) as [r log']. cbn [snd] in Hrow.
    rewrite IH, Hrow.
    destruct (transform (now index) row) as [p|e].
    + cbn [List.map]. now rewrite <- app_assoc.
    + now rewrite app_nil_r.
Qed.

(** X13: with the method POST or PUT (in any case of the letters), a run
    that is not a dry run issues exactly one request for each row from
    [start_row] on whose mapping returns a payload, in the order of the
    rows, each with that payload, the configured URL, headers and
    credentials; whatever the remote side answers, no request is repeated
    and none is left out. *)
Theorem process_excel_file_requests (v : http_verb) (product_data : list excel_row)
    (start_row : Z) (log : list http_request) :
  verb_of api_config = Some v ->
  (run_file product_data false start_row log).2
  = (log ++ List.map (request_of api_config v)
              (payloads_from float_repr now mapping_data start_row 0 product_data))%list.
Proof. intros Hv. unfold process_excel_file. now apply process_rows_requests. Qed.

Lemma process_row_unsupported (product_data : list excel_row) (index : Z)
    (row : excel_row) (log : list http_request) :
  verb_of api_config = None ->
  In row product_data ->
  (run_row false index row log).2 = log
  /\ unsupported_result float_repr now mapping_data api_config product_data
       (run_row false index row log).1.
Proof.
  intros Hv Hin. unfold process_row.
  destruct (transform (now index) row) as [p|e] eqn:Hp.
  - rewrite (send_to_api_without_verb net api_config p log Hv).
    cbn. split; [reflexivity|]. eexists _, _. split; [reflexivity|]. now left.
  - split; [reflexivity|]. exists (index + 1), (exn_msg e). split; [reflexivity|].
    right. exists index, row, e. auto.
Qed.

Lemma process_row_unsupported_exact (index : Z) (row : excel_row)
    (log : list http_request) :
  verb_of api_config = None ->
  run_row false index row log
  = (RowFailed (index + 1)
       match transform (now index) row with
       | Ok _ => "Unsupported HTTP method: " +:+ method api_config
       | Raise e => exn_msg e
       end, log).
Proof.
  intros Hv. unfold process_row.
  destruct (transform (now index) row) as [p|e]; [|reflexivity].
  rewrite (send_to_api_without_verb net api_config p log Hv). reflexivity.
Qed.

Lemma process_rows_unsupported_exact (start_row : Z) (rows : list excel_row) :
  verb_of api_config = None ->
  forall index results log,
    run_rows false start_row index rows results log
    = ((results ++ unsupported_results float_repr now mapping_data api_config
                     start_row index rows)%list, log).
Proof.
  intros Hv. induction rows as [|row rows IH]; intros index results log.
  - cbn. now rewrite app_nil_r.
  - cbn [process_rows unsupported_results].
    destruct (index + 1 <? start_row); [apply IH|].
    rewrite (process_row_unsupported_exact index row log Hv), IH.
    now rewrite <- app_assoc.
Qed.

(** X14: with any other method, a run that is not a dry run issues no
    request at all and reports every row from [start_row] on, in order, as
    failed under its own row number, without a product code: with the
    message of the unsupported method when the mapping of the row returns,
    and with the message of the exception of that row when its mapping
    raised.  The rows before [start_row] have no result. *)
Theorem process_excel_file_unsupported_method (product_data : list excel_row)
    (start_row : Z) (log : list http_request) :
  verb_of api_config = None ->
  run_file product_data false start_row log
  = (unsupported_results float_repr now mapping_data api_config start_row 0
       product_data, log)
  /\ Forall (unsupported_result float_repr now mapping_data api_config product_data)
       (run_file product_data false start_row log).1.
Proof.
  intros Hv. unfold process_excel_file. split.
  - now rewrite process_rows_unsupported_exact.
  - apply process_rows_Forall; [|constructor].
    intros index row log' Hin. now apply process_row_unsupported.
Qed.

Lemma process_row_known_status (dry_run : bool) (index : Z) (row : excel_row)
    (log : list http_request) :
  known_status dry_run (run_row dry_run index row log).1.
Proof.
  pose proof (process_row_sent_is_success dry_run index row log) as Hs.
  unfold process_row in *.
  destruct (transform (now index) row) as [p|e].
  - destruct dry_run; [now left|].
    destruct (send_to_api net api_config p log) as [sent log'].
    destruct (sent_result index p sent) as [r|e] eqn:E; cbn [fst] in *.
    + unfold sent_result in E.
      apply bind_ok in E as (response & _ & E).
      apply bind_ok in E as (data & _ & E). injection E as <-.
      left. cbn in *. apply Hs.
    + destruct (is_request_exception e); now right.
  - destruct dry_run; now right.
Qed.

Lemma count_status_cons (status : string) (r : process_result)
    (results : list process_result) :
  count_status status (r :: results)
  = ((if Str.eqb (result_status r) status then 1 else 0)
     + count_status status results)%nat.
Proof.
  unfold count_status. cbn [List.filter].
  destruct (Str.eqb (result_status r) status); reflexivity.
Qed.

Lemma summary_adds_up (dry_run : bool) (results : list process_result) :
  Forall (known_status dry_run) results ->
  (length results
   = count_status "success" results + count_status "failed" results
     + count_status "dry_run" results)%nat
  /\ (if dry_run then count_status "success" results
      else count_status "dry_run" results) = 0%nat.
Proof.
  induction 1 as [|r results Hr _ [IHlen IHzero]].
  - destruct dry_run; split; reflexivity.
  - rewrite !count_status_cons. cbn [length]. rewrite IHlen.
    destruct dry_run; unfold known_status in Hr;
      destruct Hr as [-> | ->]; cbn; rewrite ?IHzero; split; lia.
Qed.

(** X15: the tallies of the summary add up: every result is counted under
    exactly one of "success", "failed" and "dry_run", so that the total is
    the sum of the three counts; a dry run counts no success and a real run
    no dry run. *)
Theorem process_excel_file_summary (product_data : list excel_row) (dry_run : bool)
    (start_row : Z) (log : list http_request) :
  let '(total, success, failed, dry) :=
    summary (run_file product_data dry_run start_row log).1 in
  total = (success + failed + dry)%nat
  /\ (if dry_run then success else dry) = 0%nat.
Proof.
  unfold summary. apply (summary_adds_up dry_run).
  unfold process_excel_file. apply process_rows_Forall; [|constructor].
  intros index row log' _. apply process_row_known_status.
Qed.

End RunnerMore.

(** ** One product *)

Section SingleMore.

Context (float_repr : spec_float -> string).
Context (series : product_dict -> excel_row).
Context (net : network) (now : datetime).
Context (mapping_data : gmap string mapping_entry) (api_config : APIConfig).

Local Abbreviation transform := (transform_excel_row_to_api float_repr mapping_data).
Local Abbreviation create :=
  (create_single_product float_repr series net now mapping_data api_config).
Local Abbreviation run_file :=
  (process_excel_file float_repr net (fun _ => now) mapping_data api_config).

(** X16: [create_single_product] is the batch runner on a file whose one
    row is the row built of the dictionary: the same requests are issued,
    the status is the same, and the result is the one of the batch without
    its row number, its response body and, when the request failed, its
    product code; a failure keeps the error text only. *)
Theorem create_single_product_as_batch (product_data : product_dict) (dry_run : bool)
    (start_row : Z) (log : list http_request) :
  start_row <= 1 ->
  let single := create product_data dry_run log in
  let batch := run_file [series product_data] dry_run start_row log in
  List.map as_single batch.1 = [single.1]
  /\ List.map result_status batch.1 = [single_status single.1]
  /\ batch.2 = single.2.
Proof.
  intros Hs. unfold process_excel_file, create_single_product. cbn [process_rows].
  destruct (Z.ltb_spec (0 + 1) start_row) as [H|_]; [lia|].
  unfold process_row.
  destruct (transform now (series product_data)) as [p|e]; [|repeat split].
  destruct dry_run; [repeat split|].
  destruct (send_to_api net api_config p log) as [sent log'] eqn:Hsend.
  assert (Hgood : forall response, sent = Ok response -> ok response = true).
  { intros response ->. unfold ok. apply negb_true_iff.
    destruct (verb_of api_config) as [v|] eqn:Hv.
    - rewrite (send_to_api_with_verb net api_config v p log Hv) in Hsend.
      destruct (net log (request_of api_config v p)) as [r'|e']; [|discriminate].
      destruct (is_error_status r') eqn:Hr; [discriminate|]. now injection Hsend as <- _.
    - rewrite (send_to_api_without_verb net api_config p log Hv) in Hsend.
      discriminate. }
  unfold sent_result. destruct sent as [response|e]; cbn [bind].
  - rewrite (Hgood response eq_refl).
    destruct (has_content response); cbn [bind].
    + destruct (json response) as [j|e]; cbn [bind]; [repeat split|].
      destruct (is_request_exception e); repeat split.
    + repeat split.
  - destruct (is_request_exception e); repeat split.
Qed.

(** X17: when [create_single_product] reports "success", the mapping
    returned a payload, exactly one request was issued for it, with the
    method POST or PUT, and the answer had the reported status, which is not
    an error status (400 to 599). *)
Theorem create_single_product_success (product_data : product_dict) (dry_run : bool)
    (log : list http_request) :
  single_status (create product_data dry_run log).1 = "success" ->
  dry_run = false
  /\ exists p v response data,
       transform now (series product_data) = Ok p
       /\ verb_of api_config = Some v
       /\ net log (request_of api_config v p) = Ok response
       /\ (status_code response < 400 \/ 600 <= status_code response)
       /\ create product_data dry_run log
          = (SingleSuccess (productCode p) (status_code response) data,
             (log ++ [request_of api_config v p])%list).
Proof.
  unfold create_single_product.
  destruct (transform now (series product_data)) as [p|e]; [|discriminate].
  destruct dry_run; [discriminate|]. intros H. split; [reflexivity|].
  destruct (verb_of api_config) as [v|] eqn:Hv.
  - rewrite (send_to_api_with_verb net api_config v p log Hv) in *.
    destruct (net log (request_of api_config v p)) as [response|e] eqn:Hnet;
      [|discriminate].
    destruct (is_error_status response) eqn:Hr; [discriminate|]. cbn [bind] in *.
    assert (Hcode : status_code response < 400 \/ 600 <= status_code response).
    { unfold is_error_status in Hr. apply andb_false_iff in Hr as [Hr|Hr].
      - left. now apply Z.leb_gt in Hr.
      - right. now apply Z.ltb_ge in Hr. }
    destruct (has_content response); cbn [bind] in *.
    + destruct (json response) as [j|e]; [|discriminate].
      exists p, v, response, (Some j). repeat split; assumption.
    + exists p, v, response, None. repeat split; assumption.
  - rewrite (send_to_api_without_verb net api_config p log Hv) in H. discriminate.
Qed.

End SingleMore.

(** ** The deletion of a range of products *)

Lemma delete_each_spec (net : delete_network) (bearer_token : string) (ids : list Z) :
  forall results log,
    (delete_each net bearer_token ids results log).2
    = (log ++ List.map (deletion_of bearer_token) ids)%list
    /\ List.map deleted_id (delete_each net bearer_token ids results log).1
       = (List.map deleted_id results ++ ids)%list
    /\ forall (k : nat) product_id,
         ids !! k = Some product_id ->
         (delete_each net bearer_token ids results log).1 !! (length results + k)%nat
         = Some (delete_one net bearer_token product_id
                   (log ++ List.map (deletion_of bearer_token) (take k ids))%list).1.
Proof.
  induction ids as [|product_id ids IH]; intros results log.
  - cbn. rewrite !app_nil_r. repeat split. intros k i Hk. discriminate Hk.
  - cbn [delete_each].
    assert (Hone : delete_one net bearer_token product_id log
                   = ((delete_one net bearer_token product_id log).1,
                      (log ++ [deletion_of bearer_token product_id])%list))
      by reflexivity.
    assert (Hid : deleted_id (delete_one net bearer_token product_id log).1 = product_id).
    { unfold delete_one. cbn [fst].
      match goal with |- deleted_id (match ?a with _ => _ end) = _ => destruct a as [r|e] eqn:E end;
        [|reflexivity].
      apply bind_ok in E as (response & _ & E).
      apply bind_ok in E as (logged & _ & E).
      apply bind_ok in E as (data & _ & E). now injection E as <-. }
    rewrite Hone.
    destruct (IH (results ++ [(delete_one net bearer_token product_id log).1])%list
                 (log ++ [deletion_of bearer_token product_id])%list)
      as (Hlog & Hids & Hres).
    split; [|split].
    + rewrite Hlog. cbn [List.map]. now rewrite <- app_assoc.
    + rewrite Hids. rewrite List.map_app. cbn [List.map]. rewrite Hid.
      now rewrite <- app_assoc.
    + intros k i Hk. destruct k as [|k].
      * cbn in Hk. injection Hk as <-. cbn [take List.map]. rewrite app_nil_r.
        rewrite Nat.add_0_r.
        clear Hres Hids Hlog.
        assert (Hpre : forall l r log0,
          exists rest, (delete_each net bearer_token l r log0).1 = (r ++ rest)%list).
        { clear. induction l as [|a l IHl]; intros r log0.
          - exists []. cbn. now rewrite app_nil_r.
          - cbn [delete_each].
            destruct (delete_one net bearer_token a log0) as [ra la].
            destruct (IHl (r ++ [ra])%list la) as [rest Hrest].
            exists (ra :: rest). rewrite Hrest. now rewrite <- app_assoc. }
        destruct (Hpre ids (results ++ [(delete_one net bearer_token product_id log).1])%list
                    (log ++ [deletion_of bearer_token product_id])%list) as [rest ->].
        rewrite <- app_assoc. rewrite lookup_app_r by lia.
        now rewrite Nat.sub_diag.
      * cbn in Hk. specialize (Hres k i Hk).
        rewrite length_app in Hres. cbn [length] in Hres.
        replace (length results + S k)%nat with (length results + 1 + k)%nat by lia.
        rewrite Hres. cbn [take List.map]. now rewrite <- app_assoc.
Qed.

(** X18: [delete_products_by_id_range] issues one DELETE for every id from
    [start_id] to [end_id], in increasing order, whatever the remote side
    answers to the earlier ones, and returns one result per id in the same
    order; the result at position [k] is the outcome of the request for the
    [k]-th id.  A range with [end_id < start_id] issues nothing and returns
    the empty list. *)
Theorem delete_products_by_id_range_covers_range (net : delete_network)
    (start_id end_id : Z) (bearer_token : string) (log : list delete_request) :
  let ids := seqZ start_id (end_id - start_id + 1) in
  let run := delete_products_by_id_range net start_id end_id bearer_token log in
  run.2 = (log ++ List.map (deletion_of bearer_token) ids)%list
  /\ List.map deleted_id run.1 = ids
  /\ length run.1 = Z.to_nat (end_id - start_id + 1)
  /\ forall (k : nat),
       (k < length ids)%nat ->
       run.1 !! k
       = Some (delete_one net bearer_token (start_id + Z.of_nat k)
                 (log ++ List.map (deletion_of bearer_token) (take k ids))%list).1.
Proof.
  intros ids run. subst run. unfold delete_products_by_id_range. fold ids.
  destruct (delete_each_spec net bearer_token ids [] log) as (Hlog & Hids & Hres).
  split; [exact Hlog|]. split; [exact Hids|]. split.
  - rewrite <- (length_map deleted_id), Hids. cbn [List.map app].
    unfold ids. now rewrite length_seqZ.
  - intros k Hk. apply (Hres k). unfold ids in *. rewrite length_seqZ in Hk.
    apply lookup_seqZ. lia.
Qed.

(** X19: the outcome for one id is "success" exactly when the remote side
    answered, the status of the answer is not an error status (400 to 599),
    and the body of the answer, when it is not empty, is JSON; an answer
    with a good status and a body that is not JSON is reported as failed. *)
Theorem delete_one_success_iff (net : delete_network) (bearer_token : string)
    (product_id : Z) (log : list delete_request) :
  delete_status (delete_one net bearer_token product_id log).1 = "success"
  <-> exists response,
        net log (deletion_of bearer_token product_id) = Ok response
        /\ is_error_status response = false
        /\ (has_content response = false \/ exists j, json response = Ok j).
Proof.
  unfold delete_one, deletion_of. cbn [fst].
  destruct (net log _) as [response|e]; cbn [bind].
  - unfold ok.
    destruct (has_content response) eqn:Hc, (is_error_status response) eqn:Hr;
      cbn [bind negb delete_status].
    + destruct (json response) as [j|e]; cbn [bind delete_status];
        (split; [discriminate|]); intros (r & [= <-] & H & _); congruence.
    + destruct (json response) as [j|e] eqn:Hj; cbn [bind delete_status]; split.
      * intros _. exists response. repeat split; [assumption|]. right. eauto.
      * reflexivity.
      * discriminate.
      * intros (r & [= <-] & _ & [H|[j H]]); congruence.
    + split; [discriminate|]. intros (r & [= <-] & H & _); congruence.
    + split; [|reflexivity].
      intros _. exists response. repeat split; [assumption|now left].
  - cbn [delete_status]. split; [discriminate|]. intros (r & H & _). discriminate.
Qed.

(** X20: the deletion addresses the resource that the creation posts to,
    followed by the id, with the headers of the creation except the content
    type. *)
Theorem deletion_matches_creation (bearer_token : string) (product_id : Z) :
  delete_url (deletion_of bearer_token product_id)
  = url (_setup_api_config bearer_token) +:+ "/" +:+ pretty product_id
  /\ delete_headers (deletion_of bearer_token product_id)
     = List.filter (fun h => negb (Str.eqb h.1 "Content-Type"))
         (headers (_setup_api_config bearer_token)).
Proof. split; reflexivity. Qed.

(** ** The mapping sheet *)

Lemma last_cons_filter {A : Type} (f : A -> bool) (a : A) (l : list A) :
  last (List.filter f (a :: l))
  = match last (List.filter f l) with
    | Some b => Some b
    | None => if f a then Some a else None
    end.
Proof.
  cbn [List.filter]. destruct (f a); [|now destruct (last (List.filter f l))].
  destruct (List.filter f l) as [|b l']; [reflexivity|].
  rewrite last_cons. now destruct (last (b :: l')).
Qed.

Lemma load_excel_mapping_last (excel_data : list mapping_row) :
  forall (mapping_data : gmap string mapping_entry) (bcss_field : string),
    load_excel_mapping excel_data mapping_data !! bcss_field
    = match last (List.filter (labelled bcss_field) excel_data) with
      | Some row => Some (MappingEntry (excel_mapping_cell row) (notes_cell row))
      | None => mapping_data !! bcss_field
      end.
Proof.
  unfold load_excel_mapping.
  induction excel_data as [|row rows IH]; intros mapping_data bcss_field; [reflexivity|].
  cbn [fold_left]. rewrite IH, last_cons_filter.
  destruct (last (List.filter (labelled bcss_field) rows)); [reflexivity|].
  unfold labelled, eq_str, Str.eqb.
  destruct (bcss_field_cell row) as [|s| |]; try reflexivity.
  destruct (String.eqb_spec s bcss_field) as [->|Hne].
  - now rewrite lookup_insert_eq.
  - now rewrite lookup_insert_ne.
Qed.

(** X21: after [load_excel_mapping], a field is looked up in the last row of
    the sheet with that label; a field that labels no row keeps the entry it
    had before the call, and the rows with an empty first cell change
    nothing. *)
Theorem load_excel_mapping_lookup (excel_data : list mapping_row)
    (mapping_data : gmap string mapping_entry) (bcss_field : string) :
  load_excel_mapping excel_data mapping_data !! bcss_field
  = match last (List.filter (labelled bcss_field) excel_data) with
    | Some row => Some (MappingEntry (excel_mapping_cell row) (notes_cell row))
    | None => mapping_data !! bcss_field
    end.
Proof. apply load_excel_mapping_last. Qed.

(** X22: loading the same sheet again changes nothing. *)
Theorem load_excel_mapping_again (excel_data : list mapping_row)
    (mapping_data : gmap string mapping_entry) :
  load_excel_mapping excel_data (load_excel_mapping excel_data mapping_data)
  = load_excel_mapping excel_data mapping_data.
Proof.
  apply map_eq. intros bcss_field. rewrite !load_excel_mapping_last.
  now destruct (last (List.filter (labelled bcss_field) excel_data)).
Qed.

(** ** The generic tool *)

Lemma transform_row_fold (row : excel_row) (mapping : list (string * string)) :
  forall (api_data : gmap string pyval) (api_field : string),
    fold_left
      (fun api_data item =>
         match row_get item.1 row with
         | Some value => <[item.2 := if isna value then VNone else value]> api_data
         | None => api_data
         end)
      mapping api_data !! api_field
    = match last (List.filter (feeds row api_field) mapping) with
      | Some item =>
          (fun value => if isna value then VNone else value) <$> row_get item.1 row
      | None => api_data !! api_field
      end.
Proof.
  induction mapping as [|item mapping IH]; intros api_data api_field; [reflexivity|].
  cbn [fold_left]. rewrite IH, last_cons_filter.
  destruct (last (List.filter (feeds row api_field) mapping)); [reflexivity|].
  unfold feeds, Str.eqb.
  destruct (row_get item.1 row) as [value|] eqn:Hcell; [|now rewrite andb_false_r].
  rewrite andb_true_r.
  destruct (String.eqb_spec item.2 api_field) as [->|Hne].
  - now rewrite lookup_insert_eq, Hcell.
  - now rewrite lookup_insert_ne.
Qed.

(** X23: the dictionary that [transform_row_to_api_format] builds holds,
    under an API field, the cell of the last column of the mapping that is
    sent to that field and that the row has, with [None] in the place of an
    empty cell; a field that no column of the row feeds is not in it. *)
Theorem transform_row_to_api_format_lookup (mapping : list (string * string))
    (row : excel_row) (api_field : string) :
  Tool.transform_row_to_api_format mapping row !! api_field
  = match last (List.filter (feeds row api_field) mapping) with
    | Some item =>
        (fun value => if isna value then VNone else value) <$> row_get item.1 row
    | None => None
    end.
Proof.
  unfold Tool.transform_row_to_api_format. rewrite transform_row_fold.
  now destruct (last (List.filter (feeds row api_field) mapping)).
Qed.

Section ToolMore.

Context (net : @Tool.network (gmap string pyval)).
Context (api_config : APIConfig).

Lemma tool_send_with_verb (v : http_verb) (api_data : gmap string pyval)
    (log : list Tool.request) :
  verb_of api_config = Some v ->
  Tool.send_to_api net api_config api_data log
  = (match net log (tool_request api_config v api_data) with
     | Ok r => if is_error_status r then Raise (http_error (url api_config) r) else Ok r
     | Raise e => Raise e
     end, (log ++ [tool_request api_config v api_data])%list).
Proof.
  unfold verb_of, Tool.send_to_api, tool_request.
  destruct (Str.eqb (Str.upper (method api_config)) "POST").
  - intros [= <-]. destruct (net log _) as [r|e]; [|reflexivity].
    destruct (is_error_status r); reflexivity.
  - destruct (Str.eqb (Str.upper (method api_config)) "PUT"); [|discriminate].
    intros [= <-]. destruct (net log _) as [r|e]; [|reflexivity].
    destruct (is_error_status r); reflexivity.
Qed.

Lemma process_each_spec (mapping : list (string * string)) (dry_run : bool)
    (rows : list (Z * excel_row)) :
  forall results log,
    List.map Tool.row_of (Tool.process_each net mapping api_config dry_run rows results log).1
    = (List.map Tool.row_of results ++ List.map (fun indexed => indexed.1 + 1) rows)%list.
Proof.
  induction rows as [|[index row] rows IH]; intros results log.
  - cbn. now rewrite app_nil_r.
  - cbn [Tool.process_each].
    assert (Hrow : Tool.row_of
                     (Tool.process_one net mapping api_config dry_run (index, row) log).1
                   = index + 1).
    { unfold Tool.process_one. destruct dry_run; [reflexivity|].
      destruct (Tool.send_to_api net api_config _ log) as [[r|e] log']; reflexivity. }
    destruct (Tool.process_one net mapping api_config dry_run (index, row) log)
      as [r log'].
    rewrite IH, List.map_app. cbn [List.map fst] in *. rewrite Hrow.
    now rewrite <- app_assoc.
Qed.

(** X24: [process_all_rows] raises only before the first row, a
    [ValueError], when no data is loaded or the column mapping is empty, and
    then no request has been issued; otherwise it returns one result for
    every row of the data, in order, each reporting the index label of its
    row plus one. *)
Theorem process_all_rows_validates_first (self : Tool.state) (dry_run : bool)
    (log : list Tool.request) :
  match Tool.process_all_rows net self api_config dry_run log with
  | (Raise e, log') =>
      log' = log /\ exn_cls e = ValueError
      /\ (Tool.data self = None \/ Tool.column_mapping self = [])
  | (Ok results, _) =>
      exists rows,
        Tool.data self = Some rows /\ Tool.column_mapping self <> []
        /\ List.map Tool.row_of results = List.map (fun indexed => indexed.1 + 1) rows
  end.
Proof.
  unfold Tool.process_all_rows.
  destruct (Tool.data self) as [rows|]; [|now repeat split; left].
  destruct (Tool.column_mapping self) as [|item mapping] eqn:Hm;
    [now repeat split; right|].
  pose proof (process_each_spec (item :: mapping) dry_run rows [] log) as Hrows.
  destruct (Tool.process_each net (item :: mapping) api_config dry_run rows [] log)
    as [results log'].
  exists rows. repeat split; [discriminate|exact Hrows].
Qed.

Lemma process_each_dry_run (mapping : list (string * string))
    (rows : list (Z * excel_row)) :
  forall results log,
    Tool.process_each net mapping api_config true rows results log
    = ((results
        ++ List.map (fun indexed =>
                       Tool.RowDryRun (indexed.1 + 1)
                         (Tool.transform_row_to_api_format mapping indexed.2)) rows)%list,
       log).
Proof.
  induction rows as [|[index row] rows IH]; intros results log.
  - cbn. now rewrite app_nil_r.
  - cbn [Tool.process_each Tool.process_one]. rewrite IH. cbn [List.map fst snd].
    now rewrite <- app_assoc.
Qed.

Lemma process_each_requests (v : http_verb) (mapping : list (string * string))
    (rows : list (Z * excel_row)) :
  verb_of api_config = Some v ->
  forall results log,
    (Tool.process_each net mapping api_config false rows results log).2
    = (log ++ List.map (fun indexed =>
                          tool_request api_config v
                            (Tool.transform_row_to_api_format mapping indexed.2))
                rows)%list.
Proof.
  intros Hv. induction rows as [|[index row] rows IH]; intros results log.
  - cbn. now rewrite app_nil_r.
  - cbn [Tool.process_each Tool.process_one].
    rewrite (tool_send_with_verb v _ log Hv).
    destruct (net log _) as [r|e].
    + destruct (is_error_status r); rewrite IH; cbn [List.map snd];
        now rewrite <- app_assoc.
    + rewrite IH. cbn [List.map snd]. now rewrite <- app_assoc.
Qed.

(** X25: once the data and a column mapping are set, a dry run of
    [process_all_rows] issues no request, whatever the configured method,
    and returns, for every row, its dictionary with the status "dry_run";
    a real run with the method POST or PUT issues exactly one request for
    every row, in order, with the dictionary of that row, whatever the
    remote side answers. *)
Theorem process_all_rows_requests (self : Tool.state) (rows : list (Z * excel_row))
    (log : list Tool.request) :
  Tool.data self = Some rows ->
  Tool.column_mapping self <> [] ->
  let api_data_of (indexed : Z * excel_row) :=
    Tool.transform_row_to_api_format (Tool.column_mapping self) indexed.2 in
  Tool.process_all_rows net self api_config true log
  = (Ok (List.map (fun indexed => Tool.RowDryRun (indexed.1 + 1) (api_data_of indexed))
           rows), log)
  /\ forall v,
       verb_of api_config = Some v ->
       (Tool.process_all_rows net self api_config false log).2
       = (log ++ List.map (fun indexed => tool_request api_config v (api_data_of indexed))
                   rows)%list.
Proof.
  intros Hdata Hmap api_data_of. unfold Tool.process_all_rows. rewrite Hdata.
  destruct (Tool.column_mapping self) as [|item mapping]; [contradiction|]. split.
  - now rewrite process_each_dry_run.
  - intros v Hv.
    pose proof (process_each_requests v (item :: mapping) rows Hv [] log) as H.
    destruct (Tool.process_each net (item :: mapping) api_config false rows [] log)
      as [results log']. exact H.
Qed.

End ToolMore.

(** * The properties at concrete inputs *)

(** The note of an empty cell reaches the normalizer from the mapper: the
    whole transformation of the row raises. *)
Lemma transform_raises_on_blank_note :
  transform_excel_row_to_api sample_float_repr blank_note_mapping sample_now
    [(VStr "SKUID", VStr "PROD002"); (VStr "Days", VInt 30)]
  = Raise (Exn AttributeError "'float' object has no attribute 'lower'").
Proof. vm_compute. reflexivity. Qed.

Lemma transform_one_price_one_vat_undated_witness :
  transform_excel_row_to_api sample_float_repr sample_mapping sample_now sample_row
    = Ok sample_payload
  /\ exists price_entry vat_entry,
       productPriceDTOS sample_payload = [price_entry]
       /\ productVatDTOS sample_payload = [vat_entry]
       /\ fromDate price_entry = VNone /\ toDate price_entry = VNone
       /\ fromDate vat_entry = VNone /\ toDate vat_entry = VNone.
Proof.
  split; [vm_compute; reflexivity|].
  apply (transform_one_price_one_vat_undated sample_float_repr sample_mapping
           sample_now sample_row).
  vm_compute. reflexivity.
Defined.

Lemma attribute_list_follows_mapping_witness :
  transform_excel_row_to_api sample_float_repr sample_mapping sample_now sample_row
    = Ok sample_payload
  /\ (let declared := [
        ("Dung lượng tốc độ cao", 101);
        ("Loại gói", 102);
        ("eKYC (Xác minh danh tính)", 103);
        ("Hết tốc độ cao giảm xuống", 104);
        ("Chia sẻ Wifi", 105);
        ("Loại SIM", 106);
        ("Phạm vi phủ sóng", 107);
        ("SKUID", 108);
        ("Số ngày sử dụng", 109);
        ("Nhà cung cấp", 110)
      ] in
      _get_attribute_mapping = declared
      /\ List.map productCategoryAttributeId (attributeValueList sample_payload)
         = List.map snd
             (List.filter (fun attr => bool_decide (is_Some (sample_mapping !! attr.1)))
                declared)
      /\ Forall (fun e => attr_id e = VNone /\ productCategoryAttributeValueId e = "")
           (attributeValueList sample_payload)
      /\ (length (attributeValueList sample_payload) <= 10)%nat).
Proof.
  split; [vm_compute; reflexivity|].
  apply (attribute_list_follows_mapping sample_float_repr sample_mapping sample_now
           sample_row).
  vm_compute. reflexivity.
Defined.

(** The ids of the sample payload, whose configuration has all ten fields,
    and of a payload whose configuration has one. *)
Lemma attribute_list_examples :
  List.map productCategoryAttributeId (attributeValueList sample_payload)
  = [101; 102; 103; 104; 105; 106; 107; 108; 109; 110]
  /\ List.map productCategoryAttributeId (attributeValueList throttle_payload) = [104].
Proof. split; vm_compute; reflexivity. Qed.

Lemma coverage_area_slot_is_integer_or_none_witness :
  transform_excel_row_to_api sample_float_repr sample_mapping sample_now sample_row
    = Ok sample_payload
  /\ length _get_national_area_mapping = 108%nat
  /\ Forall (fun e =>
       productCategoryAttributeId e = 107 ->
       exists m,
         sample_mapping !! "Phạm vi phủ sóng" = Some m
         /\ (attributeValue e = VNone \/ exists z, attributeValue e = VInt z)
         /\ match dict_get (area_name sample_float_repr m sample_row)
                    _get_national_area_mapping with
            | Some code => attributeValue e = VInt code
            | None =>
                match PyFloat.of_str (Str.strip (area_name sample_float_repr m sample_row))
                with
                | Ok f =>
                    match PyFloat.to_int f with
                    | Ok n => attributeValue e = VInt n
                    | Raise _ => attributeValue e = VNone
                    end
                | Raise _ => attributeValue e = VNone
                end
            end)
       (attributeValueList sample_payload).
Proof.
  split; [vm_compute; reflexivity|].
  apply (coverage_area_slot_is_integer_or_none sample_float_repr sample_mapping
           sample_now sample_row).
  vm_compute. reflexivity.
Defined.

(** The table of national areas has 108 names, not about 150. *)
Lemma national_area_table_has_108_entries :
  length _get_national_area_mapping = 108%nat
  /\ (length _get_national_area_mapping < 150)%nat.
Proof. split; [reflexivity|]. vm_compute. lia. Qed.

(** The slot for a name of the table, for a number followed by a no-break
    space, for a number with a fraction, for a name outside the table, for
    an infinity and for an empty cell. *)
Lemma coverage_area_examples :
  area_slot (VStr "Vietnam") = [VInt 35]
  /\ area_slot (VStr "7 ") = [VInt 7]
  /\ area_slot (VStr "12.9") = [VInt 12]
  /\ area_slot (VStr "Atlantis") = [VNone]
  /\ area_slot (VStr "inf") = [VNone]
  /\ area_slot (VFloat S754_nan) = [VNone].
Proof. repeat split; vm_compute; reflexivity. Qed.

Lemma send_to_api_rejects_other_methods_witness :
  Str.upper (method delete_config) <> "POST"
  /\ Str.upper (method delete_config) <> "PUT"
  /\ send_to_api accepting_network delete_config _get_default_api_payload []
     = (Raise (Exn ValueError "Unsupported HTTP method: DELETE"), []).
Proof.
  split; [vm_compute; discriminate|]. split; [vm_compute; discriminate|].
  apply (send_to_api_rejects_other_methods accepting_network delete_config
           _get_default_api_payload []); vm_compute; discriminate.
Defined.

(** The comparison is the one of [str.upper]: the method "poſt", written
    with a long s, reads "POST" in upper case and a POST request is
    issued. *)
Lemma send_to_api_long_s_method :
  let api_config :=
    {| url := "https://test-api.com/data"; method := "poſt";
       headers := []; auth := None |} in
  Str.upper (method api_config) = "POST"
  /\ (send_to_api accepting_network api_config _get_default_api_payload []).2
     = [request_of api_config POST _get_default_api_payload].
Proof. split; vm_compute; reflexivity. Qed.

(** With [start_row = 0] no row is skipped: three rows give the results
    of rows 1, 2 and 3, not four results for the rows 0 to 3. *)
Lemma process_excel_file_start_row_zero :
  let results :=
    (process_excel_file sample_float_repr accepting_network sample_clock
       sample_mapping sample_config three_rows true 0 []).1 in
  0 <= Z.of_nat (length three_rows)
  /\ List.map result_row results = [1; 2; 3]
  /\ List.map result_row results <> seqZ 0 (Z.of_nat (length three_rows) - 0 + 1)
  /\ Z.of_nat (length results) <> Z.of_nat (length three_rows) - 0 + 1.
Proof.
  cbv zeta. split; [vm_compute; discriminate|].
  split; [vm_compute; reflexivity|].
  split; vm_compute; discriminate.
Qed.

(** Three rows with [start_row = 2]: two results, for the rows 2 and 3. *)
Lemma process_excel_file_start_row_two :
  List.map result_row
    (process_excel_file sample_float_repr accepting_network sample_clock
       sample_mapping sample_config three_rows true 2 []).1
  = [2; 3].
Proof. vm_compute. reflexivity. Qed.

Lemma row_failure_is_recorded_and_batch_continues_witness :
  three_rows !! 1%nat = Some [(VStr "SKUID", VStr "PROD002"); (VStr "Days", VInt 30)]
  /\ 1 <= Z.of_nat 1 + 1
  /\ (let row := [(VStr "SKUID", VStr "PROD002"); (VStr "Days", VInt 30)] in
      let results :=
        (process_excel_file sample_float_repr rejecting_network sample_clock
           blank_note_mapping sample_config three_rows false 1 []).1 in
      List.map result_row results
        = seqZ (Z.max 1 1) (Z.of_nat (length three_rows) - Z.max 1 1 + 1)
      /\ exists log_k r,
           results !! Z.to_nat (Z.of_nat 1 + 1 - Z.max 1 1) = Some r
           /\ r = (process_row sample_float_repr rejecting_network sample_clock
                     blank_note_mapping sample_config false (Z.of_nat 1) row log_k).1
           /\ result_row r = Z.of_nat 1 + 1
           /\ (forall e,
                 transform_excel_row_to_api sample_float_repr blank_note_mapping
                   (sample_clock (Z.of_nat 1)) row = Raise e ->
                 r = RowFailed (Z.of_nat 1 + 1) (exn_msg e))
           /\ (forall p e, false = false ->
                 transform_excel_row_to_api sample_float_repr blank_note_mapping
                   (sample_clock (Z.of_nat 1)) row = Ok p ->
                 (send_to_api rejecting_network sample_config p log_k).1 = Raise e ->
                 result_status r = "failed" /\ result_error r = Some (exn_msg e))).
Proof.
  split; [reflexivity|]. split; [lia|].
  apply (row_failure_is_recorded_and_batch_continues sample_float_repr rejecting_network
           sample_clock blank_note_mapping sample_config three_rows false 1 [] 1%nat
           [(VStr "SKUID", VStr "PROD002"); (VStr "Days", VInt 30)]); [reflexivity | lia].
Defined.

(** The run of the witness above: the first and the third row are refused
    by the remote side, the second cannot be mapped; three results. *)
Lemma failed_rows_example :
  (process_excel_file sample_float_repr rejecting_network sample_clock
     blank_note_mapping sample_config three_rows false 1 []).1
  = [ RequestFailed 1 (VStr "1001-7")
        ("400 Client Error: Bad Request for url: " +:+ url sample_config)
        (Some "duplicate product code");
      RowFailed 2 "'float' object has no attribute 'lower'";
      RequestFailed 3 (VStr "1003-15")
        ("400 Client Error: Bad Request for url: " +:+ url sample_config)
        (Some "duplicate product code") ].
Proof. vm_compute. reflexivity. Qed.

(** C8 without the amendment fails on a row whose mapping raises: the run
    is dry, and the second result has the status "failed" and no payload. *)
Lemma dry_run_mapping_failure_is_failed :
  let results :=
    (process_excel_file sample_float_repr accepting_network sample_clock
       blank_note_mapping sample_config three_rows true 1 []).1 in
  List.map result_status results = ["dry_run"; "failed"; "dry_run"]
  /\ ~ Forall (fun r => result_status r = "dry_run" /\ is_Some (result_payload r)) results.
Proof.
  split; [vm_compute; reflexivity|].
  intros H. apply Forall_lookup_1 with (i := 1%nat)
    (x := RowFailed 2 "'float' object has no attribute 'lower'") in H.
  - destruct H as [H _]. vm_compute in H. discriminate H.
  - vm_compute. reflexivity.
Qed.

(** ** The further properties at concrete inputs *)

Lemma process_mapping_value_none_iff_blank_witness :
  _process_mapping_value sample_float_repr (VInt 123) (VStr "") = Ok (VStr "123")
  /\ (if is_blank (VInt 123) then VStr "123" = VNone else exists t, VStr "123" = VStr t).
Proof.
  split; [reflexivity|].
  apply (process_mapping_value_none_iff_blank sample_float_repr (VInt 123) (VStr "")).
  reflexivity.
Defined.

Lemma process_mapping_value_support_witness :
  Str.contains "support" (Str.lower "  Not SUPPORTED (hotspot) ") = true
  /\ _process_mapping_value sample_float_repr (VStr "  Not SUPPORTED (hotspot) ")
       (VFloat S754_nan) = Ok (VStr "1").
Proof.
  split; [vm_compute; reflexivity|].
  apply (process_mapping_value_support sample_float_repr). vm_compute. reflexivity.
Defined.

Lemma transform_fixed_fields_witness :
  transform_excel_row_to_api sample_float_repr sample_mapping sample_now sample_row
  = Ok sample_payload
  /\ productDescription sample_payload
     = "Thời gian sử dụng là số ngày kể từ ngày kích hoạt"
  /\ productDescriptionEn sample_payload
     = "The usage period is the number of days from the activation date."
  /\ weight sample_payload = None
  /\ constants sample_payload = (561, "01", 1, 1, 1, 101, VNone, 1).
Proof.
  split; [vm_compute; reflexivity|].
  apply (transform_fixed_fields sample_float_repr sample_mapping sample_now sample_row).
  vm_compute. reflexivity.
Defined.

(** A price that is not a number does not fail the row: the price stays
    at 0. *)
Lemma price_text_cell_keeps_default :
  exists p,
    transform_excel_row_to_api sample_float_repr sample_mapping sample_now unpriced_row
    = Ok p
    /\ List.map price (productPriceDTOS p) = [VInt 0]
    /\ List.map price (productVatDTOS p) = [VInt 10].
Proof. eexists. vm_compute. repeat split. Qed.

Lemma transform_product_code_witness :
  transform_excel_row_to_api sample_float_repr sample_mapping sample_now sample_row
  = Ok sample_payload
  /\ (exists code, productCode sample_payload = VStr code /\ code <> "")
  /\ (last_value_or sample_float_repr "" is_skuid_column sample_row <> "" ->
      transform_excel_row_to_api sample_float_repr sample_mapping later_now sample_row
      = Ok sample_payload).
Proof.
  split; [vm_compute; reflexivity|].
  apply (transform_product_code sample_float_repr sample_mapping sample_now later_now
           sample_row).
  vm_compute. reflexivity.
Defined.

Lemma transform_ignores_code_mapping_witness :
  transform_excel_row_to_api sample_float_repr sample_mapping sample_now sample_row
  = Ok sample_payload
  /\ transform_excel_row_to_api sample_float_repr (delete "Mã sản phẩm" sample_mapping)
       sample_now sample_row
     = Ok sample_payload.
Proof.
  split; [vm_compute; reflexivity|].
  apply (transform_ignores_code_mapping sample_float_repr sample_mapping sample_now
           sample_row).
  vm_compute. reflexivity.
Defined.

Lemma hotspot_slot_is_a_flag_witness :
  transform_excel_row_to_api sample_float_repr sample_mapping sample_now sample_row
  = Ok sample_payload
  /\ Forall (fun e =>
       productCategoryAttributeId e = 105 ->
       exists m,
         sample_mapping !! "Chia sẻ Wifi" = Some m
         /\ attributeValue e = VStr (hotspot_value sample_float_repr m sample_row)
         /\ (notna (excel_mapping m) = true ->
             attributeValue e = VStr "0" \/ attributeValue e = VStr "1"))
       (attributeValueList sample_payload).
Proof.
  split; [vm_compute; reflexivity|].
  apply (hotspot_slot_is_a_flag sample_float_repr sample_mapping sample_now sample_row).
  vm_compute. reflexivity.
Defined.

Lemma days_slot_is_integer_or_none_witness :
  transform_excel_row_to_api sample_float_repr sample_mapping sample_now sample_row
  = Ok sample_payload
  /\ Forall (fun e =>
       productCategoryAttributeId e = 109 ->
       attributeValue e = VNone \/ exists z, attributeValue e = VInt z)
       (attributeValueList sample_payload).
Proof.
  split; [vm_compute; reflexivity|].
  apply (days_slot_is_integer_or_none sample_float_repr sample_mapping sample_now
           sample_row).
  vm_compute. reflexivity.
Defined.

Lemma sim_type_slot_is_translated_witness :
  transform_excel_row_to_api sample_float_repr sample_mapping sample_now sample_row
  = Ok sample_payload
  /\ Forall (fun e =>
       productCategoryAttributeId e = 106 ->
       (exists m v,
          sample_mapping !! "Loại SIM" = Some m
          /\ resolve_attribute sample_float_repr "Loại SIM" (excel_mapping m) (notes m)
               sample_row = Ok v
          /\ let kind := Str.lower (Str.strip (py_str sample_float_repr v)) in
             (kind = "esim" -> attributeValue e = VStr "2")
             /\ (kind = "sim card" -> attributeValue e = VStr "1")
             /\ (kind <> "esim" -> kind <> "sim card" -> attributeValue e = v))
       /\ forall s, attributeValue e = VStr s ->
            Str.lower (Str.strip s) <> "esim" /\ Str.lower (Str.strip s) <> "sim card")
       (attributeValueList sample_payload).
Proof.
  split; [vm_compute; reflexivity|].
  apply (sim_type_slot_is_translated sample_float_repr sample_mapping sample_now
           sample_row).
  vm_compute. reflexivity.
Defined.

Lemma high_speed_slot_has_no_infinity_witness :
  transform_excel_row_to_api sample_float_repr sample_mapping sample_now sample_row
  = Ok sample_payload
  /\ Forall (fun e =>
       productCategoryAttributeId e = 101 ->
       (exists m v,
          sample_mapping !! "Dung lượng tốc độ cao" = Some m
          /\ resolve_attribute sample_float_repr "Dung lượng tốc độ cao"
               (excel_mapping m) (notes m) sample_row = Ok v
          /\ (Str.strip (py_str sample_float_repr v) = "∞" -> attributeValue e = VNone)
          /\ (Str.strip (py_str sample_float_repr v) <> "∞" -> attributeValue e = v))
       /\ Str.strip (py_str sample_float_repr (attributeValue e)) <> "∞")
       (attributeValueList sample_payload).
Proof.
  split; [vm_compute; reflexivity|].
  apply (high_speed_slot_has_no_infinity sample_float_repr sample_mapping sample_now
           sample_row).
  vm_compute. reflexivity.
Defined.

Lemma send_to_api_returns_only_good_status_witness :
  (send_to_api accepting_network sample_config sample_payload []).1 = Ok created_response
  /\ exists v,
       verb_of sample_config = Some v
       /\ (send_to_api accepting_network sample_config sample_payload []).2
          = ([] ++ [request_of sample_config v sample_payload])%list
       /\ accepting_network [] (request_of sample_config v sample_payload)
          = Ok created_response
       /\ (status_code created_response < 400 \/ 600 <= status_code created_response).
Proof.
  split; [reflexivity|].
  apply (send_to_api_returns_only_good_status accepting_network sample_config
           sample_payload [] created_response).
  reflexivity.
Defined.

Lemma process_excel_file_requests_witness :
  verb_of sample_config = Some POST
  /\ (process_excel_file sample_float_repr rejecting_network sample_clock
        blank_note_mapping sample_config three_rows false 2 []).2
     = ([] ++ List.map (request_of sample_config POST)
                (payloads_from sample_float_repr sample_clock blank_note_mapping 2 0
                   three_rows))%list.
Proof.
  split; [reflexivity|].
  apply (process_excel_file_requests sample_float_repr rejecting_network sample_clock
           blank_note_mapping sample_config POST three_rows 2 []).
  reflexivity.
Defined.

Lemma process_excel_file_unsupported_method_witness :
  verb_of delete_config = None
  /\ process_excel_file sample_float_repr accepting_network sample_clock
       blank_note_mapping delete_config three_rows false 2 []
     = (unsupported_results sample_float_repr sample_clock blank_note_mapping
          delete_config 2 0 three_rows, [])
  /\ Forall (unsupported_result sample_float_repr sample_clock blank_note_mapping
               delete_config three_rows)
       (process_excel_file sample_float_repr accepting_network sample_clock
          blank_note_mapping delete_config three_rows false 2 []).1.
Proof.
  split; [reflexivity|].
  apply (process_excel_file_unsupported_method sample_float_repr accepting_network
           sample_clock blank_note_mapping delete_config three_rows 2 []).
  reflexivity.
Defined.

(** The run of the witness above: the first row is skipped, the second
    cannot be mapped, the third meets the unsupported method. *)
Lemma unsupported_method_example :
  process_excel_file sample_float_repr accepting_network sample_clock
    blank_note_mapping delete_config three_rows false 2 []
  = ([ RowFailed 2 "'float' object has no attribute 'lower'";
       RowFailed 3 "Unsupported HTTP method: DELETE" ], []).
Proof. vm_compute. reflexivity. Qed.

Lemma create_single_product_as_batch_witness :
  1 <= 1
  /\ let single :=
       create_single_product sample_float_repr sample_series accepting_network
         sample_now sample_mapping sample_config sample_row false [] in
     let batch :=
       process_excel_file sample_float_repr accepting_network (fun _ => sample_now)
         sample_mapping sample_config [sample_series sample_row] false 1 [] in
     List.map as_single batch.1 = [single.1]
     /\ List.map result_status batch.1 = [single_status single.1]
     /\ batch.2 = single.2.
Proof.
  split; [lia|].
  apply (create_single_product_as_batch sample_float_repr sample_series
           accepting_network sample_now sample_mapping sample_config sample_row
           false 1 []).
  lia.
Defined.

Lemma create_single_product_success_witness :
  single_status
    (create_single_product sample_float_repr sample_series accepting_network sample_now
       sample_mapping sample_config sample_row false []).1 = "success"
  /\ false = false
  /\ exists p v response data,
       transform_excel_row_to_api sample_float_repr sample_mapping sample_now
         (sample_series sample_row) = Ok p
       /\ verb_of sample_config = Some v
       /\ accepting_network [] (request_of sample_config v p) = Ok response
       /\ (status_code response < 400 \/ 600 <= status_code response)
       /\ create_single_product sample_float_repr sample_series accepting_network
            sample_now sample_mapping sample_config sample_row false []
          = (SingleSuccess (productCode p) (status_code response) data,
             ([] ++ [request_of sample_config v p])%list).
Proof.
  split; [vm_compute; reflexivity|].
  apply (create_single_product_success sample_float_repr sample_series
           accepting_network sample_now sample_mapping sample_config sample_row
           false []).
  vm_compute. reflexivity.
Defined.

Lemma process_all_rows_requests_witness :
  Tool.data sample_tool = Some [(0, sample_row)]
  /\ Tool.column_mapping sample_tool <> []
  /\ let api_data_of (indexed : Z * excel_row) :=
       Tool.transform_row_to_api_format (Tool.column_mapping sample_tool) indexed.2 in
     Tool.process_all_rows accepting_tool_network sample_tool sample_config true []
     = (Ok (List.map
              (fun indexed => Tool.RowDryRun (indexed.1 + 1) (api_data_of indexed))
              [(0, sample_row)]), [])
     /\ forall v,
          verb_of sample_config = Some v ->
          (Tool.process_all_rows accepting_tool_network sample_tool sample_config false
             []).2
          = ([] ++ List.map
                     (fun indexed => tool_request sample_config v (api_data_of indexed))
                     [(0, sample_row)])%list.
Proof.
  split; [reflexivity|]. split; [discriminate|].
  apply (process_all_rows_requests accepting_tool_network sample_config sample_tool
           [(0, sample_row)] []).
  - reflexivity.
  - discriminate.
Defined.

(** A real run with the method POST on the same tool issues one request;
    a dry run with the method DELETE returns the dictionary of the row and
    issues none. *)
Lemma process_all_rows_example :
  verb_of sample_config = Some POST
  /\ (Tool.process_all_rows accepting_tool_network sample_tool sample_config false []).2
     = [tool_request sample_config POST
          (Tool.transform_row_to_api_format (Tool.column_mapping sample_tool)
             sample_row)]
  /\ verb_of delete_config = None
  /\ Tool.process_all_rows accepting_tool_network sample_tool delete_config true []
     = (Ok [Tool.RowDryRun 1
              (Tool.transform_row_to_api_format (Tool.column_mapping sample_tool)
                 sample_row)], []).
Proof. repeat split; vm_compute; reflexivity. Qed.
